(** * docker-image-optimizer: parser, rule engine and strategy pipeline

    A shallow embedding of the analysis and optimisation core of the
    repository (packages [models], [analyzer], [optimizer] and [policy]) and
    the properties of it that the specification states or that the code
    shows.

    Conventions of the embedding.
    - A Go [string] is a byte string: Rocq's [string], one [ascii] per byte.
      The functions of Go's [strings] package are modelled on bytes, with the
      behaviour they have on ASCII text: a byte of 128 or more is an ordinary
      character that is neither white space nor a letter with a case.  Four
      of them read runes in Go: [TrimSpace] and [Fields] also take the white
      space of Unicode (U+00A0 and the like) for white space, and [ToUpper]
      and [ToLower] also map the letters of Unicode, with the tables of the
      Go release that builds the program.  On a text whose bytes are all
      below 128 ([isASCII]) they run the ASCII loops of Go, which are the
      functions of [GoStrings].  A property that depends on how the lines of
      a text are read is stated for such texts; a property that relates
      results of the program to each other is stated for every text.
    - A Go slice is a [list]; [append] adds at the end.
    - A Go [int] is 64 bits wide.  Where a value is accumulated
      ([calculateScore], [estimateReduction]) the wrap-around is written out
      with [wrap64].  Counters that grow by at most one per element of a slice
      (line numbers, [stageCount], [consecutiveRuns]) cannot leave the range
      of [int], because the length of the slice is itself an [int]; they are
      plain numbers.
    - A [for ... range] loop is a recursion over the list; the loop variables
      are given afresh to every iteration, as Go does, so an assignment to
      the index in the body does not move the loop.
    - A pointer that may be [nil] is an [option]; an [error] is an
      [option string].

    The file has the packages first ([GoStrings], [GoInt], [models],
    [analyzer], [optimizer], and after the vocabulary of the first
    properties [hadolint] and [policy]), then the vocabulary of the
    properties (the modules whose names end in [Terms]), then the
    properties (the modules whose names end in [Spec]). *)

From Stdlib Require Import ZArith List String Ascii Bool Lia Permutation Sorted.
Import ListNotations.

Open Scope string_scope.
Open Scope list_scope.
Open Scope Z_scope.

Infix "+++" := String.append (at level 60, right associativity).

(** Case analysis on every condition of the goal. *)
Ltac case_ifs :=
  repeat match goal with
         | |- context [if ?b then _ else _] => destruct b
         end.

(* ================================================================== *)
(** * Go's [strings] package and the regular expressions of the code *)
(* ================================================================== *)

Module GoStrings.

Definition LF : ascii := "010"%char.
Definition DQ : ascii := "034"%char.
Definition nl : string := String LF "".

Definition code (c : ascii) : nat := nat_of_ascii c.

Definition between (lo hi : nat) (c : ascii) : bool :=
  (Nat.leb lo (code c) && Nat.leb (code c) hi)%bool.

(** [unicode.IsSpace] on a byte below 128: tab, line feed, vertical tab,
    form feed, carriage return and space. *)
Definition isSpace (c : ascii) : bool :=
  (between 9 13 c || Nat.eqb (code c) 32)%bool.

(** The class [\s] of Go's [regexp]: tab, line feed, form feed, carriage
    return and space (no vertical tab). *)
Definition isReSpace (c : ascii) : bool :=
  (between 9 10 c || between 12 13 c || Nat.eqb (code c) 32)%bool.

(** The class [\w] of Go's [regexp]: [0-9A-Za-z_]. *)
Definition isWord (c : ascii) : bool :=
  (between 48 57 c || between 65 90 c || between 97 122 c
   || Nat.eqb (code c) 95)%bool.

Definition upperByte (c : ascii) : ascii :=
  if between 97 122 c then ascii_of_nat (code c - 32) else c.

Definition lowerByte (c : ascii) : ascii :=
  if between 65 90 c then ascii_of_nat (code c + 32) else c.

Fixpoint mapBytes (f : ascii -> ascii) (s : string) : string :=
  match s with
  | EmptyString => EmptyString
  | String c s' => String (f c) (mapBytes f s')
  end.

Definition ToUpper (s : string) : string := mapBytes upperByte s.
Definition ToLower (s : string) : string := mapBytes lowerByte s.

(** A text of ASCII bytes: every byte is below [utf8.RuneSelf], which is
    128. On such a text [strings.TrimSpace], [strings.Fields],
    [strings.ToUpper] and [strings.ToLower] never leave their loops over
    bytes. *)
Fixpoint isASCII (s : string) : bool :=
  match s with
  | EmptyString => true
  | String c s' => (Nat.ltb (code c) 128 && isASCII s')%bool
  end.

Definition isEmpty (s : string) : bool :=
  match s with EmptyString => true | String _ _ => false end.

Fixpoint TrimLeft (s : string) : string :=
  match s with
  | EmptyString => EmptyString
  | String c s' => if isSpace c then TrimLeft s' else s
  end.

Fixpoint TrimRight (s : string) : string :=
  match s with
  | EmptyString => EmptyString
  | String c s' =>
      let r := TrimRight s' in
      if (isEmpty r && isSpace c)%bool then EmptyString else String c r
  end.

Definition TrimSpace (s : string) : string := TrimRight (TrimLeft s).

(** [strings.HasPrefix(s, p)]. *)
Definition HasPrefix (s p : string) : bool := String.prefix p s.

(** [strings.HasSuffix(s, suffix)]. *)
Fixpoint HasSuffix (s suffix : string) : bool :=
  ((s =? suffix)%string
   || match s with
      | EmptyString => false
      | String _ s' => HasSuffix s' suffix
      end)%bool.

(** [strings.TrimSuffix(s, suffix)]: [s] without the suffix when it ends
    in it, [s] otherwise. *)
Fixpoint TrimSuffix (s suffix : string) : string :=
  if (s =? suffix)%string then EmptyString
  else match s with
       | EmptyString => EmptyString
       | String c s' =>
           if HasSuffix s' suffix then String c (TrimSuffix s' suffix) else s
       end.

(** [strings.Contains(s, substr)]. *)
Fixpoint Contains (s substr : string) : bool :=
  (String.prefix substr s
   || match s with
      | EmptyString => false
      | String _ s' => Contains s' substr
      end)%bool.

(** [strings.Index(s, substr)]: the byte offset of the first occurrence,
    -1 when there is none. *)
Fixpoint Index (s substr : string) : Z :=
  if String.prefix substr s then 0
  else match s with
       | EmptyString => -1
       | String _ s' => let r := Index s' substr in
                        if r =? -1 then -1 else r + 1
       end.

(** The slice expression [s[:n]]. *)
Definition sliceTo (s : string) (n : Z) : string :=
  String.substring 0 (Z.to_nat n) s.

(** The slice expression [s[n:]]. *)
Definition sliceFrom (s : string) (n : Z) : string :=
  String.substring (Z.to_nat n) (String.length s - Z.to_nat n) s.

(** [strings.Split(s, sep)] for a separator of one byte, which is what every
    call of the code passes. The result is never empty. *)
Fixpoint Split (s : string) (sep : ascii) : list string :=
  match s with
  | EmptyString => [EmptyString]
  | String c s' =>
      if Ascii.eqb c sep then EmptyString :: Split s' sep
      else match Split s' sep with
           | [] => [String c EmptyString]
           | h :: t => String c h :: t
           end
  end.

(** [strings.Join(elems, sep)]. *)
Definition Join (elems : list string) (sep : string) : string :=
  String.concat sep elems.

(** [strings.Fields(s)]: the maximal runs of bytes that are not white space.
    [cur] is the field being read. *)
Fixpoint fieldsFrom (cur : string) (s : string) : list string :=
  match s with
  | EmptyString => if isEmpty cur then [] else [cur]
  | String c s' =>
      if isSpace c
      then (if isEmpty cur then fieldsFrom EmptyString s'
            else cur :: fieldsFrom EmptyString s')
      else fieldsFrom (cur +++ String c EmptyString) s'
  end.

Definition Fields (s : string) : list string := fieldsFrom EmptyString s.

(** [strings.ReplaceAll(s, old, new)] for a non-empty [old]: the
    occurrences of [old] are replaced from left to right, without overlap.
    [skip] counts the bytes of an occurrence still to be passed over. *)
Fixpoint replaceFrom (skip : nat) (s old new : string) : string :=
  match s with
  | EmptyString => EmptyString
  | String c s' =>
      match skip with
      | S k => replaceFrom k s' old new
      | O =>
          if String.prefix old s
          then new +++ replaceFrom (String.length old - 1) s' old new
          else String c (replaceFrom 0 s' old new)
      end
  end.

Definition ReplaceAll (s old new : string) : string := replaceFrom 0 s old new.

(** The longest prefix of [s] whose bytes satisfy [p], and what follows. *)
Fixpoint span (p : ascii -> bool) (s : string) : string * string :=
  match s with
  | EmptyString => (EmptyString, EmptyString)
  | String c s' =>
      if p c then let (a, b) := span p s' in (String c a, b)
      else (EmptyString, s)
  end.

Definition notLF (c : ascii) : bool := negb (Ascii.eqb c LF).

(** [instructionRegex.FindStringSubmatch(s)], for the expression made of
    [^], a group [\w+], then [\s+], then a group of any bytes ([.], starred): [None]
    for no match, otherwise the two groups. The groups are greedy and the
    last one always matches, so the first is the longest run of word bytes,
    it is followed by the longest run of [\s], and the second group runs to
    the end of the line ([.] matches no line feed). *)
Definition instructionRegex (s : string) : option (string * string) :=
  let (w, r1) := span isWord s in
  let (sp, r2) := span isReSpace r1 in
  if (isEmpty w || isEmpty sp)%bool then None
  else Some (w, fst (span notLF r2)).

(** The expression "(apt-get install[^\n]+)": the length of the match
    that starts at the head of [s], if there is one. The match is the literal
    and then every byte up to the end of the line, at least one. *)
Definition aptGetPattern (s : string) : option nat :=
  if String.prefix "apt-get install" s then
    let rest := String.substring 15 (String.length s - 15) s in
    let (line, _) := span notLF rest in
    if isEmpty line then None else Some (15 + String.length line)%nat
  else None.

(** [re.ReplaceAllStringFunc(s, repl)] for a pattern [re] whose matches are
    never empty: the leftmost match is replaced and the scan goes on after
    it. [skip] counts the bytes of a match still to be passed over. *)
Fixpoint replaceAllFrom (re : string -> option nat) (repl : string -> string)
    (skip : nat) (s : string) : string :=
  match s with
  | EmptyString => EmptyString
  | String c s' =>
      match skip with
      | S k => replaceAllFrom re repl k s'
      | O =>
          match re s with
          | Some (S n) =>
              repl (String.substring 0 (S n) s) +++ replaceAllFrom re repl n s'
          | _ => String c (replaceAllFrom re repl 0 s')
          end
      end
  end.

Definition ReplaceAllStringFunc (re : string -> option nat) (s : string)
    (repl : string -> string) : string := replaceAllFrom re repl 0 s.

(** [%d] of [fmt.Sprintf]. *)
Fixpoint digitsOf (fuel : nat) (n : Z) (acc : string) : string :=
  match fuel with
  | O => acc
  | S f =>
      let acc' := String (ascii_of_nat (48 + Z.to_nat (n mod 10))) acc in
      if n <? 10 then acc' else digitsOf f (n / 10) acc'
  end.

Definition formatInt (n : Z) : string :=
  if n <? 0 then "-" +++ digitsOf 20 (- n) EmptyString
  else digitsOf 20 n EmptyString.

(** [s[n:]] for a number of bytes [n]. *)
Definition dropBytes (n : nat) (s : string) : string :=
  String.substring n (String.length s - n) s.

(** The conversion [string(rune(n))] of an [int] [n]: the UTF-8 encoding of
    the code point that [n] is as an [int32], and of U+FFFD when that is no
    code point. *)
Definition byteOf (z : Z) : ascii := ascii_of_nat (Z.to_nat z).

Definition stringOfBytes (l : list Z) : string :=
  fold_right (fun b s => String (byteOf b) s) EmptyString l.

Definition stringOfRune (n : Z) : string :=
  let r := (n + 2 ^ 31) mod 2 ^ 32 - 2 ^ 31 in
  let cont := fun k => 128 + (r / 2 ^ k) mod 64 in
  if (r <? 0) || (1114111 <? r) || ((55296 <=? r) && (r <=? 57343))
  then stringOfBytes [239; 191; 189]
  else if r <? 128 then stringOfBytes [r]
  else if r <? 2048 then stringOfBytes [192 + r / 2 ^ 6; cont 0]
  else if r <? 65536 then stringOfBytes [224 + r / 2 ^ 12; cont 6; cont 0]
  else stringOfBytes [240 + r / 2 ^ 18; cont 12; cont 6; cont 0].

(** [MatchString(s)] of the expression "^COPY\s+\.\s+\.". *)
Definition copyAllRegex (s : string) : bool :=
  if String.prefix "COPY" s then
    let (sp1, r1) := span isReSpace (dropBytes 4 s) in
    match r1 with
    | String "." r2 =>
        let (sp2, r3) := span isReSpace r2 in
        (negb (isEmpty sp1) && negb (isEmpty sp2) && String.prefix "." r3)%bool
    | _ => false
    end
  else false.

(** The end of the expression of [PinVersionRule], "\s+\w+\s*($|&&)",
    matched at the head of [s]. Each run is followed by a byte outside its
    class, so each run is the longest one. *)
Definition unpinnedTail (s : string) : bool :=
  let (sp, r1) := span isReSpace s in
  let (w, r2) := span isWord r1 in
  let (_, r3) := span isReSpace r2 in
  (negb (isEmpty sp) && negb (isEmpty w)
   && (isEmpty r3 || String.prefix "&&" r3))%bool.

(** Any bytes of one line, then [unpinnedTail]. *)
Fixpoint unpinnedRest (s : string) : bool :=
  (unpinnedTail s
   || match s with
      | EmptyString => false
      | String c s' => notLF c && unpinnedRest s'
      end)%bool.

(** [MatchString(s)] of the expression of [PinVersionRule]: "apt-get install"
    or "apk add" somewhere in [s], then [unpinnedRest]. *)
Fixpoint unpinnedRegex (s : string) : bool :=
  ((String.prefix "apt-get install" s && unpinnedRest (dropBytes 15 s))
   || (String.prefix "apk add" s && unpinnedRest (dropBytes 7 s))
   || match s with
      | EmptyString => false
      | String _ s' => unpinnedRegex s'
      end)%bool.

End GoStrings.

Module GoInt.

(** The value an [int] holds after an operation whose exact result is [z]. *)
Definition wrap64 (z : Z) : Z := (z + 2 ^ 63) mod 2 ^ 64 - 2 ^ 63.

(** No object of a Go program occupies more than 2^48 bytes (the runtime's
    address space on 64-bit targets), so a slice of records has fewer than
    2^48 elements. *)
Definition maxSliceLen : Z := 2 ^ 48.

End GoInt.

(* ================================================================== *)
(** * Package [models] *)
(* ================================================================== *)

Module models.

Definition Severity := string.
Definition SeverityCritical : Severity := "critical".
Definition SeverityHigh : Severity := "high".
Definition SeverityMedium : Severity := "medium".
Definition SeverityLow : Severity := "low".
Definition SeverityInfo : Severity := "info".

(** [models.Issue]. The fields [Severity] and [Line] are [IssueSeverity] and
    [IssueLine] here. *)
Record Issue := {
  ID : string;
  IssueSeverity : Severity;
  Category : string;
  Title : string;
  Description : string;
  IssueLine : Z;
  Suggestion : string;
  AutoFixable : bool
}.

Record AnalysisResult := {
  Dockerfile : string;
  Issues : list Issue;
  Score : Z
}.

(** [models.Optimization]. The fields that [Issue] has too carry the prefix
    [Opt]. *)
Record Optimization := {
  OptID : string;
  OptCategory : string;
  OptTitle : string;
  OptDescription : string;
  Impact : string;
  Applied : bool;
  OptAutoFixable : bool;
  Priority : Z
}.

Record OptimizationResult := {
  OriginalDockerfile : string;
  OptimizedDockerfile : string;
  Optimizations : list Optimization;
  EstimatedReduction : string
}.

End models.

(* ================================================================== *)
(** * Package [analyzer] *)
(* ================================================================== *)

Module analyzer.
Import GoStrings GoInt models.

Record Instruction := {
  Command : string;
  Args : string;
  Line : Z;
  Raw : string
}.

(** [analyzer.Stage]; its field [Instructions] is [StageInstructions]. *)
Record Stage := {
  Name : string;
  BaseImage : string;
  StageInstructions : list Instruction;
  StartLine : Z
}.

Record ParsedDockerfile := {
  Stages : list Stage;
  Instructions : list Instruction;
  BaseImages : list string;
  HasMultiStage : bool
}.

Record AnalysisContext := {
  FilePath : string;
  Content : string;
  Lines : list string;
  ParsedFile : ParsedDockerfile;
  MissingDockerignore : bool
}.

(** ** The parser *)

Definition backslash : string := String "092"%char EmptyString.

Definition parseBaseImage (args : string) : string :=
  match Fields args with
  | [] => EmptyString
  | p :: _ => ToLower p
  end.

Fixpoint stageNameIn (parts : list string) : string :=
  match parts with
  | [] => EmptyString
  | p :: rest =>
      match rest with
      | next :: _ => if (ToLower p =? "as")%string then next else stageNameIn rest
      | [] => EmptyString
      end
  end.

Definition parseStageName (args : string) : string := stageNameIn (Fields args).

(** The loop that joins continuation lines. [following] is [lines[i+1:]], so
    [i+1 < len(lines)] says that it is not empty. The result is the value of
    [i] and of [trimmed] when the loop ends. *)
Fixpoint joinContinuation (following : list string) (i : nat) (trimmed : string)
    : nat * string :=
  match following with
  | [] => (i, trimmed)
  | next :: following' =>
      if HasSuffix trimmed backslash
      then joinContinuation following' (S i)
             (TrimSuffix trimmed backslash +++ " " +++ TrimSpace next)
      else (i, trimmed)
  end.

(** The body of the loop of [parseDockerfile] up to the construction of
    [inst]: [None] where the body runs [continue]. *)
Definition readInstruction (i : nat) (line : string) (following : list string)
    : option Instruction :=
  let trimmed := TrimSpace line in
  if ((trimmed =? "")%string || HasPrefix trimmed "#")%bool then None
  else
    let (i', trimmed') := joinContinuation following i trimmed in
    match instructionRegex trimmed' with
    | None => None
    | Some (m1, m2) =>
        Some {| Command := ToUpper m1;
                Args := m2;
                Line := Z.of_nat i' + 1;
                Raw := trimmed' |}
    end.

(** What the loop of [parseDockerfile] carries from one line to the next. *)
Record ParseState := {
  pdf : ParsedDockerfile;
  currentStage : option Stage;
  stageCount : Z
}.

Definition initialState : ParseState :=
  {| pdf := {| Stages := []; Instructions := []; BaseImages := [];
               HasMultiStage := false |};
     currentStage := None;
     stageCount := 0 |}.

Definition closeStage (stages : list Stage) (cur : option Stage) : list Stage :=
  match cur with
  | Some s => stages ++ [s]
  | None => stages
  end.

Definition appendToStage (cur : option Stage) (inst : Instruction)
    : option Stage :=
  match cur with
  | Some s =>
      Some {| Name := Name s; BaseImage := BaseImage s;
              StageInstructions := StageInstructions s ++ [inst];
              StartLine := StartLine s |}
  | None => None
  end.

(** The rest of the body: [inst] is appended to [pdf.Instructions]; a [FROM]
    closes the open stage and opens a new one; [inst] is appended to the
    open stage, if there is one. *)
Definition addInstruction (st : ParseState) (inst : Instruction) : ParseState :=
  let p := pdf st in
  let instructions := Instructions p ++ [inst] in
  if (Command inst =? "FROM")%string then
    let baseImage := parseBaseImage (Args inst) in
    let opened := {| Name := parseStageName (Args inst);
                     BaseImage := baseImage;
                     StageInstructions := [];
                     StartLine := Line inst |} in
    {| pdf := {| Stages := closeStage (Stages p) (currentStage st);
                 Instructions := instructions;
                 BaseImages := BaseImages p ++ [baseImage];
                 HasMultiStage := HasMultiStage p |};
       currentStage := appendToStage (Some opened) inst;
       stageCount := stageCount st + 1 |}
  else
    {| pdf := {| Stages := Stages p;
                 Instructions := instructions;
                 BaseImages := BaseImages p;
                 HasMultiStage := HasMultiStage p |};
       currentStage := appendToStage (currentStage st) inst;
       stageCount := stageCount st |}.

Definition parseLine (i : nat) (line : string) (following : list string)
    (st : ParseState) : ParseState :=
  match readInstruction i line following with
  | None => st
  | Some inst => addInstruction st inst
  end.

(** [for i, line := range lines]: every line is visited, whatever the body
    did to its own [i]. *)
Fixpoint parseLoop (i : nat) (lines : list string) (st : ParseState)
    : ParseState :=
  match lines with
  | [] => st
  | line :: following => parseLoop (S i) following (parseLine i line following st)
  end.

Definition parseDockerfile (lines : list string) : ParsedDockerfile :=
  let st := parseLoop 0 lines initialState in
  {| Stages := closeStage (Stages (pdf st)) (currentStage st);
     Instructions := Instructions (pdf st);
     BaseImages := BaseImages (pdf st);
     HasMultiStage := 1 <? stageCount st |}.

(** ** The score *)

Definition scoreStep (score : Z) (issue : Issue) : Z :=
  let sev := IssueSeverity issue in
  if (sev =? SeverityCritical)%string then wrap64 (score - 20)
  else if (sev =? SeverityHigh)%string then wrap64 (score - 15)
  else if (sev =? SeverityMedium)%string then wrap64 (score - 10)
  else if (sev =? SeverityLow)%string then wrap64 (score - 5)
  else if (sev =? SeverityInfo)%string then wrap64 (score - 2)
  else score.

Definition calculateScore (issues : list Issue) : Z :=
  let score := fold_left scoreStep issues 100 in
  if score <? 0 then 0 else score.

(** ** Rules *)

(** The interface [Rule]. *)
Record Rule := {
  RuleID : string;
  Check : AnalysisContext -> list Issue
}.

Definition anyContains (s : string) (substrs : list string) : bool :=
  existsb (fun sub => Contains s sub) substrs.

(** *** DIO001 *)

Definition latestTagIssue (img : string) (line : Z) : Issue :=
  {| ID := "DIO001";
     IssueSeverity := SeverityHigh;
     Category := "base-image";
     Title := "Unpinned base image tag";
     Description := "Using 'latest' or untagged base image: " +++ img;
     IssueLine := line;
     Suggestion := "Pin to a specific version, e.g., " +++ img +++ ":22.04";
     AutoFixable := false |}.

Definition LatestTagCheck (ctx : AnalysisContext) : list Issue :=
  flat_map
    (fun img =>
       if (HasSuffix img ":latest" || negb (Contains img ":"))%bool then
         if (img =? "scratch")%string then []
         else
           match find (fun inst =>
                         ((Command inst =? "FROM")%string
                          && Contains (ToLower (Args inst)) img)%bool)
                      (Instructions (ParsedFile ctx)) with
           | Some inst => [latestTagIssue img (Line inst)]
           | None => []
           end
       else [])
    (BaseImages (ParsedFile ctx)).

(** *** DIO002 *)

Definition MissingDockerignoreCheck (ctx : AnalysisContext) : list Issue :=
  if negb (MissingDockerignore ctx) then []
  else
    [{| ID := "DIO002";
        IssueSeverity := SeverityMedium;
        Category := "best-practice";
        Title := "Missing .dockerignore";
        Description := "No .dockerignore file found. This may cause unnecessary files to be included in the build context.";
        IssueLine := 0;
        Suggestion := "Create a .dockerignore file to exclude node_modules, .git, docs, etc.";
        AutoFixable := true |}].

(** *** DIO003 *)

Definition isLayer (inst : Instruction) : bool :=
  ((Command inst =? "RUN")%string || (Command inst =? "COPY")%string
   || (Command inst =? "ADD")%string)%bool.

Definition TooManyLayersCheck (ctx : AnalysisContext) : list Issue :=
  match rev (Stages (ParsedFile ctx)) with
  | [] => []
  | finalStage :: _ =>
      let layerCount :=
        Z.of_nat (List.length (filter isLayer (StageInstructions finalStage))) in
      if 15 <? layerCount then
        [{| ID := "DIO003";
            IssueSeverity := SeverityMedium;
            Category := "optimization";
            Title := "Too many layers";
            Description := "Final stage has " +++ stringOfRune (layerCount + 48)
                           +++ " layers. Consider combining RUN commands.";
            IssueLine := 0;
            Suggestion := "Combine related RUN commands using && to reduce layers.";
            AutoFixable := true |}]
      else []
  end.

(** *** DIO004 *)

Definition AptGetCheck (ctx : AnalysisContext) : list Issue :=
  flat_map
    (fun inst =>
       if negb (Command inst =? "RUN")%string then []
       else if (Contains (Args inst) "apt-get install"
                && negb (Contains (Args inst) "--no-install-recommends"))%bool
       then
         [{| ID := "DIO004";
             IssueSeverity := SeverityMedium;
             Category := "optimization";
             Title := "apt-get install without --no-install-recommends";
             Description := "apt-get install should use --no-install-recommends to avoid unnecessary packages.";
             IssueLine := Line inst;
             Suggestion := "Add --no-install-recommends to apt-get install commands.";
             AutoFixable := true |}]
       else [])
    (Instructions (ParsedFile ctx)).

(** *** DIO005 *)

Definition cacheNotCleanedIssue (line : Z) : Issue :=
  {| ID := "DIO005";
     IssueSeverity := SeverityMedium;
     Category := "optimization";
     Title := "Package manager cache not cleaned";
     Description := "apt-get commands should clean up cache in the same layer.";
     IssueLine := line;
     Suggestion := "Add '&& rm -rf /var/lib/apt/lists/*' to the same RUN command.";
     AutoFixable := true |}.

Definition pipCacheIssue (line : Z) : Issue :=
  {| ID := "DIO005" +++ "-pip";
     IssueSeverity := SeverityLow;
     Category := "optimization";
     Title := "pip install without --no-cache-dir";
     Description := "pip install should use --no-cache-dir to reduce image size.";
     IssueLine := line;
     Suggestion := "Add --no-cache-dir to pip install commands.";
     AutoFixable := true |}.

Definition CacheNotCleanedCheck (ctx : AnalysisContext) : list Issue :=
  flat_map
    (fun inst =>
       if negb (Command inst =? "RUN")%string then []
       else
         let hasAptGet := anyContains (Args inst)
                            ["apt-get install"; "apt-get update"] in
         let hasClean := anyContains (Args inst)
                           ["rm -rf /var/lib/apt/lists"; "apt-get clean";
                            "apt-get autoremove"] in
         let hasPip := Contains (Args inst) "pip install" in
         let hasPipNoCache := Contains (Args inst) "--no-cache-dir" in
         (if (hasAptGet && negb hasClean)%bool
          then [cacheNotCleanedIssue (Line inst)] else [])
         ++ (if (hasPip && negb hasPipNoCache)%bool
             then [pipCacheIssue (Line inst)] else []))
    (Instructions (ParsedFile ctx)).

(** *** DIO006 *)

Definition RootUserCheck (ctx : AnalysisContext) : list Issue :=
  let hasUserInstruction :=
    existsb (fun inst =>
               ((Command inst =? "USER")%string
                && (let user := TrimSpace (Args inst) in
                    negb (user =? "root")%string && negb (user =? "0")%string))%bool)
            (Instructions (ParsedFile ctx)) in
  if negb hasUserInstruction then
    [{| ID := "DIO006";
        IssueSeverity := SeverityHigh;
        Category := "security";
        Title := "Container runs as root";
        Description := "No USER instruction found. The container will run as root by default.";
        IssueLine := 0;
        Suggestion := "Add 'USER nonroot' or create a dedicated user.";
        AutoFixable := true |}]
  else [].

(** *** DIO007 *)

Definition CopyAllCheck (ctx : AnalysisContext) : list Issue :=
  flat_map
    (fun inst =>
       if ((Command inst =? "COPY")%string && copyAllRegex (Raw inst))%bool then
         [{| ID := "DIO007";
             IssueSeverity := SeverityLow;
             Category := "optimization";
             Title := "Copying entire build context";
             Description := "COPY . . copies the entire build context. Consider copying only needed files.";
             IssueLine := Line inst;
             Suggestion := "Copy specific files/directories instead, or ensure .dockerignore is comprehensive.";
             AutoFixable := false |}]
       else [])
    (Instructions (ParsedFile ctx)).

(** *** DIO008 *)

Definition NoMultiStageCheck (ctx : AnalysisContext) : list Issue :=
  if HasMultiStage (ParsedFile ctx) then []
  else
    let buildIndicators :=
      ["npm run build"; "go build"; "mvn"; "gradle"; "make"; "cargo build";
       "dotnet publish"; "gcc"; "g++"] in
    let hasBuild :=
      existsb (fun inst =>
                 ((Command inst =? "RUN")%string
                  && anyContains (ToLower (Args inst)) buildIndicators)%bool)
              (Instructions (ParsedFile ctx)) in
    if hasBuild then
      [{| ID := "DIO008";
          IssueSeverity := SeverityHigh;
          Category := "optimization";
          Title := "No multi-stage build";
          Description := "Build commands detected but no multi-stage build used. This includes build tools in the final image.";
          IssueLine := 0;
          Suggestion := "Use multi-stage builds to separate build and runtime stages.";
          AutoFixable := true |}]
    else [].

(** *** DIO009 *)

Definition PinVersionCheck (ctx : AnalysisContext) : list Issue :=
  flat_map
    (fun inst =>
       if ((Command inst =? "RUN")%string && unpinnedRegex (Args inst))%bool then
         if negb (Contains (Args inst) "=") then
           [{| ID := "DIO009";
               IssueSeverity := SeverityLow;
               Category := "reproducibility";
               Title := "Unpinned package versions";
               Description := "Package versions are not pinned, which may lead to non-reproducible builds.";
               IssueLine := Line inst;
               Suggestion := "Pin package versions, e.g., curl=7.88.1-10+deb12u5";
               AutoFixable := false |}]
         else []
       else [])
    (Instructions (ParsedFile ctx)).

(** *** DIO010 *)

Definition combineRunIssue (firstRunLine : Z) : Issue :=
  {| ID := "DIO010";
     IssueSeverity := SeverityMedium;
     Category := "optimization";
     Title := "Consecutive RUN commands";
     Description :=
       "Multiple consecutive RUN commands can be combined to reduce layers.";
     IssueLine := firstRunLine;
     Suggestion := "Combine RUN commands using && to reduce image layers.";
     AutoFixable := true |}.

(** The variables of [CombineRunRule.Check]. *)
Record RunScan := {
  issues : list Issue;
  consecutiveRuns : Z;
  firstRunLine : Z
}.

Definition combineRunStep (st : RunScan) (inst : Instruction) : RunScan :=
  if (Command inst =? "RUN")%string then
    let runs := consecutiveRuns st + 1 in
    let first := if runs =? 1 then Line inst else firstRunLine st in
    if 3 <=? runs then
      {| issues := issues st ++ [combineRunIssue first];
         consecutiveRuns := 0;
         firstRunLine := first |}
    else
      {| issues := issues st; consecutiveRuns := runs; firstRunLine := first |}
  else
    {| issues := issues st; consecutiveRuns := 0;
       firstRunLine := firstRunLine st |}.

Definition CombineRunCheck (instructions : list Instruction) : list Issue :=
  issues (fold_left combineRunStep instructions
            {| issues := []; consecutiveRuns := 0; firstRunLine := 0 |}).

Definition CombineRunRule : Rule :=
  {| RuleID := "DIO010";
     Check := fun ctx => CombineRunCheck (Instructions (ParsedFile ctx)) |}.

(** *** DIO011 *)

Definition WorkdirCheck (ctx : AnalysisContext) : list Issue :=
  let hasWorkdir :=
    existsb (fun inst => (Command inst =? "WORKDIR")%string)
            (Instructions (ParsedFile ctx)) in
  if negb hasWorkdir then
    [{| ID := "DIO011";
        IssueSeverity := SeverityLow;
        Category := "best-practice";
        Title := "No WORKDIR set";
        Description := "No WORKDIR instruction found. Files will be placed in / by default.";
        IssueLine := 0;
        Suggestion := "Add WORKDIR /app or similar to set a proper working directory.";
        AutoFixable := true |}]
  else [].

(** *** DIO012 *)

Definition HealthcheckCheck (ctx : AnalysisContext) : list Issue :=
  if existsb (fun inst => (Command inst =? "HEALTHCHECK")%string)
             (Instructions (ParsedFile ctx))
  then []
  else
    [{| ID := "DIO012";
        IssueSeverity := SeverityInfo;
        Category := "best-practice";
        Title := "No HEALTHCHECK defined";
        Description := "Consider adding a HEALTHCHECK instruction for container orchestration.";
        IssueLine := 0;
        Suggestion := "Add HEALTHCHECK CMD curl -f http://localhost/ || exit 1";
        AutoFixable := false |}].

Definition DefaultRules : list Rule :=
  [ {| RuleID := "DIO001"; Check := LatestTagCheck |};
    {| RuleID := "DIO002"; Check := MissingDockerignoreCheck |};
    {| RuleID := "DIO003"; Check := TooManyLayersCheck |};
    {| RuleID := "DIO004"; Check := AptGetCheck |};
    {| RuleID := "DIO005"; Check := CacheNotCleanedCheck |};
    {| RuleID := "DIO006"; Check := RootUserCheck |};
    {| RuleID := "DIO007"; Check := CopyAllCheck |};
    {| RuleID := "DIO008"; Check := NoMultiStageCheck |};
    {| RuleID := "DIO009"; Check := PinVersionCheck |};
    CombineRunRule;
    {| RuleID := "DIO011"; Check := WorkdirCheck |};
    {| RuleID := "DIO012"; Check := HealthcheckCheck |} ].

(** ** The analyzer *)

Record Analyzer := {
  rules : list Rule;
  useHadolint : bool
}.

(** [NewWithOptions(enableHadolint)], where [hadolintAvailable] is what
    [isHadolintAvailable()] finds on the machine; [New()] is
    [NewWithOptions true]. [AnalyzeContent] does not read the flag. *)
Definition NewWithOptions (hadolintAvailable enableHadolint : bool) : Analyzer :=
  {| rules := DefaultRules;
     useHadolint := (enableHadolint && hadolintAvailable)%bool |}.

Definition New (hadolintAvailable : bool) : Analyzer :=
  {| rules := DefaultRules; useHadolint := hadolintAvailable |}.

Definition AnalyzeContent (a : Analyzer) (content : string) : AnalysisResult :=
  let lines := Split content LF in
  let ctx := {| FilePath := "<stdin>";
                Content := content;
                Lines := lines;
                ParsedFile := parseDockerfile lines;
                MissingDockerignore := false |} in
  let found := flat_map (fun rule => Check rule ctx) (rules a) in
  {| Dockerfile := "<stdin>"; Issues := found; Score := calculateScore found |}.

End analyzer.

(* ================================================================== *)
(** * Package [optimizer] *)
(* ================================================================== *)

Module optimizer.
Import GoStrings GoInt models.

Definition Mode := string.
Definition ModeSuggest : Mode := "suggest".
Definition ModeAutoFix : Mode := "autofix".

Record OptimizationContext := {
  OriginalContent : string;
  Lines : list string;
  Analysis : AnalysisResult;
  CurrentContent : string
}.

(** A Go [error]: [None] is [nil], [Some msg] an error with that message. *)
Definition error := option string.

(** The interface [Strategy]. [Analyze] returns [None] for [nil]. None of the
    strategies of the package writes to the context it is given. *)
Record Strategy := {
  Name : string;
  Analyze : OptimizationContext -> option Optimization;
  Apply : OptimizationContext -> string * error
}.

Definition dq : string := String DQ EmptyString.
Definition backslash : string := String "092"%char EmptyString.

(** A template of [templates.go]: its lines, each followed by a line feed. *)
Definition template (lines : list string) : string :=
  String.concat EmptyString (map (fun l => l +++ nl) lines).

(** [for i, x := range xs], the index and the element given to the body. *)
Fixpoint rangeFold {A : Type} (body : nat -> string -> A -> A) (i : nat)
    (xs : list string) (st : A) : A :=
  match xs with
  | [] => st
  | x :: rest => rangeFold body (S i) rest (body i x st)
  end.

Definition anyContains (s : string) (substrs : list string) : bool :=
  existsb (fun sub => Contains s sub) substrs.

(** [strings.HasPrefix(strings.ToUpper(strings.TrimSpace(line)), word)]. *)
Definition startsWith (line word : string) : bool :=
  HasPrefix (ToUpper (TrimSpace line)) word.

(** ** BaseImageStrategy *)

(** The map [slimAlternatives]. *)
Definition slimAlternatives : list (string * string) :=
  [ ("ubuntu", "ubuntu:22.04");
    ("debian", "debian:bookworm-slim");
    ("node", "node:lts-alpine");
    ("python", "python:3.12-slim");
    ("golang", "golang:1.22-alpine");
    ("ruby", "ruby:3.3-alpine");
    ("php", "php:8.3-alpine");
    ("java", "eclipse-temurin:21-jre-alpine");
    ("openjdk", "eclipse-temurin:21-jre-alpine");
    ("nginx", "nginx:alpine");
    ("httpd", "httpd:alpine");
    ("postgres", "postgres:16-alpine");
    ("mysql", "mysql:8.0");
    ("redis", "redis:alpine");
    ("mongo", "mongo:7.0");
    ("centos", "debian:bookworm-slim");
    ("fedora", "debian:bookworm-slim");
    ("amazoncorretto", "amazoncorretto:21-alpine") ].

(** The map index expression [m[key]], with its [ok]. *)
Fixpoint lookup (m : list (string * string)) (key : string) : option string :=
  match m with
  | [] => None
  | (k, v) :: rest => if (k =? key)%string then Some v else lookup rest key
  end.

(** What the bodies of the loops of [Analyze] and [Apply] compute for one
    line, the same in both: [None] where the body runs [continue], otherwise
    [parts], [baseImage] and [alt]. *)
Definition slimCandidate (line : string)
    : option (list string * string * string) :=
  let trimmed := TrimSpace line in
  if negb (HasPrefix (ToUpper trimmed) "FROM") then None
  else
    let parts := Fields trimmed in
    match parts with
    | _ :: p1 :: _ =>
        let baseImage := ToLower p1 in
        let idx := Index baseImage ":" in
        let imageName := if idx =? -1 then baseImage
                         else sliceTo baseImage idx in
        if (Contains baseImage "slim" || Contains baseImage "alpine"
            || Contains baseImage "distroless"
            || (baseImage =? "scratch")%string)%bool
        then None
        else match lookup slimAlternatives imageName with
             | Some alt => Some (parts, baseImage, alt)
             | None => None
             end
    | _ => None
    end.

Fixpoint BaseImageAnalyzeLines (lines : list string) : option Optimization :=
  match lines with
  | [] => None
  | line :: rest =>
      match slimCandidate line with
      | Some (_, baseImage, alt) =>
          Some {| OptID := "OPT-BASE";
                  OptCategory := "base-image";
                  OptTitle := "Use a smaller base image";
                  OptDescription :=
                    "Replace '" +++ baseImage +++ "' with '" +++ alt
                    +++ "' for a significantly smaller image.";
                  Impact := "50-80% size reduction";
                  Applied := false;
                  OptAutoFixable := true;
                  Priority := 1 |}
      | None => BaseImageAnalyzeLines rest
      end
  end.

(** The assignment [parts[1] = alt]. *)
Definition setSecond (parts : list string) (alt : string) : list string :=
  match parts with
  | p0 :: _ :: rest => p0 :: alt :: rest
  | _ => parts
  end.

(** The line that [Apply] writes in the place of a line [slimCandidate]
    accepts. *)
Definition slimLine (line : string) : option string :=
  match slimCandidate line with
  | Some (parts, _, alt) => Some (Join (setSecond parts alt) " ")
  | None => None
  end.

(** The loop of [Apply]: the lines after the loop, or [None] when
    [modified] is still false. *)
Fixpoint rewriteFirstFrom (lines : list string) : option (list string) :=
  match lines with
  | [] => None
  | line :: rest =>
      match slimLine line with
      | Some line' => Some (line' :: rest)
      | None =>
          match rewriteFirstFrom rest with
          | Some rest' => Some (line :: rest')
          | None => None
          end
      end
  end.

Definition BaseImageApply (ctx : OptimizationContext) : string * error :=
  let content := CurrentContent ctx in
  let lines := Split content LF in
  match rewriteFirstFrom lines with
  | Some lines' => (Join lines' nl, None)
  | None => (content, Some "no applicable base image change")
  end.

Definition BaseImageStrategy : Strategy :=
  {| Name := "base-image-optimization";
     Analyze := fun ctx => BaseImageAnalyzeLines (Lines ctx);
     Apply := BaseImageApply |}.

(** ** CombineLayersStrategy *)

Definition isRunLine (line : string) : bool := startsWith line "RUN ".

Definition isBlankOrComment (line : string) : bool :=
  let trimmed := TrimSpace line in
  ((trimmed =? "")%string || HasPrefix trimmed "#")%bool.

Definition CombineLayersAnalyze (ctx : OptimizationContext)
    : option Optimization :=
  let consecutiveRuns :=
    fold_left (fun n line =>
                 if isRunLine line then n + 1
                 else if negb (isBlankOrComment line) then 0 else n)
              (Lines ctx) 0 in
  if 2 <=? consecutiveRuns then
    Some {| OptID := "OPT-LAYERS";
            OptCategory := "layer-optimization";
            OptTitle := "Combine consecutive RUN commands";
            OptDescription :=
              "Multiple consecutive RUN commands can be merged to reduce layers.";
            Impact := "10-20% size reduction";
            Applied := false;
            OptAutoFixable := true;
            Priority := 3 |}
  else None.

(** The closure [flushRuns]: [result] after the call ([runBuffer] is [nil]
    after it). *)
Definition flushRuns (result runBuffer : list string) : list string :=
  match runBuffer with
  | [] => result
  | [r] => result ++ ["RUN " +++ r]
  | r :: more =>
      result ++ [fold_left (fun combined r' =>
                              combined +++ " && " +++ backslash +++ nl
                              +++ "    " +++ r')
                           more ("RUN " +++ r)]
  end.

(** The variables of [CombineLayersStrategy.Apply]. *)
Record CombineState := {
  result : list string;
  runBuffer : list string;
  inRun : bool
}.

Definition combineStep (st : CombineState) (line : string) : CombineState :=
  let trimmed := TrimSpace line in
  if HasPrefix (ToUpper trimmed) "RUN " then
    let cmd := TrimSpace (sliceFrom trimmed 4) in
    let cmd := TrimSuffix cmd backslash in
    let cmd := TrimSpace cmd in
    {| result := result st; runBuffer := runBuffer st ++ [cmd]; inRun := true |}
  else if (inRun st && ((trimmed =? "")%string || HasPrefix trimmed "#"))%bool
  then st
  else if inRun st then
    {| result := flushRuns (result st) (runBuffer st) ++ [line];
       runBuffer := []; inRun := false |}
  else
    {| result := result st ++ [line]; runBuffer := runBuffer st;
       inRun := false |}.

Definition CombineLayersApply (ctx : OptimizationContext) : string * error :=
  let lines := Split (CurrentContent ctx) LF in
  let st := fold_left combineStep lines
              {| result := []; runBuffer := []; inRun := false |} in
  (Join (flushRuns (result st) (runBuffer st)) nl, None).

Definition CombineLayersStrategy : Strategy :=
  {| Name := "combine-layers";
     Analyze := CombineLayersAnalyze;
     Apply := CombineLayersApply |}.

(** ** MultiStageStrategy and the templates *)

Definition detectLine (line : string) : option string :=
  let lower := ToLower line in
  if anyContains lower ["node"; "npm"] then Some "node"
  else if anyContains lower ["golang"; "go build"] then Some "go"
  else if anyContains lower ["python"; "pip"] then Some "python"
  else if anyContains lower ["ruby"; "gem"] then Some "ruby"
  else if anyContains lower ["java"; "mvn"; "gradle"] then Some "java"
  else if anyContains lower ["rust"; "cargo"] then Some "rust"
  else if Contains lower "dotnet" then Some "dotnet"
  else None.

Fixpoint detectLanguage (lines : list string) : string :=
  match lines with
  | [] => EmptyString
  | line :: rest =>
      match detectLine line with
      | Some lang => lang
      | None => detectLanguage rest
      end
  end.

(** The loop at the head of [nodeTemplate], [goTemplate] and
    [pythonTemplate]: the version, [fallback] at first, is taken from the
    tag of every [FROM] line whose image contains [image]. *)
Definition versionStep (image : string) (version line : string) : string :=
  if startsWith line "FROM" then
    match Fields line with
    | _ :: img :: _ =>
        if Contains (ToLower img) image then
          let idx := Index img ":" in
          if negb (idx =? -1) then
            let tag := sliceFrom img (idx + 1) in
            if (negb (tag =? "")%string && negb (tag =? "latest")%string)%bool
            then hd EmptyString (Split tag "-"%char)
            else version
          else version
        else version
    | _ => version
    end
  else version.

Definition versionOf (image fallback : string) (lines : list string) : string :=
  fold_left (versionStep image) lines fallback.

Definition nodeTemplate (lines : list string) : string :=
  let version := versionOf "node" "20" lines in
  template
   [
     "# Stage 1: Build";
     "FROM node:" +++ version +++ "-alpine AS builder";
     "WORKDIR /app";
     "";
     "# Copy dependency files first for better caching";
     "COPY package*.json ./";
     "RUN npm ci --only=production";
     "";
     "# Copy source and build";
     "COPY . .";
     "RUN npm run build";
     "";
     "# Stage 2: Production";
     "FROM node:" +++ version +++ "-alpine AS production";
     "WORKDIR /app";
     "";
     "# Copy built artifacts";
     "COPY --from=builder /app/dist ./dist";
     "COPY --from=builder /app/node_modules ./node_modules";
     "COPY --from=builder /app/package.json ./";
     "";
     "# Security: run as non-root";
     "RUN addgroup --system --gid 1001 nodejs && " +++ backslash;
     "    adduser --system --uid 1001 --ingroup nodejs nextjs";
     "USER nextjs";
     "";
     "EXPOSE 3000";
     "CMD [" +++ dq +++ "node" +++ dq +++ ", " +++ dq +++ "dist/index.js" +++ dq +++ "]"
   ].

Definition goTemplate (lines : list string) : string :=
  let version := versionOf "golang" "1.22" lines in
  template
   [
     "# Stage 1: Build";
     "FROM golang:" +++ version +++ "-alpine AS builder";
     "WORKDIR /app";
     "";
     "# Install build dependencies";
     "RUN apk add --no-cache git ca-certificates";
     "";
     "# Copy dependency files first for better caching";
     "COPY go.mod go.sum ./";
     "RUN go mod download";
     "";
     "# Copy source and build";
     "COPY . .";
     "RUN CGO_ENABLED=0 GOOS=linux GOARCH=amd64 go build -ldflags=" +++ dq +++ "-w -s" +++ dq +++ " -o /app/server .";
     "";
     "# Stage 2: Production (distroless for minimal attack surface)";
     "FROM gcr.io/distroless/static-debian12:nonroot";
     "WORKDIR /app";
     "";
     "COPY --from=builder /app/server .";
     "";
     "USER nonroot:nonroot";
     "EXPOSE 8080";
     "ENTRYPOINT [" +++ dq +++ "/app/server" +++ dq +++ "]"
   ].

Definition pythonTemplate (lines : list string) : string :=
  let version := versionOf "python" "3.12" lines in
  template
   [
     "# Stage 1: Build";
     "FROM python:" +++ version +++ "-slim AS builder";
     "WORKDIR /app";
     "";
     "# Install build dependencies";
     "RUN apt-get update && " +++ backslash;
     "    apt-get install --no-install-recommends -y build-essential && " +++ backslash;
     "    rm -rf /var/lib/apt/lists/*";
     "";
     "# Copy and install dependencies";
     "COPY requirements.txt .";
     "RUN pip install --no-cache-dir --prefix=/install -r requirements.txt";
     "";
     "# Stage 2: Production";
     "FROM python:" +++ version +++ "-slim AS production";
     "WORKDIR /app";
     "";
     "# Copy installed packages from builder";
     "COPY --from=builder /install /usr/local";
     "";
     "# Copy application code";
     "COPY . .";
     "";
     "# Security: run as non-root";
     "RUN addgroup --system --gid 1001 appgroup && " +++ backslash;
     "    adduser --system --uid 1001 --ingroup appgroup appuser";
     "USER appuser";
     "";
     "EXPOSE 8000";
     "CMD [" +++ dq +++ "python" +++ dq +++ ", " +++ dq +++ "main.py" +++ dq +++ "]"
   ].

Definition rustTemplate (lines : list string) : string :=
  template
   [
     "# Stage 1: Build";
     "FROM rust:1.77-alpine AS builder";
     "WORKDIR /app";
     "";
     "RUN apk add --no-cache musl-dev";
     "";
     "# Cache dependencies";
     "COPY Cargo.toml Cargo.lock ./";
     "RUN mkdir src && echo " +++ dq +++ "fn main() {}" +++ dq +++ " > src/main.rs";
     "RUN cargo build --release";
     "RUN rm -rf src";
     "";
     "# Build actual application";
     "COPY . .";
     "RUN cargo build --release";
     "";
     "# Stage 2: Production";
     "FROM gcr.io/distroless/static-debian12:nonroot";
     "WORKDIR /app";
     "";
     "COPY --from=builder /app/target/release/app .";
     "";
     "USER nonroot:nonroot";
     "EXPOSE 8080";
     "ENTRYPOINT [" +++ dq +++ "/app/app" +++ dq +++ "]"
   ].

Definition javaTemplate (lines : list string) : string :=
  template
   [
     "# Stage 1: Build";
     "FROM eclipse-temurin:21-jdk-alpine AS builder";
     "WORKDIR /app";
     "";
     "COPY pom.xml .";
     "COPY src ./src";
     "";
     "RUN apk add --no-cache maven && " +++ backslash;
     "    mvn clean package -DskipTests";
     "";
     "# Stage 2: Production";
     "FROM eclipse-temurin:21-jre-alpine AS production";
     "WORKDIR /app";
     "";
     "COPY --from=builder /app/target/*.jar app.jar";
     "";
     "# Security: run as non-root";
     "RUN addgroup --system --gid 1001 appgroup && " +++ backslash;
     "    adduser --system --uid 1001 --ingroup appgroup appuser";
     "USER appuser";
     "";
     "EXPOSE 8080";
     "ENTRYPOINT [" +++ dq +++ "java" +++ dq +++ ", " +++ dq +++ "-jar" +++ dq +++ ", " +++ dq +++ "app.jar" +++ dq +++ "]"
   ].

Definition getMultiStageTemplate (lang : string) (originalLines : list string)
    : string :=
  if (lang =? "node")%string then nodeTemplate originalLines
  else if (lang =? "go")%string then goTemplate originalLines
  else if (lang =? "python")%string then pythonTemplate originalLines
  else if (lang =? "rust")%string then rustTemplate originalLines
  else if (lang =? "java")%string then javaTemplate originalLines
  else EmptyString.

Definition MultiStageAnalyze (ctx : OptimizationContext) : option Optimization :=
  let fromCount :=
    Z.of_nat (List.length (filter (fun line => startsWith line "FROM")
                                  (Lines ctx))) in
  if 1 <? fromCount then None
  else
    let buildIndicators :=
      ["npm run build"; "go build"; "mvn"; "gradle"; "make"; "cargo build";
       "dotnet publish"] in
    if existsb (fun line => anyContains (ToLower line) buildIndicators)
               (Lines ctx)
    then
      Some {| OptID := "OPT-MULTISTAGE";
              OptCategory := "multi-stage";
              OptTitle := "Introduce multi-stage build";
              OptDescription :=
                "Build commands detected. Use multi-stage builds to exclude build tools from the final image.";
              Impact := "40-70% size reduction";
              Applied := false;
              OptAutoFixable := true;
              Priority := 1 |}
    else None.

Definition MultiStageApply (ctx : OptimizationContext) : string * error :=
  let content := CurrentContent ctx in
  let lines := Split content LF in
  let lang := detectLanguage lines in
  if (lang =? "")%string then
    (content,
     Some "cannot determine project language for multi-stage optimization")
  else
    let tpl := getMultiStageTemplate lang lines in
    if (tpl =? "")%string then
      (content, Some ("no multi-stage template available for " +++ lang))
    else (tpl, None).

Definition MultiStageStrategy : Strategy :=
  {| Name := "multi-stage-build";
     Analyze := MultiStageAnalyze;
     Apply := MultiStageApply |}.

(** ** CacheOptStrategy *)

Definition cacheStep (i : nat) (line : string) (st : Z * Z) : Z * Z :=
  let (copyAllLine, depInstallLine) := st in
  let trimmed := TrimSpace line in
  let depIndicators :=
    ["npm install"; "npm ci"; "pip install"; "go mod download";
     "bundle install"; "cargo build"] in
  let copyAllLine :=
    if (HasPrefix (ToUpper trimmed) "COPY" && Contains trimmed ". ."
        && (copyAllLine =? -1))%bool
    then Z.of_nat i else copyAllLine in
  let depInstallLine :=
    if anyContains (ToLower trimmed) depIndicators
    then Z.of_nat i else depInstallLine in
  (copyAllLine, depInstallLine).

Definition CacheOptAnalyze (ctx : OptimizationContext) : option Optimization :=
  let (copyAllLine, depInstallLine) :=
    rangeFold cacheStep 0 (Lines ctx) (-1, -1) in
  if (negb (copyAllLine =? -1) && negb (depInstallLine =? -1)
      && (copyAllLine <? depInstallLine))%bool
  then
    Some {| OptID := "OPT-CACHE";
            OptCategory := "cache-optimization";
            OptTitle := "Reorder COPY for better cache utilization";
            OptDescription :=
              "Copy dependency files (package.json, go.mod, etc.) before source code for better Docker layer caching.";
            Impact := "Faster rebuilds";
            Applied := false;
            OptAutoFixable := false;
            Priority := 2 |}
  else None.

Definition CacheOptStrategy : Strategy :=
  {| Name := "cache-optimization";
     Analyze := CacheOptAnalyze;
     Apply := fun ctx => (CurrentContent ctx, None) |}.

(** ** NonRootUserStrategy *)

Definition hasIssue (ctx : OptimizationContext) (id : string) : bool :=
  existsb (fun issue => (ID issue =? id)%string) (Issues (Analysis ctx)).

Definition NonRootUserAnalyze (ctx : OptimizationContext)
    : option Optimization :=
  if hasIssue ctx "DIO006" then
    Some {| OptID := "OPT-USER";
            OptCategory := "security";
            OptTitle := "Add non-root user";
            OptDescription :=
              "Container runs as root. Add a non-root user for improved security.";
            Impact := "Security improvement";
            Applied := false;
            OptAutoFixable := true;
            Priority := 2 |}
  else None.

Definition isCmdLine (line : string) : bool :=
  (startsWith line "CMD" || startsWith line "ENTRYPOINT")%bool.

(** The first loop of [Apply], which runs from the last line to the first:
    the index of the last [CMD] or [ENTRYPOINT] line, [len(lines) - 1] when
    there is none. *)
Definition insertIndex (lines : list string) : Z :=
  rangeFold (fun i line idx => if isCmdLine line then Z.of_nat i else idx)
            0 lines (Z.of_nat (List.length lines) - 1).

Definition userBlock : list string :=
  [ "# Run as non-root user for security";
    "RUN addgroup --system --gid 1001 appgroup && " +++ backslash;
    "    adduser --system --uid 1001 --ingroup appgroup appuser";
    "USER appuser";
    "" ].

Definition NonRootUserApply (ctx : OptimizationContext) : string * error :=
  let lines := Split (CurrentContent ctx) LF in
  let insertIdx := insertIndex lines in
  if existsb (fun line => startsWith line "USER") lines
  then (CurrentContent ctx, None)
  else
    let result :=
      rangeFold (fun i line result =>
                   if Z.of_nat i =? insertIdx
                   then result ++ userBlock ++ [line]
                   else result ++ [line])
                0 lines [] in
    (Join result nl, None).

Definition NonRootUserStrategy : Strategy :=
  {| Name := "non-root-user";
     Analyze := NonRootUserAnalyze;
     Apply := NonRootUserApply |}.

(** ** CleanupStrategy *)

Definition CleanupAnalyze (ctx : OptimizationContext) : option Optimization :=
  if hasIssue ctx "DIO005" then
    Some {| OptID := "OPT-CLEANUP";
            OptCategory := "cleanup";
            OptTitle := "Clean package manager caches";
            OptDescription :=
              "Package manager caches are not cleaned, wasting space in the final image.";
            Impact := "10-30% size reduction";
            Applied := false;
            OptAutoFixable := true;
            Priority := 2 |}
  else None.

(** The function given to [ReplaceAllStringFunc]. *)
Definition addPurge (m : string) : string :=
  if Contains m "rm -rf /var/lib/apt/lists" then m
  else m +++ " && " +++ backslash +++ nl +++ "    rm -rf /var/lib/apt/lists/*".

Definition CleanupApply (ctx : OptimizationContext) : string * error :=
  let content := CurrentContent ctx in
  let content := ReplaceAllStringFunc aptGetPattern content addPurge in
  let content := ReplaceAll content "apt-get install "
                   "apt-get install --no-install-recommends " in
  let content := ReplaceAll content
                   "--no-install-recommends --no-install-recommends"
                   "--no-install-recommends" in
  (content, None).

Definition CleanupStrategy : Strategy :=
  {| Name := "cleanup"; Analyze := CleanupAnalyze; Apply := CleanupApply |}.

(** ** WorkdirStrategy *)

Definition WorkdirAnalyze (ctx : OptimizationContext) : option Optimization :=
  if hasIssue ctx "DIO011" then
    Some {| OptID := "OPT-WORKDIR";
            OptCategory := "best-practice";
            OptTitle := "Set WORKDIR";
            OptDescription := "No WORKDIR set. Files are placed in / by default.";
            Impact := "Best practice";
            Applied := false;
            OptAutoFixable := true;
            Priority := 4 |}
  else None.

Definition workdirStep (st : list string * bool) (line : string)
    : list string * bool :=
  let (result, inserted) := st in
  if (negb inserted && startsWith line "FROM")%bool
  then (result ++ [line; "WORKDIR /app"], true)
  else (result ++ [line], inserted).

Definition WorkdirApply (ctx : OptimizationContext) : string * error :=
  let lines := Split (CurrentContent ctx) LF in
  if existsb (fun line => startsWith line "WORKDIR") lines
  then (CurrentContent ctx, None)
  else (Join (fst (fold_left workdirStep lines ([], false))) nl, None).

Definition WorkdirStrategy : Strategy :=
  {| Name := "workdir"; Analyze := WorkdirAnalyze; Apply := WorkdirApply |}.

(** ** The pipeline *)

Record Optimizer := {
  mode : Mode;
  strategies : list Strategy
}.

Definition New (m : Mode) : Optimizer :=
  {| mode := m;
     strategies :=
       [ BaseImageStrategy; CombineLayersStrategy; MultiStageStrategy;
         CacheOptStrategy; NonRootUserStrategy; CleanupStrategy;
         WorkdirStrategy ] |}.

Definition setApplied (opt : Optimization) : Optimization :=
  {| OptID := OptID opt; OptCategory := OptCategory opt;
     OptTitle := OptTitle opt; OptDescription := OptDescription opt;
     Impact := Impact opt; Applied := true;
     OptAutoFixable := OptAutoFixable opt; Priority := Priority opt |}.

(** The variables of the loop of [OptimizeContent]. *)
Record PipelineState := {
  ctx : OptimizationContext;
  optimizations : list Optimization
}.

(** The body of the loop of [OptimizeContent] for one strategy. *)
Definition runStrategy (m : Mode) (st : PipelineState) (strategy : Strategy)
    : PipelineState :=
  match Analyze strategy (ctx st) with
  | None => st
  | Some opt =>
      if ((m =? ModeAutoFix)%string && OptAutoFixable opt)%bool then
        match Apply strategy (ctx st) with
        | (newContent, None) =>
            {| ctx := {| OriginalContent := OriginalContent (ctx st);
                         Lines := Split newContent LF;
                         Analysis := Analysis (ctx st);
                         CurrentContent := newContent |};
               optimizations := optimizations st ++ [setApplied opt] |}
        | (_, Some _) =>
            {| ctx := ctx st; optimizations := optimizations st ++ [opt] |}
        end
      else {| ctx := ctx st; optimizations := optimizations st ++ [opt] |}
  end.

Definition impactOf (category : string) : Z :=
  if (category =? "base-image")%string then 60
  else if (category =? "multi-stage")%string then 50
  else if (category =? "layer-optimization")%string then 15
  else if (category =? "cleanup")%string then 20
  else 5.

Definition estimateReduction (optimizations : list Optimization) : string :=
  let totalImpact :=
    fold_left (fun total opt =>
                 if Applied opt then wrap64 (total + impactOf (OptCategory opt))
                 else total)
              optimizations 0 in
  let totalImpact := if 85 <? totalImpact then 85 else totalImpact in
  if totalImpact =? 0 then "N/A (suggest mode)"
  else "~" +++ formatInt totalImpact +++ "% estimated reduction".

Definition initialContext (content : string) : OptimizationContext :=
  {| OriginalContent := content;
     Lines := Split content LF;
     Analysis := analyzer.AnalyzeContent (analyzer.New false) content;
     CurrentContent := content |}.

(** [OptimizeContent]. [AnalyzeContent] returns no error, so neither does
    this function; the analyzer it builds is [analyzer.New()], whose flag
    [useHadolint] [AnalyzeContent] does not read. *)
Definition OptimizeContent (o : Optimizer) (content : string)
    : OptimizationResult :=
  let st := fold_left (runStrategy (mode o)) (strategies o)
              {| ctx := initialContext content; optimizations := [] |} in
  {| OriginalDockerfile := content;
     OptimizedDockerfile := CurrentContent (ctx st);
     Optimizations := optimizations st;
     EstimatedReduction := estimateReduction (optimizations st) |}.

End optimizer.

(* ================================================================== *)
(** * The vocabulary of the properties: analyzer *)
(* ================================================================== *)

(** The notions the properties of the analyzer are stated with: what the
    specification says in words, written as functions of their own, the
    states of the loops, and the texts the properties are tried on. *)

Module AnalyzerTerms.
Import GoStrings GoInt models analyzer.

(** ** Score *)

(** The weight of a severity. Go's [Severity] is a string; a string that is
    none of the five constants has no case in [calculateScore] and weighs
    nothing. *)
Definition weight (sev : Severity) : Z :=
  if (sev =? "critical")%string then 20
  else if (sev =? "high")%string then 15
  else if (sev =? "medium")%string then 10
  else if (sev =? "low")%string then 5
  else if (sev =? "info")%string then 2
  else 0.

Definition totalWeight (findings : list Issue) : Z :=
  fold_right (fun f acc => weight (IssueSeverity f) + acc) 0 findings.

Definition clamp (lo hi x : Z) : Z := Z.max lo (Z.min hi x).

(** ** Instructions *)

Definition isFrom (inst : Instruction) : bool := (Command inst =? "FROM")%string.
Definition isRun (inst : Instruction) : bool := (Command inst =? "RUN")%string.

(** The instructions that precede the first [FROM], and the others. *)
Fixpoint beforeFirstFrom (l : list Instruction) : list Instruction :=
  match l with
  | [] => []
  | inst :: rest => if isFrom inst then [] else inst :: beforeFirstFrom rest
  end.

Fixpoint fromFirstFrom (l : list Instruction) : list Instruction :=
  match l with
  | [] => []
  | inst :: rest => if isFrom inst then l else fromFirstFrom rest
  end.

(** The instruction read at every line of a text: the line that stands at
    index [i], joined with the lines that continue it. *)
Fixpoint readInstructions (i : nat) (lines : list string) : list Instruction :=
  match lines with
  | [] => []
  | line :: following =>
      match readInstruction i line following with
      | Some inst => inst :: readInstructions (S i) following
      | None => readInstructions (S i) following
      end
  end.

(** The parser of the specification, section 4.1: a blank line or a comment
    is skipped; any other line is joined with the lines that continue it, and
    the joined line is an instruction, with its command and its arguments,
    when it has the shape of one; the lines that were joined to it are
    consumed. [skip] counts the lines still to pass over. *)
Fixpoint specInstructions (skip : nat) (lines : list string)
    : list (string * string) :=
  match lines with
  | [] => []
  | line :: following =>
      match skip with
      | S k => specInstructions k following
      | O =>
          let trimmed := TrimSpace line in
          if ((trimmed =? "")%string || HasPrefix trimmed "#")%bool
          then specInstructions 0 following
          else
            let (joinedLines, joined) := joinContinuation following 0 trimmed in
            match instructionRegex joined with
            | Some (m1, m2) =>
                (ToUpper m1, m2) :: specInstructions joinedLines following
            | None => specInstructions joinedLines following
            end
      end
  end.

(** The number of instructions of a text, and of its [FROM] instructions. *)
Definition specInstructionCount (lines : list string) : nat :=
  List.length (specInstructions 0 lines).

Definition specFromCount (lines : list string) : nat :=
  List.length (filter (fun ca => (fst ca =? "FROM")%string)
                      (specInstructions 0 lines)).

(** ** Consecutive [RUN] instructions *)

(** The maximal blocks of consecutive [RUN] instructions of a list, in
    order. [cur] is the block being read. *)
Fixpoint runBlocksFrom (cur : list Instruction) (l : list Instruction)
    : list (list Instruction) :=
  match l with
  | [] => match cur with [] => [] | _ => [cur] end
  | inst :: rest =>
      if isRun inst then runBlocksFrom (cur ++ [inst]) rest
      else match cur with
           | [] => runBlocksFrom [] rest
           | _ => cur :: runBlocksFrom [] rest
           end
  end.

Definition runBlocks (l : list Instruction) : list (list Instruction) :=
  runBlocksFrom [] l.

(** The first instruction of every complete group of three of a block. *)
Fixpoint everyThird (block : list Instruction) : list Instruction :=
  match block with
  | first :: _ :: _ :: rest => first :: everyThird rest
  | _ => []
  end.

(** One finding for every complete group of three [RUN] instructions of
    every block. *)
Definition groupFindings (block : list Instruction) : list Issue :=
  map (fun first => combineRunIssue (Line first)) (everyThird block).

Definition findingsByGroup (l : list Instruction) : list Issue :=
  flat_map groupFindings (runBlocks l).

(** One finding for every block of three or more, at its first [RUN]. *)
Definition findingsByBlock (l : list Instruction) : list Issue :=
  flat_map (fun block =>
              match block with
              | first :: _ :: _ :: _ => [combineRunIssue (Line first)]
              | _ => []
              end)
           (runBlocks l).

(** ** The loop of [CombineRunRule.Check] *)

(** The state of the loop of [CombineRunRule.Check] with nothing emitted. *)
Definition pending (runs first : Z) : RunScan :=
  {| issues := []; consecutiveRuns := runs; firstRunLine := first |}.

(** What the loop emits over [l] from that state. *)
Definition emitted (runs first : Z) (l : list Instruction) : list Issue :=
  issues (fold_left combineRunStep l (pending runs first)).

Definition startsOther (post : list Instruction) : Prop :=
  match post with
  | [] => True
  | inst :: _ => isRun inst = false
  end.

(** ** The loop of [parseDockerfile] *)

(** The stages of the document if the text ended here. *)
Definition openStages (st : ParseState) : list Stage :=
  closeStage (Stages (pdf st)) (currentStage st).

(** A stage starts with the [FROM] instruction that opened it, from which
    its fields are taken, and holds no other [FROM]. *)
Definition opensWithFrom (stage : Stage) : Prop :=
  exists inst rest,
    StageInstructions stage = inst :: rest
    /\ isFrom inst = true
    /\ BaseImage stage = parseBaseImage (Args inst)
    /\ Name stage = parseStageName (Args inst)
    /\ StartLine stage = Line inst
    /\ Forall (fun other => isFrom other = false) rest.

(** What holds of the state of the loop of [parseDockerfile] once the
    instructions [insts] have been added. *)
Record Inv (st : ParseState) (insts : list Instruction) : Prop := {
  inv_instructions : Instructions (pdf st) = insts;
  inv_count : stageCount st = Z.of_nat (List.length (filter isFrom insts));
  inv_images : BaseImages (pdf st) = map BaseImage (openStages st);
  inv_concat :
    List.concat (map StageInstructions (openStages st)) = fromFirstFrom insts;
  inv_stages : Forall opensWithFrom (openStages st);
  inv_length :
    List.length (openStages st) = List.length (filter isFrom insts);
  inv_closed : currentStage st = None -> fromFirstFrom insts = [];
  inv_open : forall cs, currentStage st = Some cs -> fromFirstFrom insts <> []
}.

(** ** Texts *)

Definition sampleIssue (sev : Severity) : Issue :=
  {| ID := "DIO001"; IssueSeverity := sev; Category := "base-image";
     Title := ""; Description := ""; IssueLine := 1; Suggestion := "";
     AutoFixable := false |}.

Definition contextOf (content : string) : AnalysisContext :=
  {| FilePath := "<stdin>"; Content := content;
     Lines := Split content LF;
     ParsedFile := parseDockerfile (Split content LF);
     MissingDockerignore := false |}.

Definition sixRunsText : string :=
  String.concat nl
    ["FROM alpine:3.19"; "RUN a"; "RUN b"; "RUN c"; "RUN d"; "RUN e"; "RUN f"].

Definition preambleText : string :=
  String.concat nl ["ARG VERSION=22.04"; "FROM ubuntu:${VERSION}"; "RUN echo hi"].

Definition continuedText : string :=
  String.concat nl
    ["FROM python:3.12"; "RUN pip install " +++ backslash;
     "    flask requests"].

Definition pythonText : string :=
  String.concat nl
    ["FROM python:3.12";
     "RUN python -c " +++ String DQ EmptyString +++ backslash;
     "from os import getcwd; print(getcwd())" +++ String DQ EmptyString].

Definition plainText : string :=
  String.concat nl
    ["FROM golang:1.22 AS build"; "RUN go build ./..."; "";
     "# runtime"; "FROM scratch"; "COPY --from=build /app /app"].

(** The Dockerfiles of the tests of the package ([analyzer_test.go]). *)
Definition latestTagTest : string :=
  String.concat nl ["FROM ubuntu"; "RUN apt-get update"; ""].

Definition rootUserTest : string :=
  String.concat nl ["FROM ubuntu:22.04"; "RUN echo hello"; ""].

Definition goodDockerfileTest : string :=
  String.concat nl
    ["FROM node:20-alpine AS builder"; "WORKDIR /app";
     "COPY package*.json ./"; "RUN npm ci"; "COPY . ."; "RUN npm run build";
     ""; "FROM gcr.io/distroless/nodejs20"; "WORKDIR /app";
     "COPY --from=builder /app/dist ."; "USER nonroot";
     "HEALTHCHECK CMD curl -f http://localhost/ || exit 1";
     "CMD [" +++ String DQ "index.js" +++ String DQ "]"; ""].

Definition aptGetTest : string :=
  String.concat nl
    ["FROM ubuntu:22.04"; "RUN apt-get update && apt-get install curl";
     "USER nobody"; "WORKDIR /app";
     "HEALTHCHECK CMD curl -f http://localhost/ || exit 1"; ""].

Definition cacheTest : string :=
  String.concat nl
    ["FROM ubuntu:22.04";
     "RUN apt-get update && apt-get install -y --no-install-recommends curl";
     "USER nobody"; "WORKDIR /app";
     "HEALTHCHECK CMD curl -f http://localhost/ || exit 1"; ""].

Definition noMultiStageTest : string :=
  String.concat nl
    ["FROM golang:1.22"; "WORKDIR /app"; "COPY . ."; "RUN go build -o main .";
     "USER nobody"; "HEALTHCHECK CMD curl -f http://localhost/ || exit 1";
     "CMD [" +++ String DQ "./main" +++ String DQ "]"; ""].

Definition parseTest : string :=
  String.concat nl
    ["FROM node:20-alpine AS builder"; "WORKDIR /app"; "COPY . .";
     "RUN npm ci && npm run build"; ""; "FROM gcr.io/distroless/nodejs20";
     "WORKDIR /app"; "COPY --from=builder /app/dist .";
     "CMD [" +++ String DQ "index.js" +++ String DQ "]"; ""].

(** [issue.ID == id] for some issue of the result. *)
Definition raises (r : AnalysisResult) (id : string) : bool :=
  existsb (fun issue => (ID issue =? id)%string) (Issues r).

End AnalyzerTerms.

(* ================================================================== *)
(** * The vocabulary of the properties: optimizer *)
(* ================================================================== *)

Module OptimizerTerms.
Import GoStrings GoInt models optimizer.

(** ** Lines of a text *)

Fixpoint allBytes (p : ascii -> bool) (s : string) : bool :=
  match s with
  | EmptyString => true
  | String c s' => (p c && allBytes p s')%bool
  end.

(** A string that holds no line feed: one line of a text. *)
Definition oneLine (s : string) : bool := allBytes notLF s.

Definition notSpace (c : ascii) : bool := negb (isSpace c).

(** ** The base-image strategy *)


Definition notColon (c : ascii) : bool := negb (Ascii.eqb c ":"%char).

(** The name of an image reference: what stands before its tag, that is
    before the first colon. *)
Definition imageName (ref : string) : string := fst (span notColon ref).





(** ** The estimate *)

(** The sum of the contributions of the records that were applied. *)
Definition appliedImpact (records : list Optimization) : Z :=
  fold_right (fun r acc =>
                if Applied r then impactOf (OptCategory r) + acc
                else acc)
             0 records.

Definition impactStep (total : Z) (opt : Optimization) : Z :=
  if Applied opt then wrap64 (total + impactOf (OptCategory opt)) else total.

(** ** The pipeline *)

(** The state of the loop of [OptimizeContent] after the strategies
    [before]. *)
Definition stateAfter (o : Optimizer) (content : string)
    (before : list Strategy) : PipelineState :=
  fold_left (runStrategy (mode o)) before
    {| ctx := initialContext content; optimizations := [] |}.

(** ** Texts *)

Definition sampleRecord (category : string) (applied : bool) : Optimization :=
  {| OptID := "OPT"; OptCategory := category; OptTitle := "";
     OptDescription := ""; Impact := ""; Applied := applied;
     OptAutoFixable := true; Priority := 1 |}.

Definition contextAt (content : string) : OptimizationContext :=
  {| OriginalContent := content;
     Lines := Split content LF;
     Analysis := analyzer.AnalyzeContent (analyzer.New false) content;
     CurrentContent := content |}.

Definition installText : string :=
  String.concat nl ["FROM ubuntu:22.04"; "RUN apt-get install -y curl"].

(** The text after one run of the cleanup strategy, and after a second run
    on that text. *)
Definition cleanedOnce : string :=
  fst (Apply CleanupStrategy (contextAt installText)).

Definition cleanedTwice : string :=
  fst (Apply CleanupStrategy (contextAt cleanedOnce)).

Definition rubyText : string :=
  String.concat nl ["FROM ruby:3.2"; "RUN make"; ""].

Definition namespacedText : string :=
  String.concat nl ["FROM ubuntu/nginx:1.25"; "COPY site /var/www/html"].

End OptimizerTerms.

(* ================================================================== *)
(** * Package [analyzer]: the hadolint integration and [Analyze] *)
(* ================================================================== *)

(** The rest of [analyzer.go]: the conversion of hadolint's findings, their
    merge with the findings of the rules, and [Analyze], which reads a file.
    What the operating system gives (the content of the file, whether a
    [.dockerignore] stands beside it, what the hadolint command prints and
    how the JSON decoder reads it) is an argument of the functions here. A
    function that can panic returns an [option], [None] for the panic. *)

Module hadolint.
Import GoStrings GoInt models analyzer.

(** [strings.TrimPrefix(s, prefix)]. *)
Definition TrimPrefix (s p : string) : string :=
  if HasPrefix s p then dropBytes (String.length p) s else s.

(** The slice expression [s[:n]] with its bounds check: [None] where the
    program panics. *)
Definition sliceToChecked (s : string) (n : Z) : option string :=
  if ((0 <=? n) && (n <=? Z.of_nat (String.length s)))%bool
  then Some (sliceTo s n) else None.

Definition truncate (s : string) (maxLen : Z) : option string :=
  if Z.of_nat (String.length s) <=? maxLen then Some s
  else match sliceToChecked s (wrap64 (maxLen - 3)) with
       | Some head => Some (head +++ "...")
       | None => None
       end.

(** [hadolintResult]; its field [Line] is [ResultLine] here. *)
Record hadolintResult := {
  ResultLine : Z;
  Code : string;
  Message : string;
  Column : Z;
  File : string;
  Level : string
}.

Definition mapHadolintLevel (level : string) : Severity :=
  let lower := ToLower level in
  if (lower =? "error")%string then SeverityHigh
  else if (lower =? "warning")%string then SeverityMedium
  else if (lower =? "info")%string then SeverityLow
  else if (lower =? "style")%string then SeverityInfo
  else SeverityLow.

(** The issue that the loop of [RunHadolint] builds from one result. *)
Definition hadolintIssue (r : hadolintResult) : option Issue :=
  match truncate (Message r) 80 with
  | Some short =>
      Some {| ID := "HL-" +++ Code r;
              IssueSeverity := mapHadolintLevel (Level r);
              Category := "hadolint";
              Title := Code r +++ ": " +++ short;
              Description := Message r;
              IssueLine := ResultLine r;
              Suggestion := EmptyString;
              AutoFixable := false |}
  | None => None
  end.

(** The loop of [RunHadolint]. *)
Fixpoint hadolintIssues (results : list hadolintResult) : option (list Issue) :=
  match results with
  | [] => Some []
  | r :: rest =>
      match hadolintIssue r, hadolintIssues rest with
      | Some issue, Some others => Some (issue :: others)
      | _, _ => None
      end
  end.

(** What running the hadolint command gives: the binary is not on the path,
    it prints nothing, it prints what the JSON decoder rejects, or it prints
    a list of results. *)
Inductive HadolintRun :=
| NotFound (err : string)
| NoOutput
| BadOutput (err : string)
| Results (results : list hadolintResult).

(** [RunHadolint]: the issues and the error; a [nil] slice is the empty
    list. *)
Definition RunHadolint (run : HadolintRun) : option (list Issue * option string) :=
  match run with
  | NotFound err => Some ([], Some ("hadolint not found: " +++ err))
  | NoOutput => Some ([], None)
  | BadOutput err => Some ([], Some ("failed to parse hadolint output: " +++ err))
  | Results results =>
      match hadolintIssues results with
      | Some found => Some (found, None)
      | None => None
      end
  end.

(** A Go map as the list of its entries, a key at most once. [mapGet] is
    the index expression with its [ok], [mapSet] the assignment to an index. *)
Fixpoint mapGet {K V : Type} (eqb : K -> K -> bool) (m : list (K * V)) (key : K)
    : option V :=
  match m with
  | [] => None
  | (k, v) :: rest => if eqb k key then Some v else mapGet eqb rest key
  end.

Fixpoint mapSet {K V : Type} (eqb : K -> K -> bool) (m : list (K * V)) (key : K)
    (value : V) : list (K * V) :=
  match m with
  | [] => [(key, value)]
  | (k, v) :: rest =>
      if eqb k key then (k, value) :: rest
      else (k, v) :: mapSet eqb rest key value
  end.

(** The first loop of [mergeHadolintIssues], which fills [coveredLines]. *)
Definition coverStep (coveredLines : list (Z * list (string * bool)))
    (issue : Issue) : list (Z * list (string * bool)) :=
  if 0 <? IssueLine issue then
    let cats := match mapGet Z.eqb coveredLines (IssueLine issue) with
                | Some cats => cats
                | None => []
                end in
    mapSet Z.eqb coveredLines (IssueLine issue)
      (mapSet String.eqb cats (Category issue) true)
  else coveredLines.

(** The map [hadolintToDIOCategory]. *)
Definition hadolintToDIOCategory : list (string * string) :=
  [ ("DL3007", "base-image");
    ("DL3008", "version-pinning");
    ("DL3009", "cleanup");
    ("DL3015", "apt-get");
    ("DL3025", "best-practice");
    ("DL3020", "best-practice") ].

(** [cats, exists := coveredLines[line]; exists && cats[category]]. *)
Definition isCovered (coveredLines : list (Z * list (string * bool)))
    (line : Z) (category : string) : bool :=
  match mapGet Z.eqb coveredLines line with
  | Some cats =>
      match mapGet String.eqb cats category with
      | Some b => b
      | None => false
      end
  | None => false
  end.

(** The body of the second loop. *)
Definition mergeStep (coveredLines : list (Z * list (string * bool)))
    (dioIssues : list Issue) (hlIssue : Issue) : list Issue :=
  let code := TrimPrefix (ID hlIssue) "HL-" in
  match mapGet String.eqb hadolintToDIOCategory code with
  | Some dioCategory =>
      if isCovered coveredLines (IssueLine hlIssue) dioCategory then dioIssues
      else dioIssues ++ [hlIssue]
  | None => dioIssues ++ [hlIssue]
  end.

Definition mergeHadolintIssues (dioIssues hadolintIssues : list Issue)
    : list Issue :=
  let coveredLines := fold_left coverStep dioIssues [] in
  fold_left (mergeStep coveredLines) hadolintIssues dioIssues.

(** [Analyze]. [file] is what [os.ReadFile] gives, the content or the error;
    [dockerignoreMissing] says that [os.Stat] finds no [.dockerignore] beside
    the file; [run] is what the hadolint command gives. The result is the
    analysis, or the error. *)
Definition Analyze (a : Analyzer) (dockerfilePath : string)
    (file : string + string) (dockerignoreMissing : bool) (run : HadolintRun)
    : option (AnalysisResult + string) :=
  match file with
  | inr err => Some (inr ("failed to read Dockerfile: " +++ err))
  | inl content =>
      let lines := Split content LF in
      let ctx := {| FilePath := dockerfilePath;
                    Content := content;
                    Lines := lines;
                    ParsedFile := parseDockerfile lines;
                    MissingDockerignore := dockerignoreMissing |} in
      let found := flat_map (fun rule => Check rule ctx) (rules a) in
      let merged :=
        if useHadolint a then
          match RunHadolint run with
          | Some (hadolintFound, None) =>
              Some (mergeHadolintIssues found hadolintFound)
          | Some (_, Some _) => Some found
          | None => None
          end
        else Some found in
      match merged with
      | Some all =>
          Some (inl {| Dockerfile := dockerfilePath;
                       Issues := all;
                       Score := calculateScore all |})
      | None => None
      end
  end.

End hadolint.

Module HadolintTerms.
Import GoStrings GoInt models analyzer hadolint.

(** An issue as the tests of the merge build them. *)
Definition issueAt (id category : string) (line : Z) : Issue :=
  {| ID := id; IssueSeverity := SeverityLow; Category := category;
     Title := EmptyString; Description := EmptyString; IssueLine := line;
     Suggestion := EmptyString; AutoFixable := false |}.

(** What [mergeHadolintIssues] looks for: the code of the hadolint issue
    is in the table, and an issue of the first list, on the same line, a
    line above 0, has the category the table gives. *)
Definition coversLine (line : Z) (category : string) (issue : Issue) : bool :=
  ((0 <? IssueLine issue) && (IssueLine issue =? line)
   && (Category issue =? category)%string)%bool.

Definition suppressed (dioIssues : list Issue) (hlIssue : Issue) : bool :=
  match mapGet String.eqb hadolintToDIOCategory (TrimPrefix (ID hlIssue) "HL-") with
  | Some category => existsb (coversLine (IssueLine hlIssue) category) dioIssues
  | None => false
  end.

(** What one issue is, given the result it was made from. *)
Definition convertedFrom (r : hadolintResult) (issue : Issue) : Prop :=
  ID issue = "HL-" +++ Code r
  /\ TrimPrefix (ID issue) "HL-" = Code r
  /\ In (IssueSeverity issue)
        [SeverityHigh; SeverityMedium; SeverityLow; SeverityInfo]
  /\ Category issue = "hadolint"
  /\ IssueLine issue = ResultLine r
  /\ Description issue = Message r
  /\ (String.length (Title issue) <= String.length (Code r) + 82)%nat
  /\ ((String.length (Message r) <= 80)%nat ->
      Title issue = Code r +++ ": " +++ Message r)
  /\ AutoFixable issue = false.

End HadolintTerms.

(* ================================================================== *)
(** * The vocabulary of the properties: well-formed instructions *)
(* ================================================================== *)

Module ParserTerms.
Import GoStrings GoInt models analyzer AnalyzerTerms OptimizerTerms.

(** A line the parser passes over: blank, or a comment. *)
Definition blankOrComment (line : string) : bool :=
  let trimmed := TrimSpace line in
  ((trimmed =? "")%string || HasPrefix trimmed "#")%bool.

(** A byte of a command: a capital letter, a digit or an underscore. *)
Definition isCommandByte (c : ascii) : bool :=
  (isWord c && negb (between 97 122 c))%bool.

(** What holds of every instruction the parser reads in a text of
    [count] lines. *)
Definition wellFormed (count : nat) (inst : Instruction) : Prop :=
  Command inst <> EmptyString
  /\ allBytes isCommandByte (Command inst) = true
  /\ Command inst = ToUpper (fst (span isWord (Raw inst)))
  /\ oneLine (Args inst) = true
  /\ 1 <= Line inst <= Z.of_nat count.

Definition emptyText : string := String.concat nl ["# syntax=docker/dockerfile:1"; ""; "   "].

End ParserTerms.

(* ================================================================== *)
(** * The vocabulary of the properties: the findings of the registry *)
(* ================================================================== *)

Module RulesTerms.
Import GoStrings GoInt models analyzer AnalyzerTerms OptimizerTerms ParserTerms.

(** The context that [Analyze] and [AnalyzeContent] build for a text. *)
Definition fileContext (path content : string) (missing : bool)
    : AnalysisContext :=
  {| FilePath := path;
     Content := content;
     Lines := Split content LF;
     ParsedFile := parseDockerfile (Split content LF);
     MissingDockerignore := missing |}.

(** The findings of the rules of the registry on a text. *)
Definition builtinIssues (path content : string) (missing : bool)
    : list Issue :=
  flat_map (fun rule => Check rule (fileContext path content missing))
           DefaultRules.

(** A kind of finding: what the rule that raises it writes in every issue
    of the kind. [Positioned] says that the issue carries the line of an
    instruction; the other findings are about the whole file and carry line
    0. [Rank] is the place of the rule in the registry. *)
Record Kind := {
  KindID : string;
  KindSeverity : Severity;
  KindCategory : string;
  KindAutoFixable : bool;
  Positioned : bool;
  Rank : nat
}.

Definition catalogue : list Kind :=
  [ Build_Kind "DIO001" SeverityHigh "base-image" false true 1;
    Build_Kind "DIO002" SeverityMedium "best-practice" true false 2;
    Build_Kind "DIO003" SeverityMedium "optimization" true false 3;
    Build_Kind "DIO004" SeverityMedium "optimization" true true 4;
    Build_Kind "DIO005" SeverityMedium "optimization" true true 5;
    Build_Kind "DIO005-pip" SeverityLow "optimization" true true 5;
    Build_Kind "DIO006" SeverityHigh "security" true false 6;
    Build_Kind "DIO007" SeverityLow "optimization" false true 7;
    Build_Kind "DIO008" SeverityHigh "optimization" true false 8;
    Build_Kind "DIO009" SeverityLow "reproducibility" false true 9;
    Build_Kind "DIO010" SeverityMedium "optimization" true true 10;
    Build_Kind "DIO011" SeverityLow "best-practice" true false 11;
    Build_Kind "DIO012" SeverityInfo "best-practice" false false 12 ].

(** The kinds of the rule at each place of the registry. *)
Definition kindsOfRank (rank : nat) : list Kind :=
  filter (fun k => Nat.eqb (Rank k) rank) catalogue.

(** The place in the registry of the rule that raises an ID, 0 for an ID no
    rule raises. *)
Definition ruleIndex (id : string) : nat :=
  match find (fun k => (KindID k =? id)%string) catalogue with
  | Some k => Rank k
  | None => 0%nat
  end.

(** An issue is of a kind, in a text of [count] lines. *)
Definition conforms (count : nat) (issue : Issue) (k : Kind) : Prop :=
  ID issue = KindID k
  /\ IssueSeverity issue = KindSeverity k
  /\ Category issue = KindCategory k
  /\ AutoFixable issue = KindAutoFixable k
  /\ if Positioned k then 1 <= IssueLine issue <= Z.of_nat count
     else IssueLine issue = 0.

Definition ofKinds (count : nat) (kinds : list Kind) (issue : Issue) : Prop :=
  exists k, In k kinds /\ conforms count issue k.

(** The number of issues with an ID. *)
Definition countID (id : string) (found : list Issue) : nat :=
  List.length (filter (fun issue => (ID issue =? id)%string) found).

Definition wholeFileIDs : list string :=
  ["DIO002"; "DIO003"; "DIO006"; "DIO008"; "DIO011"; "DIO012"].

(** An issue that a rule has just built is of the first or of the second
    kind of the rule; [bounds] gives the bounds of the line of an
    instruction. *)
Ltac conforms_with bounds :=
  split; [reflexivity|]; split; [reflexivity|]; split; [reflexivity|];
  split; [reflexivity|]; cbn [Positioned];
  first [reflexivity | apply bounds; assumption].

Ltac of_kinds bounds :=
  solve [ eexists; split; [left; reflexivity | conforms_with bounds]
        | eexists; split; [right; left; reflexivity | conforms_with bounds] ].

Definition unpinnedText : string :=
  String.concat nl
    ["FROM ubuntu"; "RUN apt-get update && apt-get install curl";
     "RUN pip install flask"; "COPY . ."].

Definition isNil {A : Type} (l : list A) : bool :=
  match l with [] => true | _ :: _ => false end.

(** A [USER] instruction that names a user other than root. *)
Definition namesNonRoot (inst : Instruction) : bool :=
  ((Command inst =? "USER")%string
   && (let user := TrimSpace (Args inst) in
       negb (user =? "root")%string && negb (user =? "0")%string))%bool.

Definition isWorkdir (inst : Instruction) : bool :=
  (Command inst =? "WORKDIR")%string.

(** A [RUN] instruction that runs apt-get update or install and does not
    clean up after it. *)
Definition aptLeftUncleaned (inst : Instruction) : bool :=
  ((Command inst =? "RUN")%string
   && anyContains (Args inst) ["apt-get install"; "apt-get update"]
   && negb (anyContains (Args inst)
              ["rm -rf /var/lib/apt/lists"; "apt-get clean";
               "apt-get autoremove"]))%bool.

End RulesTerms.

(* ================================================================== *)
(** * The vocabulary of the properties: [Analyze] *)
(* ================================================================== *)

Module AnalyzeTerms.
Import GoStrings GoInt models analyzer AnalyzerTerms OptimizerTerms ParserTerms.
Import RulesTerms hadolint HadolintTerms.

(** The one overlap that the findings of the registry can have with a
    hadolint issue: the hadolint issue is DL3007 and a DIO001 issue stands on
    its line. *)
Definition sameLineDIO001 (hlIssue issue : Issue) : bool :=
  ((ID issue =? "DIO001")%string && (IssueLine issue =? IssueLine hlIssue))%bool.

Definition overlapsBuiltin (found : list Issue) (hlIssue : Issue) : bool :=
  ((TrimPrefix (ID hlIssue) "HL-" =? "DL3007")%string
   && existsb (sameLineDIO001 hlIssue) found)%bool.

(** The issue of [MissingDockerignoreRule]. *)
Definition missingDockerignoreIssue : Issue :=
  {| ID := "DIO002";
     IssueSeverity := SeverityMedium;
     Category := "best-practice";
     Title := "Missing .dockerignore";
     Description := "No .dockerignore file found. This may cause unnecessary files to be included in the build context.";
     IssueLine := 0;
     Suggestion := "Create a .dockerignore file to exclude node_modules, .git, docs, etc.";
     AutoFixable := true |}.

Definition hadolintSample : list hadolintResult :=
  [ {| ResultLine := 1; Code := "DL3007";
       Message := "Using latest is prone to errors";
       Column := 1; File := "Dockerfile"; Level := "warning" |};
    {| ResultLine := 2; Code := "DL3008";
       Message := "Pin versions in apt get install";
       Column := 1; File := "Dockerfile"; Level := "warning" |} ].

End AnalyzeTerms.

(* ================================================================== *)
(** * The vocabulary of the properties: the strategies *)
(* ================================================================== *)

Module StrategyTerms.
Import GoStrings GoInt models optimizer OptimizerTerms.

(** The lines the strategies look for. *)
Definition isFromLine (line : string) : bool := startsWith line "FROM".
Definition isWorkdirLine (line : string) : bool := startsWith line "WORKDIR".

(** The lines of a text with the line WORKDIR /app after the first [FROM]
    line; the lines themselves when there is no [FROM] line. *)
Fixpoint withWorkdir (lines : list string) : list string :=
  match lines with
  | [] => []
  | line :: rest =>
      if isFromLine line then line :: "WORKDIR /app" :: rest
      else line :: withWorkdir rest
  end.




(** The context of a strategy whose working text is [content]. *)
Definition workingOn (c : OptimizationContext) (content : string)
    : OptimizationContext :=
  {| OriginalContent := OriginalContent c;
     Lines := Split content LF;
     Analysis := Analysis c;
     CurrentContent := content |}.

(** The languages [detectLanguage] can answer, the empty string for none,
    and those with a template. *)
Definition languages : list string :=
  [""; "node"; "go"; "python"; "ruby"; "java"; "rust"; "dotnet"].

Definition templateLanguages : list string :=
  ["node"; "go"; "python"; "rust"; "java"].

(** The number of [FROM] lines of a text, as [MultiStageStrategy.Analyze]
    counts them. *)
Definition fromCount (lines : list string) : Z :=
  Z.of_nat (List.length (filter isFromLine lines)).

Definition goBuildText : string :=
  String.concat nl ["FROM golang:1.21"; "COPY . ."; "RUN go build -o /app ."].


(** A line that is a [RUN] line, or blank, or a comment. *)
Definition runOrBlank (line : string) : bool :=
  (isRunLine line || isBlankOrComment line)%bool.

(** The number of [RUN] lines of a list of lines. *)
Definition runCount (lines : list string) : Z :=
  Z.of_nat (List.length (filter isRunLine lines)).



Definition threeRunsText : string :=
  String.concat nl
    ["FROM alpine:3.19"; "RUN apk add curl"; "# tools"; "RUN apk add git";
     "RUN echo done"; ""; "CMD [sh]"].

Definition noAptText : string :=
  String.concat nl ["FROM alpine:3.19"; "RUN apk add --no-cache curl"].

End StrategyTerms.

(* ================================================================== *)
(** * The vocabulary of the properties: the pipeline *)
(* ================================================================== *)

Module PipelineTerms.
Import GoStrings GoInt models optimizer OptimizerTerms StrategyTerms.

(** What the loop of [OptimizeContent] keeps true of its context, on the
    text [content]: the original text is [content], the lines are the lines
    of the working text, and the analysis is the analysis of [content], which
    is not made again when the working text changes. *)
Definition consistent (content : string) (c : OptimizationContext) : Prop :=
  OriginalContent c = content
  /\ Lines c = Split (CurrentContent c) LF
  /\ Analysis c = analyzer.AnalyzeContent (analyzer.New false) content.

(** The record of a strategy, as a list: empty when [Analyze] returns
    [nil]. *)
Definition proposal (s : Strategy) (c : OptimizationContext)
    : list Optimization :=
  match Analyze s c with
  | Some r => [r]
  | None => []
  end.

(** The IDs of the records of the pipeline of [New], in its order. *)
Definition pipelineIDs : list string :=
  ["OPT-BASE"; "OPT-LAYERS"; "OPT-MULTISTAGE"; "OPT-CACHE"; "OPT-USER";
   "OPT-CLEANUP"; "OPT-WORKDIR"].

(** The place of an ID in the pipeline, from 1; 0 for another ID. *)
Fixpoint placeIn (ids : list string) (id : string) : nat :=
  match ids with
  | [] => 0
  | x :: rest =>
      if (x =? id)%string then 1
      else match placeIn rest id with
           | O => O
           | S n => S (S n)
           end
  end.

Definition optRank (id : string) : nat := placeIn pipelineIDs id.

(** The IDs of the strategies whose [Apply] cannot fail in the pipeline. *)
Definition alwaysApplied : list string :=
  ["OPT-BASE"; "OPT-LAYERS"; "OPT-USER"; "OPT-CLEANUP"; "OPT-WORKDIR"].

(** What is known of a strategy of the pipeline: the ID of its record,
    whether the record is auto-fixable, and whether its [Apply] can fail. *)
Record PipelineEntry := {
  EntryStrategy : Strategy;
  EntryID : string;
  EntryAutoFixable : bool;
  EntrySucceeds : bool
}.

Definition pipelineEntries : list PipelineEntry :=
  [ Build_PipelineEntry BaseImageStrategy "OPT-BASE" true true;
    Build_PipelineEntry CombineLayersStrategy "OPT-LAYERS" true true;
    Build_PipelineEntry MultiStageStrategy "OPT-MULTISTAGE" true false;
    Build_PipelineEntry CacheOptStrategy "OPT-CACHE" false true;
    Build_PipelineEntry NonRootUserStrategy "OPT-USER" true true;
    Build_PipelineEntry CleanupStrategy "OPT-CLEANUP" true true;
    Build_PipelineEntry WorkdirStrategy "OPT-WORKDIR" true true ].

(** The record of a strategy is fresh: it has the ID of the strategy and
    is not applied. *)
Definition fresh (spec : PipelineEntry) : Prop :=
  forall c r,
    Analyze (EntryStrategy spec) c = Some r ->
    OptID r = EntryID spec /\ OptAutoFixable r = EntryAutoFixable spec
    /\ Applied r = false.

(** [Apply] does not fail where [Analyze] proposes, on a context whose
    lines are the lines of its working text. *)
Definition succeeds (spec : PipelineEntry) : Prop :=
  EntrySucceeds spec = true ->
  forall c,
    Lines c = Split (CurrentContent c) LF ->
    Analyze (EntryStrategy spec) c <> None ->
    snd (Apply (EntryStrategy spec) c) = None.

(** What one turn of the loop adds to the records, in mode [m]. *)
Definition turn (m : Mode) (spec : PipelineEntry) (block : list Optimization)
    : Prop :=
  block = []
  \/ exists r,
       block = [r]
       /\ OptID r = EntryID spec
       /\ OptAutoFixable r = EntryAutoFixable spec
       /\ (Applied r = true -> m = ModeAutoFix /\ EntryAutoFixable spec = true)
       /\ (m = ModeAutoFix -> EntryAutoFixable spec = true ->
           EntrySucceeds spec = true -> Applied r = true).

Definition staleText : string :=
  String.concat nl ["FROM node:18"; "RUN npm run build"].

End PipelineTerms.

(* ================================================================== *)
(** * Package [policy] *)
(* ================================================================== *)

(** [Enforcer.Evaluate] of [internal/policy/policy.go] and the records of
    package [models] that it reads. [docker.ParseImageSize], which reads a
    size such as 500MB with floating-point arithmetic, is an argument of
    [Evaluate]: [None] is its error. The fields of the records that are
    times or floating-point numbers ([CreatedAt], [BuildTime], [Timestamp],
    [Comparison]) and the slices of vulnerabilities and secrets, none of
    which [Evaluate] reads, are left out. *)

Module policy.
Import GoStrings GoInt models.

(** [models.ImageMetrics]; its field [BaseImage] is [MetricsBaseImage]. *)
Record ImageMetrics := {
  ImageName : string;
  ImageID : string;
  Size : Z;
  SizeHuman : string;
  Layers : Z;
  MetricsBaseImage : string;
  Architecture : string;
  OS : string
}.

(** [models.ScanResult]; its field [ImageName] is [ScanImageName]. *)
Record ScanResult := {
  ScanImageName : string;
  Scanner : string;
  CriticalCount : Z;
  HighCount : Z;
  MediumCount : Z;
  LowCount : Z
}.

(** The values that [Evaluate] stores in the field [Value], an
    [interface{}]. *)
Inductive Value :=
| StringValue (s : string)
| BoolValue (b : bool)
| IntValue (n : Z).

(** [models.PolicyRule]; its fields carry the prefix [Rule]. *)
Record PolicyRule := {
  RuleName : string;
  RuleDescription : string;
  RuleValue : Value;
  RulePassed : bool;
  RuleMessage : string
}.

(** [models.PolicyResult]. *)
Record PolicyResult := {
  PolicyPassed : bool;
  PolicyRules : list PolicyRule
}.

(** [models.PipelineResult]; the fields that [AnalysisResult] or
    [ScanResult] have too carry the prefix [Pipeline]. *)
Record PipelineResult := {
  PipelineDockerfile : string;
  PipelineAnalysis : option AnalysisResult;
  BaselineImage : option ImageMetrics;
  PipelineScanResult : option ScanResult;
  PipelineOptimization : option OptimizationResult;
  OptimizedImage : option ImageMetrics;
  OptScanResult : option ScanResult
}.

Record Config := {
  MaxImageSize : string;
  ForbidLatestTag : bool;
  RequireNonRoot : bool;
  MaxCriticalCVEs : Z;
  MaxHighCVEs : Z;
  RequireHealthcheck : bool;
  ForbidRootUser : bool;
  MaxLayers : Z;
  MinScore : Z
}.

Definition DefaultConfig : Config :=
  {| MaxImageSize := "500MB";
     ForbidLatestTag := true;
     RequireNonRoot := true;
     MaxCriticalCVEs := 0;
     MaxHighCVEs := 5;
     RequireHealthcheck := false;
     ForbidRootUser := true;
     MaxLayers := 20;
     MinScore := 50 |}.

(** What every check of [Evaluate] ends with: the message is set and the
    result fails when the rule did not pass, and the rule is appended. *)
Definition addRule (res : PolicyResult) (name description : string)
    (value : Value) (passed : bool) (message : string) : PolicyResult :=
  {| PolicyPassed := if passed then PolicyPassed res else false;
     PolicyRules :=
       PolicyRules res
       ++ [{| RuleName := name;
              RuleDescription := description;
              RuleValue := value;
              RulePassed := passed;
              RuleMessage := if passed then EmptyString else message |}] |}.

(** [issue.ID == id] for some issue of the analysis: the loops that stop at
    the first such issue. *)
Definition hasIssue (analysis : AnalysisResult) (id : string) : bool :=
  existsb (fun issue => (ID issue =? id)%string) (Issues analysis).

Section Evaluate.

Variable ParseImageSize : string -> option Z.

(** The body of both branches of the check of the image size. *)
Definition checkImageSize (config : Config) (img : ImageMetrics)
    (res : PolicyResult) : PolicyResult :=
  match ParseImageSize (MaxImageSize config) with
  | Some maxSize =>
      addRule res "max_image_size"
        ("Image size must be <= " +++ MaxImageSize config)
        (StringValue (MaxImageSize config))
        (Size img <=? maxSize)
        ("Image size " +++ SizeHuman img +++ " exceeds maximum "
         +++ MaxImageSize config)
  | None => res
  end.

Definition checkLatestTag (config : Config) (result : PipelineResult)
    (res : PolicyResult) : PolicyResult :=
  match PipelineAnalysis result with
  | Some analysis =>
      if ForbidLatestTag config then
        addRule res "forbid_latest_tag"
          "Base images must use pinned version tags" (BoolValue true)
          (negb (hasIssue analysis "DIO001"))
          "Unpinned base image tags detected"
      else res
  | None => res
  end.

Definition checkNonRoot (config : Config) (result : PipelineResult)
    (res : PolicyResult) : PolicyResult :=
  match PipelineAnalysis result with
  | Some analysis =>
      if RequireNonRoot config then
        addRule res "require_non_root"
          "Container must run as non-root user" (BoolValue true)
          (negb (hasIssue analysis "DIO006"))
          "Container runs as root"
      else res
  | None => res
  end.

Definition checkCVEs (config : Config) (result : PipelineResult)
    (res : PolicyResult) : PolicyResult :=
  let scanResult := match OptScanResult result with
                    | Some s => Some s
                    | None => PipelineScanResult result
                    end in
  match scanResult with
  | Some scan =>
      let res :=
        addRule res "max_critical_cves"
          ("Maximum " +++ formatInt (MaxCriticalCVEs config)
           +++ " critical CVEs allowed")
          (IntValue (MaxCriticalCVEs config))
          (CriticalCount scan <=? MaxCriticalCVEs config)
          ("Found " +++ formatInt (CriticalCount scan)
           +++ " critical CVEs (max: " +++ formatInt (MaxCriticalCVEs config)
           +++ ")") in
      addRule res "max_high_cves"
        ("Maximum " +++ formatInt (MaxHighCVEs config) +++ " high CVEs allowed")
        (IntValue (MaxHighCVEs config))
        (HighCount scan <=? MaxHighCVEs config)
        ("Found " +++ formatInt (HighCount scan) +++ " high CVEs (max: "
         +++ formatInt (MaxHighCVEs config) +++ ")")
  | None => res
  end.

Definition checkScore (config : Config) (result : PipelineResult)
    (res : PolicyResult) : PolicyResult :=
  match PipelineAnalysis result with
  | Some analysis =>
      if 0 <? MinScore config then
        addRule res "min_score"
          ("Minimum analyzer score of " +++ formatInt (MinScore config)
           +++ " required")
          (IntValue (MinScore config))
          (MinScore config <=? Score analysis)
          ("Score " +++ formatInt (Score analysis) +++ " is below minimum "
           +++ formatInt (MinScore config))
      else res
  | None => res
  end.

Definition checkLayers (config : Config) (result : PipelineResult)
    (res : PolicyResult) : PolicyResult :=
  if 0 <? MaxLayers config then
    let img := match OptimizedImage result with
               | Some i => Some i
               | None => BaselineImage result
               end in
    match img with
    | Some i =>
        addRule res "max_layers"
          ("Maximum " +++ formatInt (MaxLayers config) +++ " layers allowed")
          (IntValue (MaxLayers config))
          (Layers i <=? MaxLayers config)
          ("Image has " +++ formatInt (Layers i) +++ " layers (max: "
           +++ formatInt (MaxLayers config) +++ ")")
    | None => res
    end
  else res.

(** [Enforcer.Evaluate], for an enforcer with the configuration
    [config]. *)
Definition Evaluate (config : Config) (result : PipelineResult)
    : PolicyResult :=
  let res := {| PolicyPassed := true; PolicyRules := [] |} in
  let sized := negb (MaxImageSize config =? "")%string in
  let res :=
    match OptimizedImage result, BaselineImage result with
    | Some img, _ =>
        if sized then checkImageSize config img res else res
    | None, Some img =>
        if sized then checkImageSize config img res else res
    | None, None => res
    end in
  let res := checkLatestTag config result res in
  let res := checkNonRoot config result res in
  let res := checkCVEs config result res in
  let res := checkScore config result res in
  checkLayers config result res.

End Evaluate.

End policy.

Module PolicyTerms.
Import GoStrings GoInt models analyzer policy.

(** The names of the rules, in the order in which [Evaluate] checks them. *)
Definition ruleNames : list string :=
  ["max_image_size"; "forbid_latest_tag"; "require_non_root";
   "max_critical_cves"; "max_high_cves"; "min_score"; "max_layers"].

(** [a] is [b] with some elements left out. *)
Fixpoint subsequence (a b : list string) : bool :=
  match a, b with
  | [], _ => true
  | _ :: _, [] => false
  | x :: a', y :: b' =>
      if (x =? y)%string then subsequence a' b' else subsequence a b'
  end.

(** Whether the rule with a name passed; [None] when the result has no such
    rule. *)
Definition rulePassed (res : PolicyResult) (name : string) : option bool :=
  option_map RulePassed
    (find (fun rule => (RuleName rule =? name)%string) (PolicyRules res)).

(** A pipeline result that holds the analysis of a text and nothing else,
    as the command [policy] of the program builds it. *)
Definition analysisOnly (path : string) (analysis : AnalysisResult)
    : PipelineResult :=
  {| PipelineDockerfile := path;
     PipelineAnalysis := Some analysis;
     BaselineImage := None;
     PipelineScanResult := None;
     PipelineOptimization := None;
     OptimizedImage := None;
     OptScanResult := None |}.

(** What holds of the result while [Evaluate] runs: the result passes
    exactly when all its rules do, and a rule passed exactly when it has no
    message. *)
Definition sound (res : PolicyResult) : Prop :=
  PolicyPassed res = forallb RulePassed (PolicyRules res)
  /\ Forall (fun rule => RulePassed rule = true <-> RuleMessage rule = EmptyString)
            (PolicyRules res).


(** A configuration with other values of the two fields that [Evaluate]
    does not read. *)
Definition withUnread (config : Config) (healthcheck rootUser : bool) : Config :=
  {| MaxImageSize := MaxImageSize config;
     ForbidLatestTag := ForbidLatestTag config;
     RequireNonRoot := RequireNonRoot config;
     MaxCriticalCVEs := MaxCriticalCVEs config;
     MaxHighCVEs := MaxHighCVEs config;
     RequireHealthcheck := healthcheck;
     ForbidRootUser := rootUser;
     MaxLayers := MaxLayers config;
     MinScore := MinScore config |}.

(** A result with no evidence. *)
Definition noEvidence (result : PipelineResult) : Prop :=
  PipelineAnalysis result = None /\ BaselineImage result = None
  /\ OptimizedImage result = None /\ PipelineScanResult result = None
  /\ OptScanResult result = None.

End PolicyTerms.

(* ================================================================== *)
(** * Properties of the analyzer *)
(* ================================================================== *)

Module AnalyzerSpec.
Import GoStrings GoInt models analyzer AnalyzerTerms.

(** ** The score *)

Lemma wrap64_exact (z : Z) : - 2 ^ 63 <= z < 2 ^ 63 -> wrap64 z = z.
Proof.
  intros H. unfold wrap64.
  rewrite Z.mod_small by lia. lia.
Qed.

Lemma weight_bounds (sev : Severity) : 0 <= weight sev <= 20.
Proof.
  unfold weight.
  case_ifs; lia.
Qed.

Lemma scoreStep_exact (score : Z) (issue : Issue) :
  - 2 ^ 63 + 20 <= score < 2 ^ 63 ->
  scoreStep score issue = score - weight (IssueSeverity issue).
Proof.
  intros H. unfold scoreStep, weight, SeverityCritical, SeverityHigh,
    SeverityMedium, SeverityLow, SeverityInfo.
  case_ifs;
    try (apply wrap64_exact; lia); lia.
Qed.

Lemma fold_scoreStep (found : list Issue) :
  forall score,
    score <= 100 ->
    - 2 ^ 63 + 20 * Z.of_nat (List.length found) <= score ->
    fold_left scoreStep found score = score - totalWeight found.
Proof.
  induction found as [|issue rest IH]; intros score Hhi Hlo; simpl.
  - lia.
  - pose proof (weight_bounds (IssueSeverity issue)) as Hw.
    change (List.length (issue :: rest)) with (S (List.length rest)) in Hlo.
    rewrite Nat2Z.inj_succ in Hlo.
    rewrite scoreStep_exact by lia.
    rewrite IH by lia. lia.
Qed.

Lemma totalWeight_nonneg (found : list Issue) : 0 <= totalWeight found.
Proof.
  induction found as [|issue rest IH]; simpl; [lia|].
  pose proof (weight_bounds (IssueSeverity issue)). lia.
Qed.

Lemma totalWeight_app (a b : list Issue) :
  totalWeight (a ++ b) = totalWeight a + totalWeight b.
Proof. induction a as [|x a IH]; simpl; lia. Qed.

Lemma totalWeight_perm (a b : list Issue) :
  Permutation a b -> totalWeight a = totalWeight b.
Proof. induction 1; simpl; lia. Qed.

Lemma calculateScore_clamp (found : list Issue) :
  Z.of_nat (List.length found) <= maxSliceLen ->
  calculateScore found = clamp 0 100 (100 - totalWeight found).
Proof.
  intros Hlen. unfold calculateScore, maxSliceLen in *.
  rewrite fold_scoreStep by lia.
  pose proof (totalWeight_nonneg found).
  unfold clamp. destruct (100 - totalWeight found <? 0) eqn:E;
    [apply Z.ltb_lt in E | apply Z.ltb_ge in E]; lia.
Qed.

(** C1. For every list of findings that a slice can hold, the score is 100
    minus the sum of the weights of the findings (critical 20, high 15,
    medium 10, low 5, info 2), clamped to [0, 100]; so it lies in [0, 100],
    it does not grow when findings are added, and it is the same for every
    permutation of the list. *)
Theorem calculateScore_spec (found : list Issue) :
  Z.of_nat (List.length found) <= maxSliceLen ->
  calculateScore found = clamp 0 100 (100 - totalWeight found)
  /\ (weight SeverityCritical = 20 /\ weight SeverityHigh = 15
      /\ weight SeverityMedium = 10 /\ weight SeverityLow = 5
      /\ weight SeverityInfo = 2)
  /\ 0 <= calculateScore found <= 100
  /\ (forall more,
        Z.of_nat (List.length (found ++ more)) <= maxSliceLen ->
        calculateScore (found ++ more) <= calculateScore found)
  /\ (forall found',
        Permutation found found' ->
        calculateScore found' = calculateScore found).
Proof.
  intros Hlen.
  pose proof (totalWeight_nonneg found) as Hnn.
  split; [apply calculateScore_clamp; exact Hlen|].
  split; [repeat split; reflexivity|].
  split; [rewrite calculateScore_clamp by exact Hlen; unfold clamp; lia|].
  split.
  - intros more Hmore.
    rewrite calculateScore_clamp by exact Hmore.
    rewrite calculateScore_clamp by exact Hlen.
    rewrite totalWeight_app.
    pose proof (totalWeight_nonneg more). unfold clamp. lia.
  - intros found' Hperm.
    rewrite calculateScore_clamp
      by (rewrite <- (Permutation_length Hperm); exact Hlen).
    rewrite calculateScore_clamp by exact Hlen.
    rewrite (totalWeight_perm found found' Hperm). reflexivity.
Qed.

(** The score of a high and a medium finding is 75. *)
Lemma calculateScore_spec_witness :
  Z.of_nat (List.length [sampleIssue SeverityHigh; sampleIssue SeverityMedium])
    <= maxSliceLen
  /\ calculateScore [sampleIssue SeverityHigh; sampleIssue SeverityMedium] = 75.
Proof.
  assert (H : Z.of_nat (List.length [sampleIssue SeverityHigh;
                                     sampleIssue SeverityMedium])
              <= maxSliceLen) by (unfold maxSliceLen; simpl; lia).
  split; [exact H|].
  destruct (calculateScore_spec _ H) as [E _].
  rewrite E. reflexivity.
Defined.

(** ** Consecutive [RUN] instructions *)

Lemma list_ind3 {A : Type} (P : list A -> Prop) :
  P [] -> (forall a, P [a]) -> (forall a b, P [a; b]) ->
  (forall a b c l, P l -> P (a :: b :: c :: l)) ->
  forall l, P l.
Proof.
  intros H0 H1 H2 H3.
  fix IH 1.
  intros [|a [|b [|c l]]];
    [exact H0 | exact (H1 a) | exact (H2 a b) | exact (H3 a b c l (IH l))].
Qed.

Lemma combineRunStep_run (st : RunScan) (inst : Instruction) :
  isRun inst = true ->
  combineRunStep st inst =
    let runs := consecutiveRuns st + 1 in
    let first := if runs =? 1 then Line inst else firstRunLine st in
    if 3 <=? runs
    then {| issues := issues st ++ [combineRunIssue first];
            consecutiveRuns := 0; firstRunLine := first |}
    else {| issues := issues st; consecutiveRuns := runs;
            firstRunLine := first |}.
Proof. unfold isRun, combineRunStep. intros ->. reflexivity. Qed.

Lemma combineRunStep_other (st : RunScan) (inst : Instruction) :
  isRun inst = false ->
  combineRunStep st inst =
    {| issues := issues st; consecutiveRuns := 0;
       firstRunLine := firstRunLine st |}.
Proof. unfold isRun, combineRunStep. intros ->. reflexivity. Qed.

Lemma combineRunStep_issues (st : RunScan) (inst : Instruction) :
  combineRunStep st inst =
    let st' := combineRunStep (pending (consecutiveRuns st) (firstRunLine st))
                 inst in
    {| issues := issues st ++ issues st';
       consecutiveRuns := consecutiveRuns st';
       firstRunLine := firstRunLine st' |}.
Proof.
  destruct (isRun inst) eqn:E.
  - rewrite !combineRunStep_run by exact E. simpl.
    destruct (3 <=? consecutiveRuns st + 1); simpl;
      rewrite ?app_nil_r; reflexivity.
  - rewrite !combineRunStep_other by exact E. simpl.
    rewrite app_nil_r. reflexivity.
Qed.

Lemma fold_issues (l : list Instruction) :
  forall st,
    issues (fold_left combineRunStep l st) =
    issues st ++ emitted (consecutiveRuns st) (firstRunLine st) l.
Proof.
  unfold emitted.
  induction l as [|inst rest IH]; intros st; simpl.
  - rewrite app_nil_r. reflexivity.
  - rewrite IH.
    rewrite (IH (combineRunStep (pending _ _) inst)).
    rewrite (combineRunStep_issues st inst). simpl.
    rewrite app_assoc. reflexivity.
Qed.

Lemma emitted_cons (runs first : Z) (inst : Instruction)
    (rest : list Instruction) :
  emitted runs first (inst :: rest) =
    let st := combineRunStep (pending runs first) inst in
    issues st ++ emitted (consecutiveRuns st) (firstRunLine st) rest.
Proof. unfold emitted at 1. simpl. apply fold_issues. Qed.

Lemma emitted_fresh (l : list Instruction) :
  forall first first', emitted 0 first l = emitted 0 first' l.
Proof.
  induction l as [|inst rest IH]; intros first first'; [reflexivity|].
  rewrite !emitted_cons.
  destruct (isRun inst) eqn:E.
  - rewrite !combineRunStep_run by exact E. reflexivity.
  - rewrite !combineRunStep_other by exact E. simpl. apply IH.
Qed.

Lemma emitted_reset (runs first : Z) (post : list Instruction) :
  startsOther post -> emitted runs first post = emitted 0 first post.
Proof.
  destruct post as [|inst rest]; intros H; [reflexivity|].
  simpl in H. rewrite !emitted_cons.
  rewrite !combineRunStep_other by exact H. reflexivity.
Qed.

Lemma emitted_block (block : list Instruction) :
  Forall (fun inst => isRun inst = true) block ->
  forall first post,
    startsOther post ->
    emitted 0 first (block ++ post) =
    groupFindings block ++ emitted 0 first post.
Proof.
  induction block as [|a|a b|a b c rest IH] using list_ind3;
    intros Hrun first post Hpost.
  - reflexivity.
  - inversion Hrun as [|? ? Ha _]; subst.
    simpl app. rewrite emitted_cons, combineRunStep_run by exact Ha. simpl.
    rewrite (emitted_reset 1) by exact Hpost. apply emitted_fresh.
  - inversion Hrun as [|? ? Ha Hr]; subst.
    inversion Hr as [|? ? Hb _]; subst.
    simpl app. rewrite emitted_cons, combineRunStep_run by exact Ha. simpl.
    rewrite emitted_cons, combineRunStep_run by exact Hb. simpl.
    rewrite (emitted_reset 2) by exact Hpost. apply emitted_fresh.
  - inversion Hrun as [|? ? Ha Hr]; subst.
    inversion Hr as [|? ? Hb Hr']; subst.
    inversion Hr' as [|? ? Hc Hrest]; subst.
    simpl app. rewrite emitted_cons, combineRunStep_run by exact Ha. simpl.
    rewrite emitted_cons, combineRunStep_run by exact Hb. simpl.
    rewrite emitted_cons, combineRunStep_run by exact Hc. simpl.
    rewrite (IH Hrest (Line a) post Hpost).
    rewrite (emitted_fresh post (Line a) first). reflexivity.
Qed.

Lemma runBlocksFrom_emitted (l : list Instruction) :
  forall cur,
    Forall (fun inst => isRun inst = true) cur ->
    flat_map groupFindings (runBlocksFrom cur l) = emitted 0 0 (cur ++ l).
Proof.
  induction l as [|inst rest IH]; intros cur Hcur.
  - rewrite (emitted_block cur Hcur 0 []) by exact I.
    destruct cur; simpl; rewrite ?app_nil_r; reflexivity.
  - simpl runBlocksFrom. destruct (isRun inst) eqn:E.
    + rewrite IH.
      * rewrite <- app_assoc. reflexivity.
      * apply Forall_app. split; [exact Hcur|]. constructor; [exact E|constructor].
    + rewrite (emitted_block cur Hcur 0 (inst :: rest)) by exact E.
      rewrite emitted_cons, combineRunStep_other by exact E. simpl.
      destruct cur as [|c cur'].
      * rewrite (IH [] (Forall_nil _)). reflexivity.
      * simpl flat_map. rewrite (IH [] (Forall_nil _)). reflexivity.
Qed.

(** The blocks are made of [RUN] instructions, none is empty, and together
    they are the [RUN] instructions of the list, in order. *)
Lemma runBlocksFrom_blocks (l : list Instruction) :
  forall cur,
    Forall (fun inst => isRun inst = true) cur ->
    Forall (fun block => block <> []
                         /\ Forall (fun inst => isRun inst = true) block)
           (runBlocksFrom cur l)
    /\ List.concat (runBlocksFrom cur l) = cur ++ filter isRun l.
Proof.
  induction l as [|inst rest IH]; intros cur Hcur; simpl.
  - destruct cur as [|c cur'].
    + split; [constructor|reflexivity].
    + split; [|simpl; rewrite !app_nil_r; reflexivity].
      constructor; [|constructor]. split; [discriminate|exact Hcur].
  - destruct (isRun inst) eqn:E.
    + destruct (IH (cur ++ [inst])) as [H1 H2].
      { apply Forall_app. split; [exact Hcur|]. constructor; [exact E|constructor]. }
      split; [exact H1|]. rewrite H2, <- app_assoc. reflexivity.
    + destruct (IH [] (Forall_nil _)) as [H1 H2].
      destruct cur as [|c cur'].
      * split; [exact H1|exact H2].
      * split.
        -- constructor; [|exact H1]. split; [discriminate|exact Hcur].
        -- simpl. rewrite H2. reflexivity.
Qed.

Example runBlocks_example :
  map (map Args)
      (runBlocks
         (Instructions
            (parseDockerfile
               ["FROM a"; "RUN b"; "RUN c"; "COPY d e"; "RUN f"; "USER g"])))
  = [["b"; "c"]; ["f"]].
Proof. vm_compute. reflexivity. Qed.

Lemma everyThird_length (block : list Instruction) :
  List.length (everyThird block) = (List.length block / 3)%nat.
Proof.
  induction block as [|a|a b|a b c rest IH] using list_ind3;
    try reflexivity.
  change (List.length (a :: b :: c :: rest))
    with (1 * 3 + List.length rest)%nat.
  rewrite Nat.div_add_l by discriminate.
  simpl. rewrite IH. reflexivity.
Qed.

(** C6, as the code has it. The rule emits one finding for every complete
    group of three [RUN] instructions of every maximal block of consecutive
    [RUN] instructions, anchored at the line of the first [RUN] of the
    group: a block of n instructions yields n / 3 findings (one for three to
    five, two for six). A block ends at any other instruction. *)
Theorem CombineRunRule_findings_by_group (ctx : AnalysisContext) :
  let instructions := Instructions (ParsedFile ctx) in
  Check CombineRunRule ctx = findingsByGroup instructions
  /\ List.concat (runBlocks instructions) = filter isRun instructions
  /\ (forall block,
        List.length (groupFindings block) = (List.length block / 3)%nat)
  /\ (forall first second third,
        groupFindings [first; second; third] = [combineRunIssue (Line first)]).
Proof.
  cbv zeta. split; [|split; [|split]].
  - simpl. unfold CombineRunCheck, findingsByGroup, runBlocks.
    rewrite (runBlocksFrom_emitted _ [] (Forall_nil _)). reflexivity.
  - exact (proj2 (runBlocksFrom_blocks _ [] (Forall_nil _))).
  - intros block. unfold groupFindings. rewrite length_map.
    apply everyThird_length.
  - reflexivity.
Qed.

(** C6, as the claim states it, fails: six consecutive [RUN] instructions
    are one maximal block, and the rule emits two findings for it, the second
    anchored at the fourth [RUN] (line 5), where one finding per block is
    one finding at line 2. *)
Lemma CombineRunRule_six_runs_two_findings :
  let instructions := Instructions (ParsedFile (contextOf sixRunsText)) in
  List.length (runBlocks instructions) = 1%nat
  /\ map IssueLine (Check CombineRunRule (contextOf sixRunsText)) = [2; 5]
  /\ map IssueLine (findingsByBlock instructions) = [2]
  /\ Check CombineRunRule (contextOf sixRunsText)
     <> findingsByBlock instructions.
Proof.
  cbv zeta. repeat split; try (vm_compute; reflexivity).
  intros H. apply (f_equal (@List.length Issue)) in H.
  vm_compute in H. discriminate H.
Qed.

(** ** The parser *)

Lemma parseLoop_fold (lines : list string) :
  forall i st,
    parseLoop i lines st =
    fold_left addInstruction (readInstructions i lines) st.
Proof.
  induction lines as [|line following IH]; intros i st; [reflexivity|].
  simpl. unfold parseLine.
  destruct (readInstruction i line following); simpl; apply IH.
Qed.

Lemma before_from_first (l : list Instruction) :
  l = beforeFirstFrom l ++ fromFirstFrom l.
Proof.
  induction l as [|inst rest IH]; [reflexivity|].
  simpl. destruct (isFrom inst); simpl; [reflexivity|].
  f_equal. exact IH.
Qed.

Lemma fromFirstFrom_app (a b : list Instruction) :
  fromFirstFrom (a ++ b) =
    match fromFirstFrom a with
    | [] => fromFirstFrom b
    | _ => fromFirstFrom a ++ b
    end.
Proof.
  induction a as [|inst rest IH]; [simpl; destruct (fromFirstFrom b); reflexivity|].
  simpl. destruct (isFrom inst); [reflexivity|exact IH].
Qed.

Lemma Inv_initial : Inv initialState [].
Proof. constructor; try reflexivity; try constructor; intros; discriminate. Qed.

Lemma app_cons_not_nil {A : Type} (l : list A) (x : A) : l ++ [x] <> [].
Proof. destruct l; discriminate. Qed.

Lemma Inv_from (st : ParseState) (insts : list Instruction)
    (inst : Instruction) :
  Inv st insts -> isFrom inst = true ->
  Inv (addInstruction st inst) (insts ++ [inst]).
Proof.
  intros [Hi Hc Hb Hcat Hst Hlen Hcl Hop] E.
  assert (Hstep :
    openStages (addInstruction st inst) =
    openStages st ++
      [{| Name := parseStageName (Args inst);
          BaseImage := parseBaseImage (Args inst);
          StageInstructions := [inst];
          StartLine := Line inst |}]).
  { unfold addInstruction, openStages. unfold isFrom in E. rewrite E.
    reflexivity. }
  assert (Hff : fromFirstFrom (insts ++ [inst]) = fromFirstFrom insts ++ [inst]).
  { rewrite fromFirstFrom_app. simpl. rewrite E.
    destruct (fromFirstFrom insts); reflexivity. }
  constructor.
  - unfold addInstruction. unfold isFrom in E. rewrite E. simpl.
    rewrite Hi. reflexivity.
  - unfold addInstruction. pose proof E as E'. unfold isFrom in E'.
    rewrite E'. simpl. rewrite Hc, filter_app, length_app. simpl.
    rewrite E. simpl. lia.
  - rewrite Hstep, map_app. simpl. rewrite <- Hb.
    unfold addInstruction. unfold isFrom in E. rewrite E. reflexivity.
  - rewrite Hstep, map_app, concat_app, Hcat, Hff. reflexivity.
  - rewrite Hstep. apply Forall_app. split; [exact Hst|].
    constructor; [|constructor].
    exists inst, []. simpl. repeat split; try reflexivity; try exact E.
    constructor.
  - rewrite Hstep, filter_app, !length_app, Hlen. simpl. rewrite E.
    reflexivity.
  - unfold addInstruction. unfold isFrom in E. rewrite E. simpl.
    intros H. discriminate H.
  - intros cs _. rewrite Hff. apply app_cons_not_nil.
Qed.

Lemma Inv_other (st : ParseState) (insts : list Instruction)
    (inst : Instruction) :
  Inv st insts -> isFrom inst = false ->
  Inv (addInstruction st inst) (insts ++ [inst]).
Proof.
  intros [Hi Hc Hb Hcat Hst Hlen Hcl Hop] E.
  assert (Hadd :
    addInstruction st inst =
    {| pdf := {| Stages := Stages (pdf st);
                 Instructions := Instructions (pdf st) ++ [inst];
                 BaseImages := BaseImages (pdf st);
                 HasMultiStage := HasMultiStage (pdf st) |};
       currentStage := appendToStage (currentStage st) inst;
       stageCount := stageCount st |}).
  { unfold addInstruction. unfold isFrom in E. rewrite E. reflexivity. }
  assert (Hfilter : filter isFrom (insts ++ [inst]) = filter isFrom insts).
  { rewrite filter_app. simpl. rewrite E. apply app_nil_r. }
  destruct (currentStage st) as [cs|] eqn:Ecur.
  - (* an open stage receives the instruction *)
    assert (Hff : fromFirstFrom (insts ++ [inst]) = fromFirstFrom insts ++ [inst]).
    { rewrite fromFirstFrom_app. specialize (Hop cs eq_refl).
      destruct (fromFirstFrom insts); [contradiction|reflexivity]. }
    unfold openStages in Hb, Hcat, Hst, Hlen. rewrite Ecur in Hb, Hcat, Hst, Hlen.
    simpl in Hb, Hcat, Hst, Hlen.
    constructor; rewrite ?Hadd; unfold openStages; simpl.
    + rewrite Hi. reflexivity.
    + rewrite Hfilter. exact Hc.
    + rewrite Hb, !map_app. reflexivity.
    + rewrite Hff, <- Hcat, !map_app, !concat_app. simpl.
      rewrite !app_nil_r, app_assoc. reflexivity.
    + apply Forall_app in Hst. destruct Hst as [Hold Hcs].
      apply Forall_app. split; [exact Hold|].
      constructor; [|constructor].
      inversion Hcs as [|? ? Hw _]; subst.
      destruct Hw as (first & rest & H1 & H2 & H3 & H4 & H5 & H6).
      exists first, (rest ++ [inst]). simpl. rewrite H1.
      repeat split; try assumption.
      apply Forall_app. split; [exact H6|]. constructor; [exact E|constructor].
    + rewrite Hfilter, <- Hlen, !length_app. reflexivity.
    + intros H. discriminate H.
    + intros cs' _. rewrite Hff. apply app_cons_not_nil.
  - (* no stage is open: the instruction goes to no stage *)
    assert (Hff : fromFirstFrom (insts ++ [inst]) = []).
    { rewrite fromFirstFrom_app, (Hcl eq_refl). simpl. rewrite E. reflexivity. }
    unfold openStages in Hb, Hcat, Hst, Hlen. rewrite Ecur in Hb, Hcat, Hst, Hlen.
    simpl in Hb, Hcat, Hst, Hlen.
    constructor; rewrite ?Hadd; unfold openStages; simpl.
    + rewrite Hi. reflexivity.
    + rewrite Hfilter. exact Hc.
    + exact Hb.
    + rewrite Hff, Hcat. apply Hcl. reflexivity.
    + exact Hst.
    + rewrite Hfilter. exact Hlen.
    + intros _. exact Hff.
    + intros cs' H. discriminate H.
Qed.

Lemma Inv_fold (insts : list Instruction) :
  Inv (fold_left addInstruction insts initialState) insts.
Proof.
  induction insts as [|inst insts IH] using rev_ind.
  - exact Inv_initial.
  - rewrite fold_left_app. simpl.
    destruct (isFrom inst) eqn:E; [apply Inv_from|apply Inv_other]; assumption.
Qed.

Lemma parseDockerfile_Inv (lines : list string) :
  Inv (parseLoop 0 lines initialState) (readInstructions 0 lines).
Proof. rewrite parseLoop_fold. apply Inv_fold. Qed.

Lemma parseDockerfile_instructions (lines : list string) :
  Instructions (parseDockerfile lines) = readInstructions 0 lines.
Proof. exact (inv_instructions _ _ (parseDockerfile_Inv lines)). Qed.

Lemma beforeFirstFrom_no_FROM (l : list Instruction) :
  Forall (fun inst => Command inst <> "FROM") (beforeFirstFrom l).
Proof.
  induction l as [|inst rest IH]; [constructor|].
  cbn [beforeFirstFrom]. destruct (isFrom inst) eqn:E; [constructor|].
  constructor; [|exact IH].
  intros Heq. unfold isFrom in E. rewrite Heq in E. discriminate E.
Qed.

(** C3, as the code has it. For every text, the flattened instruction
    sequence is the sequence of the instructions read at the lines of the
    text, one line after the other. It is the instructions read before the
    first [FROM], none of which is a [FROM], followed by the concatenation
    of the instruction lists of the stages in stage order, which is the
    instructions read from the first [FROM] on: the instructions before the
    first [FROM] are in no stage, and they stay in the flattened sequence.
    There are as many base-image references as stages, one per stage in
    order. *)
Theorem parseDockerfile_model (lines : list string) :
  let doc := parseDockerfile lines in
  let read := readInstructions 0 lines in
  Instructions doc = read
  /\ Instructions doc =
       beforeFirstFrom read
       ++ List.concat (map StageInstructions (Stages doc))
  /\ List.concat (map StageInstructions (Stages doc)) = fromFirstFrom read
  /\ Forall (fun inst => Command inst <> "FROM") (beforeFirstFrom read)
  /\ List.length (BaseImages doc) = List.length (Stages doc)
  /\ BaseImages doc = map BaseImage (Stages doc).
Proof.
  cbv zeta.
  destruct (parseDockerfile_Inv lines) as [Hi _ Hb Hcat _ _ _ _].
  unfold parseDockerfile. simpl. fold (openStages (parseLoop 0 lines initialState)).
  rewrite Hi, Hcat, Hb.
  split; [reflexivity|]. split; [apply before_from_first|].
  split; [reflexivity|]. split; [apply beforeFirstFrom_no_FROM|].
  split; [apply length_map|reflexivity].
Qed.

(** C3, as the claim states it, fails: an [ARG] before the first [FROM] is
    in the flattened sequence of the document and in no stage, so the
    sequence is not the concatenation of the stages. *)
Lemma parseDockerfile_keeps_preamble :
  let doc := parseDockerfile (Split preambleText LF) in
  map Command (Instructions doc) = ["ARG"; "FROM"; "RUN"]
  /\ map Command (List.concat (map StageInstructions (Stages doc))) = ["FROM"; "RUN"]
  /\ Instructions doc <> List.concat (map StageInstructions (Stages doc)).
Proof.
  cbv zeta. repeat split; try (vm_compute; reflexivity).
  intros H. apply (f_equal (@List.length Instruction)) in H.
  vm_compute in H. discriminate H.
Qed.

Lemma HasMultiStage_count (lines : list string) :
  HasMultiStage (parseDockerfile lines) = true
  <-> (2 <= List.length (filter isFrom (Instructions (parseDockerfile lines))))%nat.
Proof.
  destruct (parseDockerfile_Inv lines) as [Hi Hc _ _ _ _ _ _].
  unfold parseDockerfile. simpl. rewrite Hi, Hc, Z.ltb_lt. lia.
Qed.

(** X1. The flag and the instructions of the parsed document. For every text,
    [HasMultiStage] is true exactly when the document that was parsed holds
    two or more [FROM] instructions (more than one); the instructions of the
    document are those read at the lines of the text, each line joined with
    the lines that continue it; there are as many stages as [FROM]
    instructions. *)
Theorem HasMultiStage_iff (lines : list string) :
  let doc := parseDockerfile lines in
  let fromCount := List.length (filter isFrom (Instructions doc)) in
  (HasMultiStage doc = true <-> (2 <= fromCount)%nat)
  /\ (HasMultiStage doc = true <-> (1 < fromCount)%nat)
  /\ Instructions doc = readInstructions 0 lines
  /\ List.length (Stages doc) = fromCount.
Proof.
  cbv zeta.
  pose proof (HasMultiStage_count lines) as Hiff.
  destruct (parseDockerfile_Inv lines) as [Hi _ _ _ _ Hlen _ _].
  split; [exact Hiff|]. split; [rewrite Hiff; lia|].
  split; [apply parseDockerfile_instructions|].
  unfold parseDockerfile. simpl.
  fold (openStages (parseLoop 0 lines initialState)).
  rewrite Hi, Hlen. reflexivity.
Qed.

(** The texts of ASCII bytes. A line with a no-break space (U+00A0, the
    bytes 194 and 160) or with a dotless i (U+0131, the bytes 196 and 177)
    is none: Go trims the first as white space and maps the second to the
    capital I, and the functions of [GoStrings] do neither. *)
Example isASCII_texts :
  isASCII plainText = true
  /\ isASCII ("FROM" +++ stringOfBytes [194; 160] +++ "ubuntu") = false
  /\ isASCII ("workd" +++ stringOfBytes [196; 177] +++ "r /srv") = false.
Proof. repeat split; vm_compute; reflexivity. Qed.



(** ** Continuation lines *)

(** C2 at a text with a continuation line. The text has two instructions,
    [FROM] and a [RUN] that runs over two lines; [parseDockerfile] yields
    three, because the loop visits the line that continues the [RUN] again
    and reads it as an instruction of its own. *)
Lemma parseDockerfile_reads_continuation_again :
  let lines := Split continuedText LF in
  map Command (Instructions (parseDockerfile lines)) = ["FROM"; "RUN"; "FLASK"]
  /\ map Args (Instructions (parseDockerfile lines)) =
       ["python:3.12"; "pip install  flask requests"; "requests"]
  /\ List.length (Instructions (parseDockerfile lines)) = 3%nat
  /\ specInstructions 0 lines =
       [("FROM", "python:3.12"); ("RUN", "pip install  flask requests")]
  /\ specInstructionCount lines = 2%nat.
Proof. cbv zeta. repeat split; vm_compute; reflexivity. Qed.

(** C9 at a text with one [FROM] instruction and a [RUN] whose continuation
    line starts with the word from. The loop reads the continuation line
    again, as a [FROM] instruction that opens a stage on the image os, and
    the flag is true. *)
Lemma parseDockerfile_counts_continuation_as_FROM :
  let lines := Split pythonText LF in
  specFromCount lines = 1%nat
  /\ map fst (specInstructions 0 lines) = ["FROM"; "RUN"]
  /\ map Command (Instructions (parseDockerfile lines)) = ["FROM"; "RUN"; "FROM"]
  /\ BaseImages (parseDockerfile lines) = ["python:3.12"; "os"]
  /\ HasMultiStage (parseDockerfile lines) = true.
Proof. cbv zeta. repeat split; vm_compute; reflexivity. Qed.

Lemma joinContinuation_none (following : list string) (i : nat)
    (trimmed : string) :
  HasSuffix trimmed backslash = false ->
  joinContinuation following i trimmed = (i, trimmed).
Proof. intros H. destruct following; simpl; [|rewrite H]; reflexivity. Qed.

(** X2. In a text of ASCII bytes where no line ends in a continuation
    marker, the parser reads the instructions of the specification, and the
    flag is true exactly when two or more of them are [FROM] instructions. *)
Lemma instructions_without_continuation (lines : list string) :
  forallb isASCII lines = true ->
  Forall (fun line => HasSuffix (TrimSpace line) backslash = false) lines ->
  map (fun inst => (Command inst, Args inst))
      (Instructions (parseDockerfile lines))
  = specInstructions 0 lines
  /\ (HasMultiStage (parseDockerfile lines) = true
      <-> (2 <= specFromCount lines)%nat).
Proof.
  intros _ H.
  assert (E : map (fun inst => (Command inst, Args inst))
                  (Instructions (parseDockerfile lines))
              = specInstructions 0 lines).
  { rewrite parseDockerfile_instructions.
    assert (G : forall i,
               map (fun inst => (Command inst, Args inst))
                   (readInstructions i lines)
               = specInstructions 0 lines); [|apply G].
    induction lines as [|line following IH]; intros i; [reflexivity|].
    inversion H as [|? ? Hline Hrest]; subst.
    simpl. unfold readInstruction.
    destruct ((TrimSpace line =? "")%string
              || HasPrefix (TrimSpace line) "#")%bool.
    - apply IH. exact Hrest.
    - rewrite !joinContinuation_none by exact Hline.
      destruct (instructionRegex (TrimSpace line)) as [[m1 m2]|]; simpl;
        rewrite IH by exact Hrest; reflexivity. }
  split; [exact E|].
  rewrite (HasMultiStage_count lines). unfold specFromCount. rewrite <- E.
  assert (Hlen : forall l : list Instruction,
             List.length (filter (fun ca => (fst ca =? "FROM")%string)
                            (map (fun inst => (Command inst, Args inst)) l))
             = List.length (filter isFrom l)).
  { induction l as [|x l IHl]; [reflexivity|].
    simpl. unfold isFrom at 1. destruct (Command x =? "FROM")%string; simpl;
      rewrite IHl; reflexivity. }
  rewrite Hlen. reflexivity.
Qed.

Lemma instructions_without_continuation_witness :
  HasMultiStage (parseDockerfile (Split plainText LF)) = true
  /\ specFromCount (Split plainText LF) = 2%nat.
Proof.
  assert (H : Forall (fun line => HasSuffix (TrimSpace line) backslash = false)
                     (Split plainText LF))
    by (vm_compute; repeat constructor).
  assert (Ha : forallb isASCII (Split plainText LF) = true)
    by (vm_compute; reflexivity).
  destruct (instructions_without_continuation _ Ha H) as [_ Hiff].
  split; [|vm_compute; reflexivity].
  apply Hiff. vm_compute. repeat constructor.
Defined.

(** ** The tests of the package, run on the model *)

Example TestParseDockerfile :
  let doc := parseDockerfile (Split parseTest LF) in
  HasMultiStage doc = true
  /\ List.length (Stages doc) = 2%nat
  /\ List.length (BaseImages doc) = 2%nat
  /\ nth 0 (BaseImages doc) EmptyString = "node:20-alpine".
Proof. cbv zeta. repeat split; vm_compute; reflexivity. Qed.

(** The tests of [AnalyzeContent] pass on the model: each of the five
    Dockerfiles raises the issue its test looks for, and the good Dockerfile
    scores 70 or more. *)
Example TestAnalyzeContent :
  raises (AnalyzeContent (New false) latestTagTest) "DIO001" = true
  /\ raises (AnalyzeContent (New false) rootUserTest) "DIO006" = true
  /\ 70 <= Score (AnalyzeContent (New false) goodDockerfileTest)
  /\ raises (AnalyzeContent (New false) aptGetTest) "DIO004" = true
  /\ raises (AnalyzeContent (New false) cacheTest) "DIO005" = true
  /\ raises (AnalyzeContent (New false) noMultiStageTest) "DIO008" = true.
Proof. repeat split; try (vm_compute; reflexivity). vm_compute. discriminate. Qed.

(** The scenario of the specification: an untagged base image and no [USER]
    give the unpinned-image finding at line 1 and the root-user finding, and
    a score of at most 70. *)
Example scenario_unpinned_root :
  let r := AnalyzeContent (New false) latestTagTest in
  raises r "DIO001" = true /\ raises r "DIO006" = true /\ Score r = 53.
Proof. cbv zeta. repeat split; vm_compute; reflexivity. Qed.

End AnalyzerSpec.

(* ================================================================== *)
(** * Properties of the optimizer *)
(* ================================================================== *)

Module OptimizerSpec.
Import GoStrings GoInt models optimizer OptimizerTerms.

(** ** The estimate *)

Lemma impactOf_bounds (category : string) : 5 <= impactOf category <= 60.
Proof.
  unfold impactOf.
  case_ifs; lia.
Qed.

Lemma fold_impactStep (records : list Optimization) :
  forall total,
    0 <= total ->
    total + 60 * Z.of_nat (List.length records) < 2 ^ 63 ->
    fold_left impactStep records total = total + appliedImpact records.
Proof.
  induction records as [|r rest IH]; intros total Hlo Hhi; simpl.
  - lia.
  - change (List.length (r :: rest)) with (S (List.length rest)) in Hhi.
    rewrite Nat2Z.inj_succ in Hhi.
    pose proof (impactOf_bounds (OptCategory r)) as Hb.
    unfold impactStep at 2. destruct (Applied r).
    + unfold wrap64. rewrite Z.mod_small by lia.
      rewrite IH by lia. lia.
    + rewrite IH by lia. lia.
Qed.

Lemma appliedImpact_zero (records : list Optimization) :
  appliedImpact records = 0 <->
  (forall r, In r records -> Applied r = false).
Proof.
  induction records as [|r rest IH]; simpl.
  - split; [intros _ r []|reflexivity].
  - assert (Hnn : forall l, 0 <= appliedImpact l).
    { induction l as [|x l IHl]; simpl; [lia|].
      pose proof (impactOf_bounds (OptCategory x)).
      destruct (Applied x); lia. }
    pose proof (impactOf_bounds (OptCategory r)) as Hb.
    pose proof (Hnn rest) as Hrest.
    destruct (Applied r) eqn:E.
    + split; [lia|]. intros H. specialize (H r (or_introl eq_refl)).
      rewrite E in H. discriminate H.
    + rewrite IH. split.
      * intros H x [<-|Hx]; [exact E|apply H; exact Hx].
      * intros H x Hx. apply H. right. exact Hx.
Qed.

Lemma estimateReduction_none (records : list Optimization) :
  (forall r, In r records -> Applied r = false) ->
  estimateReduction records = "N/A (suggest mode)".
Proof.
  intros H. unfold estimateReduction.
  assert (E : fold_left
                (fun total opt =>
                   if Applied opt
                   then wrap64 (total + impactOf (OptCategory opt))
                   else total) records 0 = 0).
  { generalize 0. induction records as [|r rest IH]; intros z; [reflexivity|].
    simpl. rewrite (H r (or_introl eq_refl)). apply IH.
    intros x Hx. apply H. right. exact Hx. }
  rewrite E. reflexivity.
Qed.

(** C8. For every list of records that a slice can hold, the label is
    computed from the records that were applied alone: their contributions
    (base-image 60, multi-stage 50, layer-optimization 15, cleanup 20, any
    other category 5) are summed, the sum is capped at 85 and rendered as
    "~N% estimated reduction"; when no record was applied the label is
    "N/A (suggest mode)", whatever the mode of the pipeline that made the
    records. *)
Theorem estimateReduction_label (records : list Optimization) :
  Z.of_nat (List.length records) <= maxSliceLen ->
  let total := appliedImpact records in
  estimateReduction records =
    (if total =? 0 then "N/A (suggest mode)"
     else "~" +++ formatInt (Z.min total 85) +++ "% estimated reduction")
  /\ (impactOf "base-image" = 60 /\ impactOf "multi-stage" = 50
      /\ impactOf "layer-optimization" = 15 /\ impactOf "cleanup" = 20
      /\ forall category,
           category <> "base-image" -> category <> "multi-stage" ->
           category <> "layer-optimization" -> category <> "cleanup" ->
           impactOf category = 5)
  /\ ((forall r, In r records -> Applied r = false) ->
      estimateReduction records = "N/A (suggest mode)")
  /\ (forall (m : Mode) (pipeline : list Strategy) (content : string),
        let res := OptimizeContent {| mode := m; strategies := pipeline |}
                     content in
        EstimatedReduction res = estimateReduction (Optimizations res)
        /\ ((forall r, In r (Optimizations res) -> Applied r = false) ->
            EstimatedReduction res = "N/A (suggest mode)")).
Proof.
  intros Hlen. cbv zeta.
  split; [|split; [|split]].
  - unfold estimateReduction.
    change (fold_left _ records 0) with (fold_left impactStep records 0).
    unfold maxSliceLen in Hlen.
    rewrite fold_impactStep by lia. rewrite Z.add_0_l.
    destruct (85 <? appliedImpact records) eqn:E.
    + apply Z.ltb_lt in E.
      replace (appliedImpact records =? 0) with false
        by (symmetry; apply Z.eqb_neq; lia).
      rewrite Z.min_r by lia. reflexivity.
    + apply Z.ltb_ge in E. rewrite Z.min_l by lia. reflexivity.
  - repeat split; try reflexivity.
    intros category H1 H2 H3 H4. unfold impactOf.
    apply String.eqb_neq in H1, H2, H3, H4.
    rewrite H1, H2, H3, H4. reflexivity.
  - apply estimateReduction_none.
  - intros m pipeline content. split; [reflexivity|].
    intros H. simpl. apply estimateReduction_none. exact H.
Qed.

(** A base-image record and a multi-stage record that were applied and a
    cleanup record that was not: 110, capped. *)
Lemma estimateReduction_label_witness :
  Z.of_nat (List.length [sampleRecord "base-image" true;
                         sampleRecord "cleanup" false;
                         sampleRecord "multi-stage" true]) <= maxSliceLen
  /\ estimateReduction [sampleRecord "base-image" true;
                        sampleRecord "cleanup" false;
                        sampleRecord "multi-stage" true]
     = "~85% estimated reduction".
Proof.
  assert (H : Z.of_nat (List.length [sampleRecord "base-image" true;
                                     sampleRecord "cleanup" false;
                                     sampleRecord "multi-stage" true])
              <= maxSliceLen) by (unfold maxSliceLen; simpl; lia).
  split; [exact H|].
  destruct (estimateReduction_label _ H) as [E _].
  rewrite E. reflexivity.
Defined.

(** ** The cleanup strategy *)

(** C5 at a text with one install command. The first run adds the flag and
    the purge line; the second run, on the text the first one returned, adds
    the purge line once more, after the continuation marker of the install
    line. *)
Lemma CleanupApply_twice :
  cleanedOnce =
    String.concat nl
      ["FROM ubuntu:22.04";
       "RUN apt-get install --no-install-recommends -y curl && " +++ backslash;
       "    rm -rf /var/lib/apt/lists/*"]
  /\ cleanedTwice =
    String.concat nl
      ["FROM ubuntu:22.04";
       "RUN apt-get install --no-install-recommends -y curl && " +++ backslash
         +++ " && " +++ backslash;
       "    rm -rf /var/lib/apt/lists/*";
       "    rm -rf /var/lib/apt/lists/*"]
  /\ cleanedTwice <> cleanedOnce.
Proof.
  repeat split; try (vm_compute; reflexivity).
  intros H. apply (f_equal String.length) in H. vm_compute in H.
  discriminate H.
Qed.

(** ** The pipeline *)

Lemma runStrategy_failure (m : Mode) (st : PipelineState) (strategy : Strategy)
    (opt : Optimization) (text msg : string) :
  Analyze strategy (ctx st) = Some opt ->
  Apply strategy (ctx st) = (text, Some msg) ->
  runStrategy m st strategy =
    {| ctx := ctx st; optimizations := optimizations st ++ [opt] |}.
Proof.
  intros Ha Hp. unfold runStrategy. rewrite Ha, Hp.
  destruct ((m =? ModeAutoFix)%string && OptAutoFixable opt)%bool; reflexivity.
Qed.

(** What one turn of the loop does: nothing, a record with the text kept,
    or a record marked applied with the text replaced. *)
Lemma runStrategy_cases (m : Mode) (st : PipelineState) (strategy : Strategy) :
  runStrategy m st strategy = st
  \/ (exists opt,
        Analyze strategy (ctx st) = Some opt
        /\ runStrategy m st strategy =
             {| ctx := ctx st; optimizations := optimizations st ++ [opt] |})
  \/ (exists opt text,
        m = ModeAutoFix
        /\ Analyze strategy (ctx st) = Some opt
        /\ OptAutoFixable opt = true
        /\ Apply strategy (ctx st) = (text, None)
        /\ optimizations (runStrategy m st strategy) =
             optimizations st ++ [setApplied opt]).
Proof.
  unfold runStrategy.
  destruct (Analyze strategy (ctx st)) as [opt|] eqn:Ha; [|left; reflexivity].
  right.
  destruct (m =? ModeAutoFix)%string eqn:Em; simpl;
    [|left; exists opt; split; reflexivity].
  destruct (OptAutoFixable opt) eqn:Ef;
    [|left; exists opt; split; reflexivity].
  destruct (Apply strategy (ctx st)) as [text [msg|]] eqn:Hp.
  - left. exists opt. split; reflexivity.
  - right. exists opt, text. apply String.eqb_eq in Em.
    repeat split; assumption || reflexivity.
Qed.

Lemma optimizations_grow (m : Mode) (pipeline : list Strategy) :
  forall st r,
    In r (optimizations st) ->
    In r (optimizations (fold_left (runStrategy m) pipeline st)).
Proof.
  induction pipeline as [|s rest IH]; intros st r Hr; [exact Hr|].
  simpl. apply IH.
  destruct (runStrategy_cases m st s) as [E|[(opt & _ & E)|(opt & t & _ & _ & _ & _ & E)]];
    rewrite E; simpl; try apply in_or_app; auto.
Qed.

Lemma unapplied_keeps_context (m : Mode) (pipeline : list Strategy) :
  forall st,
    (forall r, In r (optimizations (fold_left (runStrategy m) pipeline st)) ->
               Applied r = false) ->
    ctx (fold_left (runStrategy m) pipeline st) = ctx st.
Proof.
  induction pipeline as [|s rest IH]; intros st H; [reflexivity|].
  simpl in *. rewrite (IH _ H).
  destruct (runStrategy_cases m st s) as [E|[(opt & _ & E)|(opt & t & _ & _ & _ & _ & E)]].
  - rewrite E. reflexivity.
  - rewrite E. reflexivity.
  - assert (Hin : In (setApplied opt) (optimizations (runStrategy m st s))).
    { rewrite E. apply in_or_app. right. left. reflexivity. }
    apply (optimizations_grow m rest) in Hin.
    specialize (H _ Hin). discriminate H.
Qed.

Lemma changed_by_success (m : Mode) (pipeline : list Strategy)
    (st : PipelineState) :
  ctx (fold_left (runStrategy m) pipeline st) = ctx st
  \/ (m = ModeAutoFix
      /\ exists before strategy later opt text,
           pipeline = before ++ strategy :: later
           /\ Analyze strategy (ctx (fold_left (runStrategy m) before st))
              = Some opt
           /\ OptAutoFixable opt = true
           /\ Apply strategy (ctx (fold_left (runStrategy m) before st))
              = (text, None)).
Proof.
  induction pipeline as [|s before IH] using rev_ind; [left; reflexivity|].
  rewrite fold_left_app. simpl.
  destruct IH as [Hsame|(Hm & b & s' & l & opt & t & -> & Ha & Hf & Hp)].
  - destruct (runStrategy_cases m (fold_left (runStrategy m) before st) s)
      as [E|[(opt & _ & E)|(opt & t & Hm & Ha & Hf & Hp & _)]].
    + left. rewrite E. exact Hsame.
    + left. rewrite E. exact Hsame.
    + right. split; [exact Hm|].
      exists before, s, [], opt, t. repeat split; assumption.
  - right. split; [exact Hm|].
    exists b, s', (l ++ [s]), opt, t.
    rewrite <- app_assoc. repeat split; assumption.
Qed.

Lemma builtin_analyze_fresh (m : Mode) (strategy : Strategy)
    (c : OptimizationContext) (opt : Optimization) :
  In strategy (strategies (New m)) ->
  Analyze strategy c = Some opt -> Applied opt = false.
Proof.
  simpl. intros [<-|[<-|[<-|[<-|[<-|[<-|[<-|[]]]]]]]]; simpl.
  - induction (Lines c) as [|line rest IH]; simpl; [discriminate|].
    destruct (slimCandidate line) as [[[parts base] alt]|];
      [intros [= <-]; reflexivity|exact IH].
  - unfold CombineLayersAnalyze.
    destruct (2 <=? _); [intros [= <-]; reflexivity|discriminate].
  - unfold MultiStageAnalyze.
    destruct (1 <? _); [discriminate|].
    destruct (existsb _ _); [intros [= <-]; reflexivity|discriminate].
  - unfold CacheOptAnalyze.
    destruct (rangeFold cacheStep 0 (Lines c) (-1, -1)) as [a b].
    destruct (_ && _)%bool; [intros [= <-]; reflexivity|discriminate].
  - unfold NonRootUserAnalyze.
    destruct (hasIssue c "DIO006"); [intros [= <-]; reflexivity|discriminate].
  - unfold CleanupAnalyze.
    destruct (hasIssue c "DIO005"); [intros [= <-]; reflexivity|discriminate].
  - unfold WorkdirAnalyze.
    destruct (hasIssue c "DIO011"); [intros [= <-]; reflexivity|discriminate].
Qed.

(** C4. In a run of the pipeline, where the [Apply] of a strategy returns an
    error, the context of the pipeline, and so its working text, is what it
    was before the call; the record of that strategy is appended as
    [Analyze] returned it, which for the strategies of the package is with
    [Applied] false; and the strategies that follow run from that state.
    The final text is the input text unless the mode is autofix and some
    strategy returned an auto-fixable record and its [Apply] succeeded, in
    which case a record of the result is marked applied. *)
Theorem OptimizeContent_apply_failure (o : Optimizer) (content : string) :
  let res := OptimizeContent o content in
  (forall before strategy later opt text msg,
      strategies o = before ++ strategy :: later ->
      let st := stateAfter o content before in
      Analyze strategy (ctx st) = Some opt ->
      Apply strategy (ctx st) = (text, Some msg) ->
      let st' := runStrategy (mode o) st strategy in
      let final := fold_left (runStrategy (mode o)) later st' in
      ctx st' = ctx st
      /\ CurrentContent (ctx st') = CurrentContent (ctx st)
      /\ optimizations st' = optimizations st ++ [opt]
      /\ (In strategy (strategies (New (mode o))) -> Applied opt = false)
      /\ OptimizedDockerfile res = CurrentContent (ctx final)
      /\ Optimizations res = optimizations final)
  /\ (OptimizedDockerfile res = content
      \/ (mode o = ModeAutoFix
          /\ exists before strategy later opt text,
               strategies o = before ++ strategy :: later
               /\ Analyze strategy (ctx (stateAfter o content before))
                  = Some opt
               /\ OptAutoFixable opt = true
               /\ Apply strategy (ctx (stateAfter o content before))
                  = (text, None)))
  /\ ((forall r, In r (Optimizations res) -> Applied r = false) ->
      OptimizedDockerfile res = content).
Proof.
  cbv zeta. split; [|split].
  - intros before strategy later opt text msg Hs Ha Hp.
    rewrite (runStrategy_failure _ _ _ _ _ _ Ha Hp). simpl.
    repeat split.
    + intros Hin. exact (builtin_analyze_fresh (mode o) _ _ _ Hin Ha).
    + unfold OptimizeContent. rewrite Hs, fold_left_app. simpl.
      fold (stateAfter o content before).
      rewrite (runStrategy_failure _ _ _ _ _ _ Ha Hp). reflexivity.
    + unfold OptimizeContent. rewrite Hs, fold_left_app. simpl.
      fold (stateAfter o content before).
      rewrite (runStrategy_failure _ _ _ _ _ _ Ha Hp). reflexivity.
  - unfold OptimizeContent, stateAfter. simpl.
    destruct (changed_by_success (mode o) (strategies o)
                {| ctx := initialContext content; optimizations := [] |})
      as [E|H].
    + left. rewrite E. reflexivity.
    + right. exact H.
  - unfold OptimizeContent. simpl. intros H.
    rewrite (unapplied_keeps_context _ _ _ H). reflexivity.
Qed.

(** A run in autofix mode on a Ruby image with a build command: the
    multi-stage strategy proposes a record and has no template for Ruby. Its
    [Apply] fails, the text stays as the base-image strategy left it, and
    the strategies after it run. In suggest mode no record is applied and
    the text is the input. *)
Lemma OptimizeContent_apply_failure_witness :
  let o := New ModeAutoFix in
  let st := stateAfter o rubyText [BaseImageStrategy; CombineLayersStrategy] in
  snd (Apply MultiStageStrategy (ctx st))
    = Some "no multi-stage template available for ruby"
  /\ CurrentContent (ctx (runStrategy (mode o) st MultiStageStrategy))
     = CurrentContent (ctx st)
  /\ map (fun r => (OptID r, Applied r))
         (Optimizations (OptimizeContent o rubyText))
     = [("OPT-BASE", true); ("OPT-MULTISTAGE", false); ("OPT-USER", true);
        ("OPT-WORKDIR", true)]
  /\ OptimizedDockerfile (OptimizeContent (New ModeSuggest) rubyText) = rubyText.
Proof.
  cbv zeta.
  split; [vm_compute; reflexivity|].
  split; [|split; [vm_compute; reflexivity|]].
  - destruct (OptimizeContent_apply_failure (New ModeAutoFix) rubyText)
      as [H _].
    destruct (Analyze MultiStageStrategy
                (ctx (stateAfter (New ModeAutoFix) rubyText
                        [BaseImageStrategy; CombineLayersStrategy])))
      as [opt|] eqn:Ha; [|vm_compute in Ha; discriminate Ha].
    destruct (Apply MultiStageStrategy
                (ctx (stateAfter (New ModeAutoFix) rubyText
                        [BaseImageStrategy; CombineLayersStrategy])))
      as [text [msg|]] eqn:Hp; [|vm_compute in Hp; discriminate Hp].
    exact (proj1 (proj2 (H [BaseImageStrategy; CombineLayersStrategy]
                           MultiStageStrategy
                           [CacheOptStrategy; NonRootUserStrategy;
                            CleanupStrategy; WorkdirStrategy]
                           opt text msg eq_refl Ha Hp))).
  - destruct (OptimizeContent_apply_failure (New ModeSuggest) rubyText)
      as [_ [_ H]].
    apply H. intros r Hr. vm_compute in Hr.
    repeat (destruct Hr as [<-|Hr]; [reflexivity|]). contradiction.
Defined.

(** ** Lines of a text *)

Lemma Split_oneLine (s : string) :
  Forall (fun line => oneLine line = true) (Split s LF).
Proof.
  induction s as [|c s IH]; simpl.
  - constructor; [reflexivity|constructor].
  - destruct (Ascii.eqb c LF) eqn:E.
    + constructor; [reflexivity|exact IH].
    + destruct (Split s LF) as [|h t].
      * constructor; [|constructor]. unfold oneLine, notLF. simpl.
        rewrite E. reflexivity.
      * inversion IH as [|? ? Hh Ht]; subst.
        constructor; [|exact Ht]. unfold oneLine, notLF in *. simpl.
        rewrite E. exact Hh.
Qed.

Lemma Split_line (a : string) : oneLine a = true -> Split a LF = [a].
Proof.
  induction a as [|c a IH]; intros H; [reflexivity|].
  unfold oneLine in H. simpl in H. apply andb_true_iff in H.
  destruct H as [Hc Ha]. unfold notLF in Hc. apply negb_true_iff in Hc.
  simpl. rewrite Hc, (IH Ha). reflexivity.
Qed.

Lemma Split_append (a b : string) :
  oneLine a = true -> Split (a +++ String LF b) LF = a :: Split b LF.
Proof.
  induction a as [|c a IH]; intros H.
  - reflexivity.
  - unfold oneLine in H. simpl in H. apply andb_true_iff in H.
    destruct H as [Hc Ha]. unfold notLF in Hc. apply negb_true_iff in Hc.
    simpl. rewrite Hc, (IH Ha). reflexivity.
Qed.

Lemma Split_Join (lines : list string) :
  lines <> [] ->
  Forall (fun line => oneLine line = true) lines ->
  Split (Join lines nl) LF = lines.
Proof.
  unfold Join.
  induction lines as [|x rest IH]; intros Hne H; [contradiction|].
  inversion H as [|? ? Hx Hrest]; subst.
  destruct rest as [|y rest'].
  - simpl. apply Split_line. exact Hx.
  - change (String.concat nl (x :: y :: rest'))
      with (x +++ String LF (String.concat nl (y :: rest'))).
    rewrite Split_append by exact Hx.
    rewrite IH; [reflexivity|discriminate|exact Hrest].
Qed.

Lemma allBytes_append (p : ascii -> bool) (a b : string) :
  allBytes p (a +++ b) = (allBytes p a && allBytes p b)%bool.
Proof.
  induction a as [|c a IH]; simpl; [reflexivity|].
  rewrite IH, andb_assoc. reflexivity.
Qed.

Lemma allBytes_impl (p q : ascii -> bool) (s : string) :
  (forall c, p c = true -> q c = true) ->
  allBytes p s = true -> allBytes q s = true.
Proof.
  intros Hpq. induction s as [|c s IH]; simpl; [reflexivity|].
  intros H. apply andb_true_iff in H. destruct H as [Hc Hs].
  rewrite (Hpq c Hc), (IH Hs). reflexivity.
Qed.

Lemma notSpace_notLF (c : ascii) : notSpace c = true -> notLF c = true.
Proof.
  unfold notSpace, notLF. intros H.
  destruct (Ascii.eqb_spec c LF) as [->|]; [|reflexivity].
  vm_compute in H. discriminate H.
Qed.

Lemma fieldsFrom_notSpace (s : string) :
  forall cur,
    allBytes notSpace cur = true ->
    Forall (fun field => allBytes notSpace field = true) (fieldsFrom cur s).
Proof.
  induction s as [|c s IH]; intros cur Hcur; simpl.
  - destruct (isEmpty cur); [constructor|].
    constructor; [exact Hcur|constructor].
  - destruct (isSpace c) eqn:E.
    + destruct (isEmpty cur).
      * apply IH. reflexivity.
      * constructor; [exact Hcur|]. apply IH. reflexivity.
    + apply IH. rewrite allBytes_append, Hcur. simpl.
      unfold notSpace. rewrite E. reflexivity.
Qed.



(** ** The base-image strategy *)













End OptimizerSpec.

(* ================================================================== *)
(** * Properties of the hadolint integration *)
(* ================================================================== *)

Module HadolintSpec.
Import GoStrings GoInt models analyzer hadolint HadolintTerms.

(** ** [truncate] *)

Lemma length_substring_prefix (s : string) :
  forall n, (n <= String.length s)%nat ->
            String.length (String.substring 0 n s) = n.
Proof.
  induction s as [|c s IH]; intros [|n] H; simpl in *; try reflexivity; try lia.
  rewrite IH by lia. reflexivity.
Qed.

Lemma length_append (a b : string) :
  String.length (a +++ b) = (String.length a + String.length b)%nat.
Proof. induction a as [|c a IH]; simpl; [reflexivity|rewrite IH; reflexivity]. Qed.

Lemma truncate_long (s : string) (maxLen : Z) :
  3 <= maxLen < Z.of_nat (String.length s) -> maxLen < 2 ^ 63 ->
  truncate s maxLen = Some (sliceTo s (maxLen - 3) +++ "...")
  /\ Z.of_nat (String.length (sliceTo s (maxLen - 3) +++ "...")) = maxLen.
Proof.
  intros H Hmax. unfold truncate, sliceToChecked.
  destruct (Z.leb_spec (Z.of_nat (String.length s)) maxLen) as [Hle|_]; [lia|].
  unfold wrap64. rewrite Z.mod_small by lia.
  replace (maxLen - 3 + 2 ^ 63 - 2 ^ 63) with (maxLen - 3) by lia.
  destruct (Z.leb_spec 0 (maxLen - 3)) as [_|Hneg]; [|lia].
  destruct (Z.leb_spec (maxLen - 3) (Z.of_nat (String.length s))) as [_|Hbig];
    [|lia].
  split; [reflexivity|].
  rewrite length_append. unfold sliceTo.
  rewrite length_substring_prefix by lia. simpl. lia.
Qed.

(** X7. [truncate] on a string [s] and a bound [maxLen] (an [int]; strings
    are shorter than 2^48 bytes). A string of at most [maxLen] bytes is
    returned as it is. A longer one, when [maxLen] is 3 or more, becomes its
    first [maxLen - 3] bytes followed by three dots, [maxLen] bytes in all.
    When [maxLen] is below 3 and [s] is longer than [maxLen], the slice
    expression is out of range and the function panics. *)
Theorem truncate_spec (s : string) (maxLen : Z) :
  - 2 ^ 63 <= maxLen < 2 ^ 63 ->
  Z.of_nat (String.length s) <= maxSliceLen ->
  (Z.of_nat (String.length s) <= maxLen -> truncate s maxLen = Some s)
  /\ (3 <= maxLen < Z.of_nat (String.length s) ->
      exists short,
        truncate s maxLen = Some short
        /\ short = sliceTo s (maxLen - 3) +++ "..."
        /\ Z.of_nat (String.length short) = maxLen)
  /\ (maxLen < 3 -> maxLen < Z.of_nat (String.length s) ->
      truncate s maxLen = None).
Proof.
  intros Hint Hlen. unfold maxSliceLen in Hlen. split; [|split].
  - intros H. unfold truncate.
    destruct (Z.leb_spec (Z.of_nat (String.length s)) maxLen); [reflexivity|lia].
  - intros H. destruct (truncate_long s maxLen H) as [E L]; [lia|].
    eexists. split; [exact E|]. split; [reflexivity|exact L].
  - intros H3 Hlong. unfold truncate, sliceToChecked.
    destruct (Z.leb_spec (Z.of_nat (String.length s)) maxLen) as [Hle|_]; [lia|].
    unfold wrap64.
    destruct (Z.le_gt_cases (- 2 ^ 63) (maxLen - 3)) as [Hin|Hout].
    + rewrite Z.mod_small by lia.
      destruct (Z.leb_spec 0 (maxLen - 3 + 2 ^ 63 - 2 ^ 63)) as [Hpos|_];
        [lia|reflexivity].
    + replace ((maxLen - 3 + 2 ^ 63) mod 2 ^ 64)
        with (maxLen - 3 + 2 ^ 63 + 2 ^ 64).
      * destruct (Z.leb_spec (maxLen - 3 + 2 ^ 63 + 2 ^ 64 - 2 ^ 63)
                             (Z.of_nat (String.length s))) as [Hbig|_];
          [lia|]. rewrite andb_false_r. reflexivity.
      * apply Z.mod_unique with (q := -1); lia.
Qed.

Lemma truncate_spec_witness :
  truncate "abc" 3 = Some "abc"
  /\ (exists short, truncate "abcdefgh" 5 = Some short
                    /\ short = sliceTo "abcdefgh" (5 - 3) +++ "..."
                    /\ Z.of_nat (String.length short) = 5)
  /\ truncate "abc" 2 = None.
Proof.
  split; [|split].
  - apply (truncate_spec "abc" 3); [lia|vm_compute; discriminate|simpl; lia].
  - apply (truncate_spec "abcdefgh" 5); [lia|vm_compute; discriminate|simpl; lia].
  - apply (truncate_spec "abc" 2); [lia|vm_compute; discriminate|lia|simpl; lia].
Defined.

(** ** The conversion of hadolint's results *)

Lemma mapHadolintLevel_values (level : string) :
  In (mapHadolintLevel level)
     [SeverityHigh; SeverityMedium; SeverityLow; SeverityInfo].
Proof.
  unfold mapHadolintLevel. cbv zeta.
  destruct (ToLower level =? "error")%string; [left; reflexivity|].
  destruct (ToLower level =? "warning")%string; [right; left; reflexivity|].
  destruct (ToLower level =? "info")%string; [right; right; left; reflexivity|].
  destruct (ToLower level =? "style")%string; simpl; auto.
Qed.

Lemma prefix_append (p s : string) : String.prefix p (p +++ s) = true.
Proof.
  induction p as [|c p IH]; simpl; [destruct s; reflexivity|].
  destruct (ascii_dec c c) as [_|N]; [exact IH|contradiction].
Qed.

Lemma substring_all (s : string) : String.substring 0 (String.length s) s = s.
Proof. induction s as [|c s IH]; simpl; [reflexivity|rewrite IH; reflexivity]. Qed.

Lemma dropBytes_append (p s : string) : dropBytes (String.length p) (p +++ s) = s.
Proof.
  unfold dropBytes. rewrite length_append.
  replace (String.length p + String.length s - String.length p)%nat
    with (String.length s) by lia.
  induction p as [|c p IH]; simpl; [apply substring_all|exact IH].
Qed.

Lemma TrimPrefix_append (p s : string) : TrimPrefix (p +++ s) p = s.
Proof.
  unfold TrimPrefix, HasPrefix. rewrite prefix_append. apply dropBytes_append.
Qed.

Lemma truncate_80 (s : string) :
  exists short,
    truncate s 80 = Some short /\ (String.length short <= 80)%nat
    /\ ((String.length s <= 80)%nat -> short = s).
Proof.
  destruct (Z.le_gt_cases (Z.of_nat (String.length s)) 80) as [Hle|Hgt].
  - exists s. unfold truncate.
    destruct (Z.leb_spec (Z.of_nat (String.length s)) 80); [|lia].
    split; [reflexivity|]. split; [lia|]. intros _. reflexivity.
  - destruct (truncate_long s 80) as [E L]; [lia|lia|].
    eexists. split; [exact E|]. split; [lia|]. intros H. lia.
Qed.

Lemma hadolintIssue_converted (r : hadolintResult) :
  exists issue, hadolintIssue r = Some issue /\ convertedFrom r issue.
Proof.
  unfold hadolintIssue.
  destruct (truncate_80 (Message r)) as (short & E & L & Hsame).
  rewrite E. eexists. split; [reflexivity|].
  unfold convertedFrom. cbn [ID IssueSeverity Category IssueLine Description
                             Title AutoFixable].
  split; [reflexivity|].
  split; [apply (TrimPrefix_append "HL-")|].
  split; [apply mapHadolintLevel_values|].
  repeat split.
  - rewrite !length_append. simpl. lia.
  - intros H. rewrite (Hsame H). reflexivity.
Qed.

Lemma hadolintIssues_total (results : list hadolintResult) :
  exists found,
    hadolintIssues results = Some found
    /\ Forall2 convertedFrom results found.
Proof.
  induction results as [|r rest (found & E & H)]; simpl.
  - exists []. split; [reflexivity|constructor].
  - destruct (hadolintIssue_converted r) as (issue & Ei & Hi).
    rewrite Ei, E. exists (issue :: found).
    split; [reflexivity|constructor; assumption].
Qed.

(** X8. The loop of [RunHadolint] never panics: every result gives one
    issue, in order, whose ID is the code of the result behind the prefix
    HL- (so that [TrimPrefix] gives the code back), whose severity is high,
    medium, low or info and never critical, whose category is hadolint, whose
    line and description are those of the result, whose title is at most 82
    bytes longer than the code (the message is cut to 80 bytes), and which is
    not auto-fixable. *)
Theorem hadolintIssues_converted (results : list hadolintResult) :
  exists found,
    hadolintIssues results = Some found
    /\ Forall2 convertedFrom results found.
Proof. exact (hadolintIssues_total results). Qed.

(** ** The merge *)

Lemma mapGet_mapSet_same {K V : Type} (eqb : K -> K -> bool)
    (eqb_spec : forall a b, eqb a b = true <-> a = b)
    (m : list (K * V)) (key : K) (value : V) :
  mapGet eqb (mapSet eqb m key value) key = Some value.
Proof.
  induction m as [|[k v] rest IH]; simpl.
  - replace (eqb key key) with true; [reflexivity|].
    symmetry. apply eqb_spec. reflexivity.
  - destruct (eqb k key) eqn:E; simpl; rewrite E; [reflexivity|exact IH].
Qed.

Lemma mapGet_mapSet_other {K V : Type} (eqb : K -> K -> bool)
    (eqb_spec : forall a b, eqb a b = true <-> a = b)
    (m : list (K * V)) (key other : K) (value : V) :
  key <> other ->
  mapGet eqb (mapSet eqb m key value) other = mapGet eqb m other.
Proof.
  intros N. induction m as [|[k v] rest IH]; simpl.
  - destruct (eqb key other) eqn:E; [|reflexivity].
    apply eqb_spec in E. contradiction.
  - destruct (eqb k key) eqn:E; simpl.
    + apply eqb_spec in E. subst k.
      destruct (eqb key other) eqn:E'; [|reflexivity].
      apply eqb_spec in E'. contradiction.
    + rewrite IH. reflexivity.
Qed.

Lemma Z_eqb_spec (a b : Z) : (a =? b) = true <-> a = b.
Proof. apply Z.eqb_eq. Qed.

Lemma string_eqb_spec (a b : string) : (a =? b)%string = true <-> a = b.
Proof. apply String.eqb_eq. Qed.

Lemma isCovered_coverStep (coveredLines : list (Z * list (string * bool)))
    (issue : Issue) (line : Z) (category : string) :
  isCovered (coverStep coveredLines issue) line category
  = (isCovered coveredLines line category
     || coversLine line category issue)%bool.
Proof.
  unfold coverStep, coversLine.
  destruct (0 <? IssueLine issue); [|rewrite orb_false_r; reflexivity].
  cbn [andb]. unfold isCovered.
  destruct (Z.eqb_spec (IssueLine issue) line) as [<-|N].
  - rewrite (mapGet_mapSet_same Z.eqb Z_eqb_spec). cbn [andb].
    destruct (String.eqb_spec (Category issue) category) as [<-|Nc].
    + rewrite (mapGet_mapSet_same String.eqb string_eqb_spec).
      rewrite orb_true_r. reflexivity.
    + rewrite (mapGet_mapSet_other String.eqb string_eqb_spec) by exact Nc.
      rewrite orb_false_r.
      destruct (mapGet Z.eqb coveredLines (IssueLine issue)); reflexivity.
  - rewrite (mapGet_mapSet_other Z.eqb Z_eqb_spec) by exact N.
    cbn [andb]. rewrite orb_false_r. reflexivity.
Qed.

Lemma isCovered_fold (dioIssues : list Issue) (line : Z) (category : string) :
  forall coveredLines,
    isCovered (fold_left coverStep dioIssues coveredLines) line category
    = (isCovered coveredLines line category
       || existsb (coversLine line category) dioIssues)%bool.
Proof.
  induction dioIssues as [|d rest IH]; intros c; simpl.
  - rewrite orb_false_r. reflexivity.
  - rewrite IH, isCovered_coverStep, orb_assoc. reflexivity.
Qed.

Lemma mergeStep_suppressed (dioIssues acc : list Issue) (h : Issue) :
  mergeStep (fold_left coverStep dioIssues []) acc h
  = if suppressed dioIssues h then acc else acc ++ [h].
Proof.
  unfold mergeStep, suppressed. cbv zeta.
  destruct (mapGet String.eqb hadolintToDIOCategory (TrimPrefix (ID h) "HL-"));
    [|reflexivity].
  rewrite isCovered_fold. reflexivity.
Qed.

Lemma merge_filter (dioIssues hadolintFound : list Issue) :
  mergeHadolintIssues dioIssues hadolintFound
  = dioIssues
    ++ filter (fun h => negb (suppressed dioIssues h)) hadolintFound.
Proof.
  unfold mergeHadolintIssues. cbv zeta.
  assert (G : forall acc,
             fold_left (mergeStep (fold_left coverStep dioIssues []))
                       hadolintFound acc
             = acc ++ filter (fun h => negb (suppressed dioIssues h))
                             hadolintFound); [|apply G].
  induction hadolintFound as [|h rest IH]; intros acc; simpl.
  - rewrite app_nil_r. reflexivity.
  - rewrite IH, mergeStep_suppressed.
    destruct (suppressed dioIssues h); simpl; [reflexivity|].
    rewrite <- app_assoc. reflexivity.
Qed.

(** X9. [mergeHadolintIssues] keeps the issues of its first list, in their
    order, and appends the hadolint issues in their order, leaving out
    exactly those whose code (the ID without the prefix HL-) is in the table
    of overlaps and for which the first list holds an issue on the same
    line, with a line above 0, whose category is the one the table gives.
    So an issue whose code is not in the table, or whose line is 0 or less,
    is never left out, and with an empty first list the result is the
    hadolint list. *)
Theorem mergeHadolintIssues_spec (dioIssues hadolintFound : list Issue) :
  let merged := mergeHadolintIssues dioIssues hadolintFound in
  merged = dioIssues
           ++ filter (fun h => negb (suppressed dioIssues h)) hadolintFound
  /\ (forall h, In h hadolintFound ->
        mapGet String.eqb hadolintToDIOCategory (TrimPrefix (ID h) "HL-") = None
        \/ IssueLine h <= 0 ->
        In h merged)
  /\ (List.length dioIssues <= List.length merged
      <= List.length dioIssues + List.length hadolintFound)%nat
  /\ mergeHadolintIssues [] hadolintFound = hadolintFound
  /\ mergeHadolintIssues dioIssues [] = dioIssues.
Proof.
  cbv zeta. rewrite !merge_filter.
  split; [reflexivity|]. split; [|split; [|split]].
  - intros h Hin Hkeep. apply in_or_app. right. apply filter_In.
    split; [exact Hin|]. apply negb_true_iff. unfold suppressed.
    destruct Hkeep as [->|Hline]; [reflexivity|].
    destruct (mapGet _ _ _); [|reflexivity].
    apply not_true_is_false. intros H. apply existsb_exists in H.
    destruct H as (d & _ & Hd). unfold coversLine in Hd.
    apply andb_true_iff in Hd. destruct Hd as [Hd _].
    apply andb_true_iff in Hd. destruct Hd as [Hpos Heq].
    apply Z.ltb_lt in Hpos. apply Z.eqb_eq in Heq. lia.
  - rewrite length_app.
    pose proof (filter_length_le (fun h => negb (suppressed dioIssues h))
                  hadolintFound). lia.
  - simpl. induction hadolintFound as [|h rest IH]; [reflexivity|].
    cbn [filter].
    replace (suppressed [] h) with false;
      [cbn [negb]; rewrite IH; reflexivity|].
    unfold suppressed. destruct (mapGet String.eqb _ _); reflexivity.
  - simpl. apply app_nil_r.
Qed.

(** ** The tests of the package, run on the model *)

Example TestHadolint :
  map mapHadolintLevel ["error"; "warning"; "info"; "style"; "unknown"]
    = ["high"; "medium"; "low"; "info"; "low"]
  /\ List.length (mergeHadolintIssues
                    [issueAt "DIO001" "base-image" 1]
                    [issueAt "HL-DL3007" "hadolint" 1;
                     issueAt "HL-DL3042" "hadolint" 5]) = 2%nat
  /\ List.length (mergeHadolintIssues
                    [issueAt "DIO006" "security" 5]
                    [issueAt "HL-DL3007" "hadolint" 1]) = 2%nat
  /\ truncate "short" 80 = Some "short"
  /\ option_map String.length
       (truncate (String.concat EmptyString (repeat "a" 100)) 20)
     = Some 20%nat
  /\ useHadolint (NewWithOptions true false) = false.
Proof. repeat split; vm_compute; reflexivity. Qed.

End HadolintSpec.

(* ================================================================== *)
(** * Properties of the parsed instructions *)
(* ================================================================== *)

Module ParserSpec.
Import GoStrings GoInt models analyzer AnalyzerTerms OptimizerTerms ParserTerms.
Import AnalyzerSpec.

Lemma span_allBytes (p : ascii -> bool) (s : string) :
  allBytes p (fst (span p s)) = true.
Proof.
  induction s as [|c s IH]; [reflexivity|].
  cbn [span]. destruct (p c) eqn:E; [|reflexivity].
  destruct (span p s) as [a b]. cbn [fst allBytes] in *. rewrite E, IH.
  reflexivity.
Qed.

Lemma upperByte_command (c : ascii) :
  isWord c = true -> isCommandByte (upperByte c) = true.
Proof.
  destruct c as [[] [] [] [] [] [] [] []]; vm_compute; intros H;
    solve [reflexivity | discriminate H].
Qed.

Lemma ToUpper_command (s : string) :
  allBytes isWord s = true -> allBytes isCommandByte (ToUpper s) = true.
Proof.
  induction s as [|c s IH]; [reflexivity|].
  cbn [allBytes ToUpper mapBytes]. intros H.
  apply andb_true_iff in H. destruct H as [Hc Hs].
  fold (ToUpper s). rewrite (upperByte_command c Hc), (IH Hs). reflexivity.
Qed.

Lemma joinContinuation_bounds (following : list string) :
  forall i trimmed,
    (i <= fst (joinContinuation following i trimmed)
     <= i + List.length following)%nat.
Proof.
  induction following as [|next rest IH]; intros i trimmed;
    cbn [joinContinuation List.length]; [cbn [fst]; lia|].
  destruct (HasSuffix trimmed backslash); [|cbn [fst]; lia].
  specialize (IH (S i) (TrimSuffix trimmed backslash +++ " " +++ TrimSpace next)).
  lia.
Qed.

Lemma readInstruction_blank (i : nat) (line : string) (following : list string) :
  blankOrComment line = true -> readInstruction i line following = None.
Proof.
  unfold blankOrComment, readInstruction. cbv zeta. intros ->. reflexivity.
Qed.

Lemma readInstruction_wellFormed (i : nat) (line : string)
    (following : list string) (inst : Instruction) :
  readInstruction i line following = Some inst ->
  wellFormed (S (i + List.length following)) inst
  /\ Z.of_nat i + 1 <= Line inst.
Proof.
  unfold readInstruction. cbv zeta.
  destruct ((TrimSpace line =? "")%string || HasPrefix (TrimSpace line) "#")%bool;
    [discriminate|].
  pose proof (joinContinuation_bounds following i (TrimSpace line)) as Hb.
  destruct (joinContinuation following i (TrimSpace line)) as [i' joined].
  cbn [fst] in Hb.
  unfold instructionRegex.
  pose proof (span_allBytes isWord joined) as Hw.
  destruct (span isWord joined) as [w r1] eqn:Ew.
  destruct (span isReSpace r1) as [sp r2].
  destruct (isEmpty w || isEmpty sp)%bool eqn:Ee; [discriminate|].
  intros [= <-]. unfold wellFormed.
  cbn [Command Args Line Raw]. rewrite Ew. cbn [fst] in *.
  apply orb_false_iff in Ee. destruct Ee as [Ew' _].
  repeat split; try lia.
  - destruct w; [discriminate Ew'|discriminate].
  - apply ToUpper_command. exact Hw.
  - apply span_allBytes.
Qed.

Lemma readInstructions_wellFormed (lines : list string) :
  forall i,
    Forall (wellFormed (i + List.length lines)) (readInstructions i lines)
    /\ (List.length (readInstructions i lines) <= List.length lines)%nat.
Proof.
  induction lines as [|line following IH]; intros i; simpl.
  - split; [constructor|lia].
  - destruct (IH (S i)) as [Hall Hlen].
    replace (i + S (List.length following))%nat
      with (S i + List.length following)%nat by lia.
    destruct (readInstruction i line following) as [inst|] eqn:E.
    + split; [|simpl; lia].
      constructor; [|exact Hall].
      destruct (readInstruction_wellFormed _ _ _ _ E) as [Hw _]. exact Hw.
    + split; [exact Hall|lia].
Qed.

(** X3. Every instruction of the document parsed from a text of ASCII
    bytes is well formed. Its command is not empty and is made of capital
    letters, digits and underscores: it is the word that starts the joined
    line, in upper case, so that the case of the command in the text does
    not matter. Its arguments hold no line feed. Its line number is between
    1 and the number of lines of the text. And the document has at most as
    many instructions as the text has lines. *)
Theorem parsed_instructions_wellFormed (lines : list string) :
  forallb isASCII lines = true ->
  Forall (wellFormed (List.length lines))
         (Instructions (parseDockerfile lines))
  /\ (List.length (Instructions (parseDockerfile lines))
      <= List.length lines)%nat.
Proof.
  intros _. rewrite parseDockerfile_instructions.
  exact (readInstructions_wellFormed lines 0).
Qed.

Lemma parsed_instructions_wellFormed_witness :
  map Command (Instructions (parseDockerfile (Split plainText LF)))
    = ["FROM"; "RUN"; "FROM"; "COPY"]
  /\ Forall (wellFormed 6)
            (Instructions (parseDockerfile (Split plainText LF)))
  /\ (List.length (Instructions (parseDockerfile (Split plainText LF)))
      <= 6)%nat.
Proof.
  split; [vm_compute; reflexivity|].
  apply (parsed_instructions_wellFormed (Split plainText LF)).
  vm_compute. reflexivity.
Defined.

Lemma readInstructions_blank (lines : list string) :
  Forall (fun line => blankOrComment line = true) lines ->
  forall i, readInstructions i lines = [].
Proof.
  induction 1 as [|line following Hline _ IH]; intros i; [reflexivity|].
  simpl. rewrite (readInstruction_blank _ _ _ Hline). apply IH.
Qed.

Lemma parseDockerfile_blank (lines : list string) :
  Forall (fun line => blankOrComment line = true) lines ->
  parseDockerfile lines =
    {| Stages := []; Instructions := []; BaseImages := [];
       HasMultiStage := false |}.
Proof.
  intros H. unfold parseDockerfile.
  rewrite parseLoop_fold, (readInstructions_blank lines H). reflexivity.
Qed.

(** X4. A text with no instruction. When every line of the text is blank
    or a comment (the empty text is such a text), the parsed document has no
    instruction, no stage and no base image and is not multi-stage, and
    [AnalyzeContent] reports exactly the three findings that need no
    instruction, in this order: DIO006 (runs as root), DIO011 (no WORKDIR)
    and DIO012 (no HEALTHCHECK); the score is 78. *)
Theorem AnalyzeContent_no_instruction (hadolintAvailable : bool)
    (content : string) :
  Forall (fun line => blankOrComment line = true) (Split content LF) ->
  let doc := parseDockerfile (Split content LF) in
  let r := AnalyzeContent (New hadolintAvailable) content in
  Instructions doc = [] /\ Stages doc = [] /\ BaseImages doc = []
  /\ HasMultiStage doc = false
  /\ map ID (Issues r) = ["DIO006"; "DIO011"; "DIO012"]
  /\ Score r = 78.
Proof.
  intros H. cbv zeta. unfold AnalyzeContent. cbv zeta.
  rewrite (parseDockerfile_blank _ H).
  repeat split; reflexivity.
Qed.

Lemma AnalyzeContent_no_instruction_witness :
  map ID (Issues (AnalyzeContent (New false) emptyText))
    = ["DIO006"; "DIO011"; "DIO012"]
  /\ Score (AnalyzeContent (New false) EmptyString) = 78.
Proof.
  split.
  - apply (AnalyzeContent_no_instruction false emptyText).
    vm_compute. repeat constructor.
  - apply (AnalyzeContent_no_instruction false EmptyString).
    vm_compute. repeat constructor.
Defined.

End ParserSpec.

(* ================================================================== *)
(** * Properties of the registry of rules *)
(* ================================================================== *)

Module RulesSpec.
Import GoStrings GoInt models analyzer AnalyzerTerms OptimizerTerms ParserTerms.
Import RulesTerms AnalyzerSpec ParserSpec.

Lemma Instructions_wellFormed (lines : list string) :
  Forall (wellFormed (List.length lines)) (Instructions (parseDockerfile lines)).
Proof.
  rewrite parseDockerfile_instructions.
  exact (proj1 (readInstructions_wellFormed lines 0)).
Qed.

Lemma Forall_flat_map_in {A B : Type} (P : B -> Prop) (f : A -> list B)
    (l : list A) :
  (forall a, In a l -> Forall P (f a)) -> Forall P (flat_map f l).
Proof.
  intros H. apply Forall_forall. intros b Hb. apply in_flat_map in Hb.
  destruct Hb as (a & Ha & Hb). specialize (H a Ha).
  rewrite Forall_forall in H. exact (H b Hb).
Qed.

(** ** The issues of each rule *)

Section Rules.
Variable ctx : AnalysisContext.
Variable count : nat.
Hypothesis Hwf : Forall (wellFormed count) (Instructions (ParsedFile ctx)).

Lemma line_bounds (inst : Instruction) :
  In inst (Instructions (ParsedFile ctx)) -> 1 <= Line inst <= Z.of_nat count.
Proof.
  intros Hin. rewrite Forall_forall in Hwf.
  destruct (Hwf inst Hin) as (_ & _ & _ & _ & H). exact H.
Qed.

Lemma LatestTagCheck_kinds :
  Forall (ofKinds count (kindsOfRank 1)) (LatestTagCheck ctx).
Proof.
  unfold LatestTagCheck. apply Forall_flat_map_in. intros img _.
  destruct (HasSuffix img ":latest" || negb (Contains img ":"))%bool;
    [|constructor].
  destruct (img =? "scratch")%string; [constructor|].
  destruct (find _ _) as [inst|] eqn:E; [|constructor].
  apply find_some in E. destruct E as [Hin _].
  constructor; [|constructor]. of_kinds line_bounds.
Qed.

Lemma MissingDockerignoreCheck_kinds :
  Forall (ofKinds count (kindsOfRank 2)) (MissingDockerignoreCheck ctx)
  /\ List.length (MissingDockerignoreCheck ctx)
     = (if MissingDockerignore ctx then 1 else 0)%nat.
Proof.
  unfold MissingDockerignoreCheck.
  destruct (MissingDockerignore ctx); cbn [negb]; split;
    try reflexivity; repeat constructor.
  of_kinds line_bounds.
Qed.

Lemma TooManyLayersCheck_kinds :
  Forall (ofKinds count (kindsOfRank 3)) (TooManyLayersCheck ctx)
  /\ (List.length (TooManyLayersCheck ctx) <= 1)%nat.
Proof.
  unfold TooManyLayersCheck.
  destruct (rev (Stages (ParsedFile ctx))) as [|finalStage rest];
    [split; [constructor|simpl; lia]|].
  cbv zeta. destruct (15 <? _); split; try (simpl; lia); repeat constructor.
  of_kinds line_bounds.
Qed.

Lemma AptGetCheck_kinds :
  Forall (ofKinds count (kindsOfRank 4)) (AptGetCheck ctx).
Proof.
  unfold AptGetCheck. apply Forall_flat_map_in. intros inst Hin.
  destruct (negb (Command inst =? "RUN")%string); [constructor|].
  destruct (_ && _)%bool; repeat constructor. of_kinds line_bounds.
Qed.

Lemma CacheNotCleanedCheck_kinds :
  Forall (ofKinds count (kindsOfRank 5)) (CacheNotCleanedCheck ctx).
Proof.
  unfold CacheNotCleanedCheck. apply Forall_flat_map_in. intros inst Hin.
  destruct (negb (Command inst =? "RUN")%string); [constructor|].
  cbv zeta. apply Forall_app. split.
  - destruct (_ && _)%bool; repeat constructor. of_kinds line_bounds.
  - destruct (_ && _)%bool; repeat constructor. of_kinds line_bounds.
Qed.

Lemma RootUserCheck_kinds :
  Forall (ofKinds count (kindsOfRank 6)) (RootUserCheck ctx)
  /\ (List.length (RootUserCheck ctx) <= 1)%nat.
Proof.
  unfold RootUserCheck. cbv zeta.
  destruct (negb _); split; try (simpl; lia); repeat constructor.
  of_kinds line_bounds.
Qed.

Lemma CopyAllCheck_kinds :
  Forall (ofKinds count (kindsOfRank 7)) (CopyAllCheck ctx).
Proof.
  unfold CopyAllCheck. apply Forall_flat_map_in. intros inst Hin.
  destruct (_ && _)%bool; repeat constructor. of_kinds line_bounds.
Qed.

Lemma NoMultiStageCheck_kinds :
  Forall (ofKinds count (kindsOfRank 8)) (NoMultiStageCheck ctx)
  /\ (List.length (NoMultiStageCheck ctx) <= 1)%nat.
Proof.
  unfold NoMultiStageCheck.
  destruct (HasMultiStage (ParsedFile ctx)); [split; [constructor|simpl; lia]|].
  cbv zeta. destruct (existsb _ _); split; try (simpl; lia); repeat constructor.
  of_kinds line_bounds.
Qed.

Lemma PinVersionCheck_kinds :
  Forall (ofKinds count (kindsOfRank 9)) (PinVersionCheck ctx).
Proof.
  unfold PinVersionCheck. apply Forall_flat_map_in. intros inst Hin.
  destruct (_ && _)%bool; [|constructor].
  destruct (negb _); repeat constructor. of_kinds line_bounds.
Qed.

(** The loop of [CombineRunRule.Check]: the issues raised so far are of the
    kind of the rule, and while [RUN] instructions are being counted
    [firstRunLine] is the line of one of them. *)
Lemma combineRun_invariant (l : list Instruction) :
  (forall inst, In inst l -> 1 <= Line inst <= Z.of_nat count) ->
  let st := fold_left combineRunStep l
              {| issues := []; consecutiveRuns := 0; firstRunLine := 0 |} in
  Forall (ofKinds count (kindsOfRank 10)) (issues st)
  /\ 0 <= consecutiveRuns st
  /\ (0 < consecutiveRuns st -> 1 <= firstRunLine st <= Z.of_nat count).
Proof.
  cbv zeta. induction l as [|inst l IH] using rev_ind; intros Hl.
  - simpl. repeat split; [constructor|lia|lia|lia].
  - rewrite fold_left_app. cbn [fold_left].
    destruct IH as (Hi & Hc & Hf).
    { intros i Hin. apply Hl. apply in_or_app. left. exact Hin. }
    assert (Hline : 1 <= Line inst <= Z.of_nat count).
    { apply Hl. apply in_or_app. right. left. reflexivity. }
    set (st := fold_left combineRunStep l _) in *.
    unfold combineRunStep.
    destruct (Command inst =? "RUN")%string; cbv zeta.
    + assert (Hfirst : 1 <= (if consecutiveRuns st + 1 =? 1 then Line inst
                             else firstRunLine st) <= Z.of_nat count).
      { destruct (Z.eqb_spec (consecutiveRuns st + 1) 1); [exact Hline|].
        apply Hf. lia. }
      destruct (Z.leb_spec 3 (consecutiveRuns st + 1)); cbn [issues consecutiveRuns firstRunLine].
      * split; [|split; [lia|lia]].
        apply Forall_app. split; [exact Hi|].
        constructor; [|constructor].
        eexists. split; [left; reflexivity|].
        split; [reflexivity|]. split; [reflexivity|]. split; [reflexivity|].
        split; [reflexivity|]. exact Hfirst.
      * split; [exact Hi|]. split; [lia|]. intros _. exact Hfirst.
    + cbn [issues consecutiveRuns firstRunLine].
      split; [exact Hi|]. split; lia.
Qed.

Lemma CombineRunCheck_kinds :
  Forall (ofKinds count (kindsOfRank 10))
         (CombineRunCheck (Instructions (ParsedFile ctx))).
Proof.
  unfold CombineRunCheck.
  exact (proj1 (combineRun_invariant _ line_bounds)).
Qed.

Lemma WorkdirCheck_kinds :
  Forall (ofKinds count (kindsOfRank 11)) (WorkdirCheck ctx)
  /\ (List.length (WorkdirCheck ctx) <= 1)%nat.
Proof.
  unfold WorkdirCheck. cbv zeta.
  destruct (negb _); split; try (simpl; lia); repeat constructor.
  of_kinds line_bounds.
Qed.

Lemma HealthcheckCheck_kinds :
  Forall (ofKinds count (kindsOfRank 12)) (HealthcheckCheck ctx)
  /\ (List.length (HealthcheckCheck ctx) <= 1)%nat.
Proof.
  unfold HealthcheckCheck.
  destruct (existsb _ _); split; try (simpl; lia); repeat constructor.
  of_kinds line_bounds.
Qed.

(** The rule at each place of the registry raises the kinds of that place. *)
Lemma DefaultRules_kinds (n : nat) (rule : Rule) :
  nth_error DefaultRules n = Some rule ->
  Forall (ofKinds count (kindsOfRank (S n))) (Check rule ctx).
Proof.
  intros H.
  destruct n as [|[|[|[|[|[|[|[|[|[|[|[|n]]]]]]]]]]]]; cbn [nth_error DefaultRules] in H;
    [injection H as <-..|].
  - exact LatestTagCheck_kinds.
  - exact (proj1 MissingDockerignoreCheck_kinds).
  - exact (proj1 TooManyLayersCheck_kinds).
  - exact AptGetCheck_kinds.
  - exact CacheNotCleanedCheck_kinds.
  - exact (proj1 RootUserCheck_kinds).
  - exact CopyAllCheck_kinds.
  - exact (proj1 NoMultiStageCheck_kinds).
  - exact PinVersionCheck_kinds.
  - exact CombineRunCheck_kinds.
  - exact (proj1 WorkdirCheck_kinds).
  - exact (proj1 HealthcheckCheck_kinds).
  - destruct n; discriminate H.
Qed.

End Rules.

(** ** The findings of the registry *)

Lemma kindsOfRank_catalogue (rank : nat) (k : Kind) :
  In k (kindsOfRank rank) -> In k catalogue /\ Rank k = rank.
Proof.
  unfold kindsOfRank. intros H. apply filter_In in H.
  destruct H as [Hin Hr]. apply Nat.eqb_eq in Hr. split; assumption.
Qed.

Lemma ruleIndex_catalogue (k : Kind) :
  In k catalogue -> ruleIndex (KindID k) = Rank k.
Proof.
  intros H. repeat (destruct H as [<-|H]; [reflexivity|]). contradiction.
Qed.

Lemma ofKinds_rank (count rank : nat) (issue : Issue) :
  ofKinds count (kindsOfRank rank) issue ->
  ofKinds count catalogue issue /\ ruleIndex (ID issue) = rank.
Proof.
  intros (k & Hk & Hc). apply kindsOfRank_catalogue in Hk.
  destruct Hk as [Hin Hr]. split; [exists k; split; assumption|].
  destruct Hc as (-> & _). rewrite ruleIndex_catalogue by exact Hin. exact Hr.
Qed.

(** The issues of rules of increasing ranks are in the order of the ranks. *)
Lemma blocks_sorted (f : Issue -> nat) (blocks : list (list Issue)) :
  forall start,
    (forall n block, nth_error blocks n = Some block ->
                     Forall (fun issue => f issue = (start + n)%nat) block) ->
    StronglySorted le (map f (List.concat blocks))
    /\ Forall (fun issue => (start <= f issue)%nat) (List.concat blocks).
Proof.
  induction blocks as [|block rest IH]; intros start H.
  - split; constructor.
  - destruct (IH (S start)) as [Hs Hb].
    { intros n b Hn. specialize (H (S n) b Hn).
      eapply Forall_impl; [|exact H]. intros issue E. cbv beta in *. lia. }
    specialize (H 0%nat block eq_refl).
    assert (Hrest : Forall (fun issue => (start <= f issue)%nat)
                           (List.concat rest)).
    { eapply Forall_impl; [|exact Hb]. intros issue E. cbv beta in *. lia. }
    cbn [List.concat]. split.
    + rewrite map_app.
      induction block as [|x block IHb]; [exact Hs|].
      inversion H as [|? ? Hx Hblock]; subst.
      cbn [map app]. constructor; [exact (IHb Hblock)|].
      rewrite <- map_app. apply Forall_map. apply Forall_app. split.
      * eapply Forall_impl; [|exact Hblock]. intros issue E. cbv beta in *. lia.
      * eapply Forall_impl; [|exact Hrest]. intros issue E. cbv beta in *. lia.
    + apply Forall_app. split; [|exact Hrest].
      eapply Forall_impl; [|exact H]. intros issue E. cbv beta in *. lia.
Qed.

Lemma countID_app (id : string) (a b : list Issue) :
  countID id (a ++ b) = (countID id a + countID id b)%nat.
Proof. unfold countID. rewrite filter_app, length_app. reflexivity. Qed.

Lemma countID_le (id : string) (block : list Issue) :
  (countID id block <= List.length block)%nat.
Proof. apply filter_length_le. Qed.

Lemma countID_other (count rank : nat) (id : string) (block : list Issue) :
  Forall (ofKinds count (kindsOfRank rank)) block ->
  ruleIndex id <> rank -> countID id block = 0%nat.
Proof.
  intros H N. unfold countID.
  induction H as [|issue block Hi _ IH]; [reflexivity|].
  cbn [filter]. apply ofKinds_rank in Hi. destruct Hi as [_ Hr].
  destruct (String.eqb_spec (ID issue) id) as [E|_]; [|exact IH].
  rewrite E in Hr. contradiction.
Qed.

Lemma countID_all (count : nat) (id : string) (block : list Issue) :
  Forall (ofKinds count [Build_Kind id SeverityMedium "best-practice" true
                           false 2]) block ->
  countID id block = List.length block.
Proof.
  intros H. unfold countID.
  induction H as [|issue block (k & [<-|[]] & (E & _)) _ IH]; [reflexivity|].
  cbn [filter KindID] in *. rewrite E, String.eqb_refl. cbn [List.length].
  rewrite IH. reflexivity.
Qed.

Lemma builtinIssues_path (path path' content : string) (missing : bool) :
  builtinIssues path content missing = builtinIssues path' content missing.
Proof. reflexivity. Qed.

(** X5. The findings of the registry on a text, with or without a
    [.dockerignore]. Every issue is of one of the thirteen kinds of the
    catalogue: its ID fixes its severity, its category and whether it is
    auto-fixable; an issue about an instruction carries a line between 1 and
    the number of lines of the text, an issue about the whole file carries
    line 0. The issues stand in the order of the rules in the registry. Each
    of the findings about the whole file is raised at most once, and DIO002
    exactly when the [.dockerignore] is missing; [AnalyzeContent], which has
    no file, reports these findings with the flag false, so it never reports
    DIO002. *)
Theorem builtinIssues_catalogue (path content : string) (missing : bool) :
  let found := builtinIssues path content missing in
  let count := List.length (Split content LF) in
  Forall (ofKinds count catalogue) found
  /\ StronglySorted le (map (fun issue => ruleIndex (ID issue)) found)
  /\ (forall id, In id wholeFileIDs -> (countID id found <= 1)%nat)
  /\ countID "DIO002" found = (if missing then 1 else 0)%nat
  /\ (forall hadolintAvailable,
        Issues (AnalyzeContent (New hadolintAvailable) content)
        = builtinIssues "<stdin>" content false).
Proof.
  cbv zeta.
  set (ctx := fileContext path content missing).
  set (count := List.length (Split content LF)).
  assert (Hwf : Forall (wellFormed count) (Instructions (ParsedFile ctx)))
    by apply Instructions_wellFormed.
  assert (Hblocks : forall n rule,
             nth_error DefaultRules n = Some rule ->
             Forall (ofKinds count (kindsOfRank (S n))) (Check rule ctx))
    by (intros n rule; apply DefaultRules_kinds; exact Hwf).
  unfold builtinIssues. fold ctx.
  split; [|split; [|split; [|split]]].
  - apply Forall_flat_map_in. intros rule Hin.
    apply In_nth_error in Hin. destruct Hin as [n Hn].
    eapply Forall_impl; [|exact (Hblocks n rule Hn)].
    intros issue H. exact (proj1 (ofKinds_rank _ _ _ H)).
  - rewrite flat_map_concat_map.
    apply (blocks_sorted (fun issue => ruleIndex (ID issue)) _ 1).
    intros n block Hn. rewrite nth_error_map in Hn.
    destruct (nth_error DefaultRules n) as [rule|] eqn:E; [|discriminate Hn].
    injection Hn as <-.
    eapply Forall_impl; [|exact (Hblocks n rule E)].
    intros issue H. exact (proj2 (ofKinds_rank _ _ _ H)).
  - pose proof (proj2 (MissingDockerignoreCheck_kinds ctx count)) as L2.
    pose proof (proj2 (TooManyLayersCheck_kinds ctx count)) as L3.
    pose proof (proj2 (RootUserCheck_kinds ctx count)) as L6.
    pose proof (proj2 (NoMultiStageCheck_kinds ctx count)) as L8.
    pose proof (proj2 (WorkdirCheck_kinds ctx count)) as L11.
    pose proof (proj2 (HealthcheckCheck_kinds ctx count)) as L12.
    assert (L2' : (List.length (MissingDockerignoreCheck ctx) <= 1)%nat)
      by (rewrite L2; destruct (MissingDockerignore ctx); lia).
    intros id Hid.
    cbn [flat_map DefaultRules Check CombineRunRule].
    rewrite !countID_app.
    pose proof (countID_le id (MissingDockerignoreCheck ctx)).
    pose proof (countID_le id (TooManyLayersCheck ctx)).
    pose proof (countID_le id (RootUserCheck ctx)).
    pose proof (countID_le id (NoMultiStageCheck ctx)).
    pose proof (countID_le id (WorkdirCheck ctx)).
    pose proof (countID_le id (HealthcheckCheck ctx)).
    assert (Hzero : forall n rule,
               nth_error DefaultRules n = Some rule ->
               ruleIndex id <> S n -> countID id (Check rule ctx) = 0%nat).
    { intros n rule Hn. apply (countID_other count). exact (Hblocks n rule Hn). }
    pose proof (Hzero 0%nat _ eq_refl) as Z1.
    pose proof (Hzero 1%nat _ eq_refl) as Z2.
    pose proof (Hzero 2%nat _ eq_refl) as Z3.
    pose proof (Hzero 3%nat _ eq_refl) as Z4.
    pose proof (Hzero 4%nat _ eq_refl) as Z5.
    pose proof (Hzero 5%nat _ eq_refl) as Z6.
    pose proof (Hzero 6%nat _ eq_refl) as Z7.
    pose proof (Hzero 7%nat _ eq_refl) as Z8.
    pose proof (Hzero 8%nat _ eq_refl) as Z9.
    pose proof (Hzero 9%nat _ eq_refl) as Z10.
    pose proof (Hzero 10%nat _ eq_refl) as Z11.
    pose proof (Hzero 11%nat _ eq_refl) as Z12.
    cbn [Check CombineRunRule] in Z1, Z2, Z3, Z4, Z5, Z6, Z7, Z8, Z9, Z10,
                                  Z11, Z12.
    clear Hzero.
    assert (Hrank : In (ruleIndex id) [2; 3; 6; 8; 11; 12]%nat).
    { clear - Hid.
      repeat (destruct Hid as [<-|Hid]; [vm_compute; auto 10|]).
      contradiction. }
    cbn [countID filter List.length] in *.
    cbn [In] in Hrank.
    destruct Hrank as [E|[E|[E|[E|[E|[E|[]]]]]]]; rewrite <- E in *;
      rewrite ?Z1, ?Z2, ?Z3, ?Z4, ?Z5, ?Z6, ?Z7, ?Z8, ?Z9, ?Z10, ?Z11, ?Z12
        by discriminate; lia.
  - cbn [flat_map DefaultRules Check CombineRunRule].
    rewrite !countID_app.
    rewrite (countID_other count 1 _ _ (Hblocks 0%nat _ eq_refl))
      by (vm_compute; discriminate).
    rewrite (countID_other count 3 _ _ (Hblocks 2%nat _ eq_refl))
      by (vm_compute; discriminate).
    rewrite (countID_other count 4 _ _ (Hblocks 3%nat _ eq_refl))
      by (vm_compute; discriminate).
    rewrite (countID_other count 5 _ _ (Hblocks 4%nat _ eq_refl))
      by (vm_compute; discriminate).
    rewrite (countID_other count 6 _ _ (Hblocks 5%nat _ eq_refl))
      by (vm_compute; discriminate).
    rewrite (countID_other count 7 _ _ (Hblocks 6%nat _ eq_refl))
      by (vm_compute; discriminate).
    rewrite (countID_other count 8 _ _ (Hblocks 7%nat _ eq_refl))
      by (vm_compute; discriminate).
    rewrite (countID_other count 9 _ _ (Hblocks 8%nat _ eq_refl))
      by (vm_compute; discriminate).
    rewrite (countID_other count 10 _ (CombineRunCheck _)
               (Hblocks 9%nat _ eq_refl)) by (vm_compute; discriminate).
    rewrite (countID_other count 11 _ _ (Hblocks 10%nat _ eq_refl))
      by (vm_compute; discriminate).
    rewrite (countID_other count 12 _ _ (Hblocks 11%nat _ eq_refl))
      by (vm_compute; discriminate).
    rewrite (countID_all count "DIO002" (MissingDockerignoreCheck ctx)
               (Hblocks 1%nat _ eq_refl)).
    rewrite (proj2 (MissingDockerignoreCheck_kinds ctx count)).
    cbn [countID filter List.length]. subst ctx. cbn [MissingDockerignore fileContext].
    destruct missing; reflexivity.
  - intros h. reflexivity.
Qed.

(** ** What raises a finding *)

Lemma existsb_other (count rank : nat) (id : string) (block : list Issue) :
  Forall (ofKinds count (kindsOfRank rank)) block ->
  ruleIndex id <> rank ->
  existsb (fun issue => (ID issue =? id)%string) block = false.
Proof.
  intros H N. induction H as [|issue block Hi _ IH]; [reflexivity|].
  cbn [existsb]. rewrite IH, orb_false_r.
  apply ofKinds_rank in Hi. destruct Hi as [_ Hr].
  destruct (String.eqb_spec (ID issue) id) as [E|_]; [|reflexivity].
  rewrite E in Hr. contradiction.
Qed.

Lemma existsb_flat_map {A B : Type} (p : B -> bool) (f : A -> list B)
    (l : list A) :
  existsb p (flat_map f l) = existsb (fun x => existsb p (f x)) l.
Proof.
  induction l as [|x l IH]; [reflexivity|].
  cbn [flat_map existsb]. rewrite existsb_app, IH. reflexivity.
Qed.

Lemma existsb_ext_in {A : Type} (f g : A -> bool) (l : list A) :
  (forall x, In x l -> f x = g x) -> existsb f l = existsb g l.
Proof.
  induction l as [|x l IH]; intros H; [reflexivity|].
  cbn [existsb]. rewrite (H x) by (left; reflexivity).
  rewrite IH; [reflexivity|]. intros y Hy. apply H. right. exact Hy.
Qed.

(** The issues with an ID are raised by the rule of the ID. *)
Lemma raised_by_rule (content : string) (id : string) :
  ruleIndex id <> 0%nat ->
  existsb (fun issue => (ID issue =? id)%string)
          (builtinIssues "<stdin>" content false)
  = match nth_error DefaultRules (pred (ruleIndex id)) with
    | Some rule =>
        existsb (fun issue => (ID issue =? id)%string)
                (Check rule (fileContext "<stdin>" content false))
    | None => false
    end.
Proof.
  intros Hid. unfold builtinIssues.
  set (ctx := fileContext "<stdin>" content false).
  set (count := List.length (Split content LF)).
  assert (Hwf : Forall (wellFormed count) (Instructions (ParsedFile ctx)))
    by apply Instructions_wellFormed.
  assert (Hzero : forall n rule,
             nth_error DefaultRules n = Some rule ->
             ruleIndex id <> S n ->
             existsb (fun issue => (ID issue =? id)%string) (Check rule ctx)
             = false).
  { intros n rule Hn. apply (existsb_other count).
    exact (DefaultRules_kinds ctx count Hwf n rule Hn). }
  pose proof (Hzero 0%nat _ eq_refl) as Z1.
  pose proof (Hzero 1%nat _ eq_refl) as Z2.
  pose proof (Hzero 2%nat _ eq_refl) as Z3.
  pose proof (Hzero 3%nat _ eq_refl) as Z4.
  pose proof (Hzero 4%nat _ eq_refl) as Z5.
  pose proof (Hzero 5%nat _ eq_refl) as Z6.
  pose proof (Hzero 6%nat _ eq_refl) as Z7.
  pose proof (Hzero 7%nat _ eq_refl) as Z8.
  pose proof (Hzero 8%nat _ eq_refl) as Z9.
  pose proof (Hzero 9%nat _ eq_refl) as Z10.
  pose proof (Hzero 10%nat _ eq_refl) as Z11.
  pose proof (Hzero 11%nat _ eq_refl) as Z12.
  clear Hzero.
  cbn [flat_map DefaultRules]. rewrite !existsb_app.
  cbn [existsb]. rewrite orb_false_r.
  destruct (ruleIndex id) as [|[|[|[|[|[|[|[|[|[|[|[|[|n]]]]]]]]]]]]];
    [contradiction| | | | | | | | | | | | |];
    cbn [pred nth_error DefaultRules];
    rewrite ?Z1, ?Z2, ?Z3, ?Z4, ?Z5, ?Z6, ?Z7, ?Z8, ?Z9, ?Z10, ?Z11, ?Z12
      by discriminate;
    rewrite ?orb_false_r; cbn [orb]; try reflexivity.
  destruct n; reflexivity.
Qed.

Lemma builtin_raises (content : string) :
  let ctx := fileContext "<stdin>" content false in
  let found := builtinIssues "<stdin>" content false in
  let instructions := Instructions (ParsedFile ctx) in
  existsb (fun issue => (ID issue =? "DIO001")%string) found
  = negb (isNil (LatestTagCheck ctx))
  /\ existsb (fun issue => (ID issue =? "DIO005")%string) found
     = existsb aptLeftUncleaned instructions
  /\ existsb (fun issue => (ID issue =? "DIO006")%string) found
     = negb (existsb namesNonRoot instructions)
  /\ existsb (fun issue => (ID issue =? "DIO011")%string) found
     = negb (existsb isWorkdir instructions).
Proof.
  cbv zeta. set (ctx := fileContext "<stdin>" content false).
  rewrite !raised_by_rule by discriminate.
  cbn [ruleIndex find catalogue KindID String.eqb Ascii.eqb Bool.eqb Rank
       pred nth_error DefaultRules Check].
  fold ctx. split; [|split; [|split]].
  - pose proof (LatestTagCheck_kinds ctx (List.length (Split content LF))
                  (Instructions_wellFormed _)) as Hk.
    destruct (LatestTagCheck ctx) as [|issue rest]; [reflexivity|].
    inversion Hk as [|? ? (k & [<-|[]] & (E & _)) _]; subst.
    cbn [existsb isNil negb KindID] in *. rewrite E. reflexivity.
  - unfold CacheNotCleanedCheck. rewrite existsb_flat_map.
    apply existsb_ext_in. intros inst _. unfold aptLeftUncleaned. cbv zeta.
    destruct (Command inst =? "RUN")%string; cbn [negb andb]; [|reflexivity].
    rewrite existsb_app.
    destruct (anyContains (Args inst) ["apt-get install"; "apt-get update"]);
      destruct (anyContains (Args inst)
                  ["rm -rf /var/lib/apt/lists"; "apt-get clean";
                   "apt-get autoremove"]);
      destruct (Contains (Args inst) "pip install" &&
                negb (Contains (Args inst) "--no-cache-dir"))%bool;
      reflexivity.
  - unfold RootUserCheck. cbv zeta.
    change (fun inst : Instruction =>
              ((Command inst =? "USER")%string
               && (negb (TrimSpace (Args inst) =? "root")%string
                   && negb (TrimSpace (Args inst) =? "0")%string))%bool)
      with namesNonRoot.
    destruct (existsb namesNonRoot (Instructions (ParsedFile ctx)));
      reflexivity.
  - unfold WorkdirCheck. cbv zeta.
    change (fun inst : Instruction => (Command inst =? "WORKDIR")%string)
      with isWorkdir.
    destruct (existsb isWorkdir (Instructions (ParsedFile ctx))); reflexivity.
Qed.

(** ** The number of issues and the score *)

Lemma flat_map_length_le {A B : Type} (f : A -> list B) (k : nat)
    (l : list A) :
  (forall x, (List.length (f x) <= k)%nat) ->
  (List.length (flat_map f l) <= k * List.length l)%nat.
Proof.
  intros H. induction l as [|x l IH]; cbn [flat_map List.length]; [lia|].
  rewrite length_app. specialize (H x). lia.
Qed.

Lemma CombineRunCheck_length (l : list Instruction) :
  (List.length (CombineRunCheck l) <= List.length l)%nat.
Proof.
  unfold CombineRunCheck.
  induction l as [|inst l IH] using rev_ind; [cbn; lia|].
  rewrite fold_left_app, length_app. cbn [fold_left List.length].
  unfold combineRunStep at 1.
  destruct (Command inst =? "RUN")%string; cbv zeta;
    [destruct (3 <=? _)|]; cbn [issues]; rewrite ?length_app;
    cbn [List.length]; lia.
Qed.

Lemma BaseImages_length (lines : list string) :
  (List.length (BaseImages (parseDockerfile lines))
   <= List.length (Instructions (parseDockerfile lines)))%nat.
Proof.
  destruct (parseDockerfile_Inv lines) as [Hi _ Hb _ _ Hlen _ _].
  unfold parseDockerfile. cbn [BaseImages Instructions].
  rewrite Hb, length_map, Hlen, Hi. apply filter_length_le.
Qed.

Lemma builtinIssues_length (path content : string) (missing : bool) :
  (List.length (builtinIssues path content missing)
   <= 7 * List.length (Split content LF) + 6)%nat.
Proof.
  unfold builtinIssues. set (ctx := fileContext path content missing).
  set (count := List.length (Split content LF)).
  pose proof (proj2 (readInstructions_wellFormed (Split content LF) 0)) as Hn.
  rewrite <- parseDockerfile_instructions in Hn.
  change (parseDockerfile (Split content LF)) with (ParsedFile ctx) in Hn.
  fold count in Hn.
  pose proof (BaseImages_length (Split content LF)) as Hb.
  change (parseDockerfile (Split content LF)) with (ParsedFile ctx) in Hb.
  assert (Hwf : Forall (wellFormed count) (Instructions (ParsedFile ctx)))
    by apply Instructions_wellFormed.
  pose proof (proj2 (MissingDockerignoreCheck_kinds ctx count)) as L2.
  pose proof (proj2 (TooManyLayersCheck_kinds ctx count)) as L3.
  pose proof (proj2 (RootUserCheck_kinds ctx count)) as L6.
  pose proof (proj2 (NoMultiStageCheck_kinds ctx count)) as L8.
  pose proof (proj2 (WorkdirCheck_kinds ctx count)) as L11.
  pose proof (proj2 (HealthcheckCheck_kinds ctx count)) as L12.
  assert (L1 : (List.length (LatestTagCheck ctx)
                <= 1 * List.length (BaseImages (ParsedFile ctx)))%nat).
  { unfold LatestTagCheck. apply flat_map_length_le. intros img.
    destruct (_ || _)%bool; [|cbn; lia].
    destruct (img =? "scratch")%string; [cbn; lia|].
    destruct (find _ _); cbn; lia. }
  assert (L4 : (List.length (AptGetCheck ctx)
                <= 1 * List.length (Instructions (ParsedFile ctx)))%nat).
  { unfold AptGetCheck. apply flat_map_length_le. intros inst.
    destruct (negb _); [cbn; lia|]. destruct (_ && _)%bool; cbn; lia. }
  assert (L5 : (List.length (CacheNotCleanedCheck ctx)
                <= 2 * List.length (Instructions (ParsedFile ctx)))%nat).
  { unfold CacheNotCleanedCheck. apply flat_map_length_le. intros inst.
    destruct (negb _); [cbn; lia|]. cbv zeta. rewrite length_app.
    destruct (_ && _)%bool; destruct (_ && _)%bool; cbn; lia. }
  assert (L7 : (List.length (CopyAllCheck ctx)
                <= 1 * List.length (Instructions (ParsedFile ctx)))%nat).
  { unfold CopyAllCheck. apply flat_map_length_le. intros inst.
    destruct (_ && _)%bool; cbn; lia. }
  assert (L9 : (List.length (PinVersionCheck ctx)
                <= 1 * List.length (Instructions (ParsedFile ctx)))%nat).
  { unfold PinVersionCheck. apply flat_map_length_le. intros inst.
    destruct (_ && _)%bool; [|cbn; lia]. destruct (negb _); cbn; lia. }
  pose proof (CombineRunCheck_length (Instructions (ParsedFile ctx))) as L10.
  cbn [flat_map DefaultRules Check CombineRunRule].
  rewrite !length_app. cbn [List.length].
  destruct (MissingDockerignore ctx); lia.
Qed.

Lemma catalogue_weight (count : nat) (issue : Issue) :
  ofKinds count catalogue issue -> 2 <= weight (IssueSeverity issue) <= 15.
Proof.
  intros (k & Hk & (_ & Hs & _)). rewrite Hs.
  repeat (destruct Hk as [<-|Hk]; [vm_compute; split; discriminate|]).
  contradiction.
Qed.

(** X6. The score of [AnalyzeContent]. For every text whose lines fit in a
    slice (a string header takes 16 bytes), the number of issues is at most
    seven times the number of lines plus six, so the score cannot wrap
    around: it is 100 minus the sum of the weights of the issues, clamped to
    [0, 100]. Every issue of the registry weighs between 2 and 15 (no rule
    raises a critical issue), so the score is 100 exactly when there is no
    issue. *)
Theorem AnalyzeContent_score (hadolintAvailable : bool) (content : string) :
  16 * Z.of_nat (List.length (Split content LF)) <= maxSliceLen ->
  let r := AnalyzeContent (New hadolintAvailable) content in
  Score r = clamp 0 100 (100 - totalWeight (Issues r))
  /\ 0 <= Score r <= 100
  /\ (List.length (Issues r) <= 7 * List.length (Split content LF) + 6)%nat
  /\ Forall (fun issue => 2 <= weight (IssueSeverity issue) <= 15) (Issues r)
  /\ (Score r = 100 <-> Issues r = []).
Proof.
  intros Hlen. cbv zeta. unfold maxSliceLen in Hlen.
  change (Issues (AnalyzeContent (New hadolintAvailable) content))
    with (builtinIssues "<stdin>" content false).
  change (Score (AnalyzeContent (New hadolintAvailable) content))
    with (calculateScore (builtinIssues "<stdin>" content false)).
  pose proof (builtinIssues_length "<stdin>" content false) as Hn.
  set (found := builtinIssues "<stdin>" content false) in *.
  assert (Hw : Forall (fun issue => 2 <= weight (IssueSeverity issue) <= 15)
                      found).
  { assert (Hk : Forall (ofKinds (List.length (Split content LF)) catalogue)
                        found).
    { subst found. unfold builtinIssues. apply Forall_flat_map_in.
      intros rule Hin. apply In_nth_error in Hin. destruct Hin as [n Hnth].
      eapply Forall_impl;
        [|exact (DefaultRules_kinds (fileContext "<stdin>" content false) _
                   (Instructions_wellFormed (Split content LF)) n rule Hnth)].
      intros issue H. exact (proj1 (ofKinds_rank _ _ _ H)). }
    eapply Forall_impl; [|exact Hk]. intros issue. apply catalogue_weight. }
  rewrite calculateScore_clamp by (unfold maxSliceLen; lia).
  pose proof (totalWeight_nonneg found) as Hnn.
  split; [reflexivity|]. split; [unfold clamp; lia|].
  split; [exact Hn|]. split; [exact Hw|].
  destruct found as [|issue rest]; [split; reflexivity|].
  split; [|discriminate]. intros H. exfalso.
  inversion Hw as [|? ? Hi _]; subst.
  pose proof (totalWeight_nonneg rest).
  cbn [totalWeight fold_right] in H. fold (totalWeight rest) in H.
  unfold clamp in H. lia.
Qed.

Lemma AnalyzeContent_score_witness :
  Score (AnalyzeContent (New false) unpinnedText) = 28
  /\ 0 <= Score (AnalyzeContent (New false) unpinnedText) <= 100.
Proof.
  assert (H : 16 * Z.of_nat (List.length (Split unpinnedText LF))
              <= maxSliceLen) by (vm_compute; discriminate).
  destruct (AnalyzeContent_score false unpinnedText H) as (E & Hr & _).
  split; [|exact Hr]. rewrite E. vm_compute. reflexivity.
Defined.

End RulesSpec.

(* ================================================================== *)
(** * Properties of [Analyze] and of the merge *)
(* ================================================================== *)

Module AnalyzeSpec.
Import GoStrings GoInt models analyzer AnalyzerTerms OptimizerTerms ParserTerms.
Import RulesTerms hadolint HadolintTerms AnalyzeTerms.
Import AnalyzerSpec ParserSpec RulesSpec HadolintSpec.

Lemma existsb_none {A : Type} (f : A -> bool) (l : list A) :
  (forall x, In x l -> f x = false) -> existsb f l = false.
Proof.
  intros H. rewrite (existsb_ext_in f (fun _ => false) l H). clear H.
  induction l as [|x l IH]; [reflexivity|exact IH].
Qed.

(** What an issue of the catalogue covers. *)
Lemma coversLine_catalogue (count : nat) (d : Issue) (line : Z) :
  ofKinds count catalogue d ->
  coversLine line "base-image" d
  = ((ID d =? "DIO001")%string && (IssueLine d =? line))%bool
  /\ coversLine line "version-pinning" d = false
  /\ coversLine line "cleanup" d = false
  /\ coversLine line "apt-get" d = false
  /\ coversLine line "best-practice" d = false.
Proof.
  intros (k & Hk & (Hid & _ & Hcat & _ & Hline)).
  unfold coversLine. rewrite Hid, Hcat.
  repeat (destruct Hk as [<-|Hk];
    [ cbn [KindID KindCategory Positioned] in *;
      cbn [String.eqb Ascii.eqb Bool.eqb andb];
      rewrite ?andb_false_r, ?andb_true_r;
      repeat split; try reflexivity;
      try (rewrite Hline; reflexivity);
      try (destruct (Z.ltb_spec 0 (IssueLine d)); [reflexivity|lia])
    | ]).
  contradiction.
Qed.

Lemma suppressed_builtin (count : nat) (found : list Issue) (h : Issue) :
  Forall (ofKinds count catalogue) found ->
  suppressed found h = overlapsBuiltin found h.
Proof.
  intros Hall. rewrite Forall_forall in Hall.
  unfold suppressed, overlapsBuiltin, hadolintToDIOCategory.
  set (code := TrimPrefix (ID h) "HL-").
  rewrite (String.eqb_sym code "DL3007").
  cbn [mapGet].
  destruct ("DL3007" =? code)%string.
  { cbn [andb]. apply existsb_ext_in. intros d Hd.
    exact (proj1 (coversLine_catalogue count d _ (Hall d Hd))). }
  cbn [andb].
  destruct ("DL3008" =? code)%string.
  { apply existsb_none. intros d Hd.
    apply (coversLine_catalogue count d _ (Hall d Hd)). }
  destruct ("DL3009" =? code)%string.
  { apply existsb_none. intros d Hd.
    apply (coversLine_catalogue count d _ (Hall d Hd)). }
  destruct ("DL3015" =? code)%string.
  { apply existsb_none. intros d Hd.
    apply (coversLine_catalogue count d _ (Hall d Hd)). }
  destruct ("DL3025" =? code)%string.
  { apply existsb_none. intros d Hd.
    apply (coversLine_catalogue count d _ (Hall d Hd)). }
  destruct ("DL3020" =? code)%string; [|reflexivity].
  apply existsb_none. intros d Hd.
  apply (coversLine_catalogue count d _ (Hall d Hd)).
Qed.

Lemma builtinIssues_ofKinds (path content : string) (missing : bool) :
  Forall (ofKinds (List.length (Split content LF)) catalogue)
         (builtinIssues path content missing).
Proof.
  unfold builtinIssues. apply Forall_flat_map_in. intros rule Hin.
  apply In_nth_error in Hin. destruct Hin as [n Hn].
  eapply Forall_impl;
    [|exact (DefaultRules_kinds (fileContext path content missing) _
               (Instructions_wellFormed (Split content LF)) n rule Hn)].
  intros issue H. exact (proj1 (ofKinds_rank _ _ _ H)).
Qed.

Lemma merge_builtin (path content : string) (missing : bool)
    (hadolintFound : list Issue) :
  mergeHadolintIssues (builtinIssues path content missing) hadolintFound
  = builtinIssues path content missing
    ++ filter (fun h => negb (overlapsBuiltin
                                (builtinIssues path content missing) h))
              hadolintFound.
Proof.
  rewrite merge_filter. f_equal. apply filter_ext. intros h.
  rewrite (suppressed_builtin _ _ h (builtinIssues_ofKinds path content missing)).
  reflexivity.
Qed.

(** X10. The merge, on the findings of the registry. Of the six entries of
    the table of overlaps, one can take effect: a hadolint issue is left out
    exactly when its code is DL3007 and a DIO001 issue stands on its line.
    The categories that the table gives for DL3008, DL3009 and DL3015
    (version-pinning, cleanup, apt-get) are the category of no rule, and the
    issues of the category of DL3025 and DL3020 (best-practice) carry line 0;
    so a hadolint issue with another code is always kept. *)
Theorem mergeHadolintIssues_builtin (path content : string) (missing : bool)
    (hadolintFound : list Issue) :
  let found := builtinIssues path content missing in
  let merged := mergeHadolintIssues found hadolintFound in
  merged = found ++ filter (fun h => negb (overlapsBuiltin found h)) hadolintFound
  /\ (forall h, In h hadolintFound ->
        TrimPrefix (ID h) "HL-" <> "DL3007" -> In h merged).
Proof.
  cbv zeta. rewrite merge_builtin. split; [reflexivity|].
  intros h Hin Hcode. apply in_or_app. right. apply filter_In.
  split; [exact Hin|]. unfold overlapsBuiltin.
  destruct (String.eqb_spec (TrimPrefix (ID h) "HL-") "DL3007") as [E|_];
    [contradiction|reflexivity].
Qed.

(** ** [Analyze] *)

Lemma RunHadolint_total (run : HadolintRun) :
  exists found err,
    RunHadolint run = Some (found, err)
    /\ Forall (fun issue => Category issue = "hadolint") found.
Proof.
  destruct run as [e| |e|results]; simpl;
    try (eexists; eexists; split; [reflexivity|constructor]).
  destruct (hadolintIssues_total results) as (found & E & H).
  rewrite E. exists found, None. split; [reflexivity|].
  clear E. induction H as [|r issue rs found Hc _ IH]; constructor;
    [|exact IH].
  destruct Hc as (_ & _ & _ & Hcat & _). exact Hcat.
Qed.

Lemma builtinIssues_missing (path content : string) :
  exists pre post,
    builtinIssues path content false = pre ++ post
    /\ builtinIssues path content true = pre ++ missingDockerignoreIssue :: post
    /\ Forall (fun issue => ID issue = "DIO001") pre.
Proof.
  exists (LatestTagCheck (fileContext path content false)).
  eexists. split; [reflexivity|]. split; [reflexivity|].
  pose proof (LatestTagCheck_kinds (fileContext path content false)
                (List.length (Split content LF))
                (Instructions_wellFormed _)) as H.
  eapply Forall_impl; [|exact H].
  intros issue (k & [<-|[]] & (E & _)). exact E.
Qed.

(** X11. [Analyze] on a file that can be read never panics and returns no
    error. Its issues are the findings of the registry on the content of the
    file, followed, when hadolint is in use and ran, by the hadolint issues
    that the merge keeps; its score is the score of these issues. A missing
    [.dockerignore] adds the DIO002 issue to the findings of the registry,
    after the DIO001 issues, and nothing else. Without hadolint and with a
    [.dockerignore], the issues and the score are those of [AnalyzeContent]
    on the content. *)
Theorem Analyze_spec (a : Analyzer) (path content : string) (missing : bool)
    (run : HadolintRun) :
  rules a = DefaultRules ->
  let found := builtinIssues path content missing in
  exists r extra,
    Analyze a path (inl content) missing run = Some (inl r)
    /\ Dockerfile r = path
    /\ Issues r = found ++ extra
    /\ Score r = calculateScore (Issues r)
    /\ Forall (fun issue => Category issue = "hadolint") extra
    /\ (useHadolint a = false -> extra = [])
    /\ (useHadolint a = false -> missing = false ->
        Issues r = Issues (AnalyzeContent a content)
        /\ Score r = Score (AnalyzeContent a content))
    /\ (exists pre post,
          builtinIssues path content false = pre ++ post
          /\ builtinIssues path content true
             = pre ++ missingDockerignoreIssue :: post
          /\ Forall (fun issue => ID issue = "DIO001") pre).
Proof.
  intros Hrules. cbv zeta. unfold Analyze. cbv zeta. rewrite Hrules.
  fold (fileContext path content missing).
  fold (builtinIssues path content missing).
  assert (Hcontent : useHadolint a = false -> missing = false ->
            Issues (AnalyzeContent a content) = builtinIssues path content missing).
  { intros _ ->. unfold AnalyzeContent. cbv zeta. rewrite Hrules. reflexivity. }
  assert (Hscore : forall l, Issues (AnalyzeContent a content) = l ->
                             Score (AnalyzeContent a content) = calculateScore l).
  { intros l <-. reflexivity. }
  destruct (useHadolint a) eqn:Eh.
  - destruct (RunHadolint_total run) as (hl & err & E & Hcat). rewrite E.
    destruct err as [msg|].
    + exists {| Dockerfile := path;
                Issues := builtinIssues path content missing;
                Score := calculateScore (builtinIssues path content missing) |},
             [].
      cbn [Dockerfile Issues Score]. rewrite app_nil_r.
      split; [reflexivity|]. split; [reflexivity|]. split; [reflexivity|].
      split; [reflexivity|]. split; [constructor|].
      split; [reflexivity|]. split; [discriminate|].
      apply builtinIssues_missing.
    + rewrite merge_builtin.
      eexists. eexists. split; [reflexivity|].
      cbn [Dockerfile Issues Score].
      split; [reflexivity|]. split; [reflexivity|]. split; [reflexivity|].
      split; [|split; [discriminate|split; [discriminate|]]].
      * apply Forall_forall. intros x Hx. apply filter_In in Hx.
        rewrite Forall_forall in Hcat. apply Hcat. exact (proj1 Hx).
      * apply builtinIssues_missing.
  - exists {| Dockerfile := path;
              Issues := builtinIssues path content missing;
              Score := calculateScore (builtinIssues path content missing) |},
           [].
    cbn [Dockerfile Issues Score]. rewrite app_nil_r.
    split; [reflexivity|]. split; [reflexivity|]. split; [reflexivity|].
    split; [reflexivity|]. split; [constructor|].
    split; [reflexivity|]. split; [|apply builtinIssues_missing].
    intros _ Hm. rewrite (Hscore _ (Hcontent eq_refl Hm)).
    rewrite (Hcontent eq_refl Hm). split; reflexivity.
Qed.

Lemma Analyze_spec_witness :
  exists r extra,
    Analyze (NewWithOptions true true) "Dockerfile" (inl unpinnedText) true
            (Results hadolintSample) = Some (inl r)
    /\ Dockerfile r = "Dockerfile"
    /\ Issues r = builtinIssues "Dockerfile" unpinnedText true ++ extra
    /\ Score r = calculateScore (Issues r).
Proof.
  destruct (Analyze_spec (NewWithOptions true true) "Dockerfile" unpinnedText
              true (Results hadolintSample) eq_refl)
    as (r & extra & E & Hd & Hi & Hs & _).
  exists r, extra. split; [exact E|]. split; [exact Hd|].
  split; [exact Hi|exact Hs].
Defined.

(** The findings that the policy reads, in the issues of [Analyze]. *)
Lemma builtin_raises_file (path content : string) (missing : bool) :
  let ctx := fileContext path content missing in
  let found := builtinIssues path content missing in
  existsb (fun issue => (ID issue =? "DIO001")%string) found
  = negb (isNil (LatestTagCheck ctx))
  /\ existsb (fun issue => (ID issue =? "DIO006")%string) found
     = negb (existsb namesNonRoot (Instructions (ParsedFile ctx))).
Proof.
  cbv zeta.
  destruct (builtin_raises content) as (H1 & _ & H6 & _).
  cbv zeta in H1, H6.
  change (LatestTagCheck (fileContext path content missing))
    with (LatestTagCheck (fileContext "<stdin>" content false)).
  change (ParsedFile (fileContext path content missing))
    with (ParsedFile (fileContext "<stdin>" content false)).
  rewrite <- H1, <- H6.
  destruct (builtinIssues_missing path content) as (pre & post & Ef & Et & _).
  assert (Es : builtinIssues "<stdin>" content false
               = builtinIssues path content false) by reflexivity.
  rewrite Es, Ef.
  destruct missing; [rewrite Et|rewrite Ef]; rewrite !existsb_app;
    cbn [existsb]; split; reflexivity.
Qed.

Lemma hadolint_ids (results : list hadolintResult) (found : list Issue)
    (id : string) :
  Forall2 convertedFrom results found ->
  String.prefix "HL-" id = false ->
  existsb (fun issue => (ID issue =? id)%string) found = false.
Proof.
  intros H Hid. induction H as [|r issue rs found Hc _ IH]; [reflexivity|].
  cbn [existsb]. rewrite IH, orb_false_r.
  destruct Hc as (E & _). rewrite E.
  destruct (String.eqb_spec ("HL-" +++ Code r) id) as [<-|]; [|reflexivity].
  destruct (Code r); vm_compute in Hid; discriminate Hid.
Qed.

Lemma Analyze_issues (h : bool) (path content : string) (missing : bool)
    (run : HadolintRun) :
  exists r extra,
    Analyze (New h) path (inl content) missing run = Some (inl r)
    /\ Issues r = builtinIssues path content missing ++ extra
    /\ Score r = calculateScore (Issues r)
    /\ (forall id, String.prefix "HL-" id = false ->
         existsb (fun issue => (ID issue =? id)%string) extra = false).
Proof.
  unfold Analyze. cbv zeta. cbn [rules useHadolint New].
  fold (fileContext path content missing).
  fold (builtinIssues path content missing).
  destruct h.
  - destruct run as [e| |e|results]; cbn [RunHadolint];
      try (eexists; exists []; rewrite app_nil_r;
           split; [reflexivity|]; split; [reflexivity|];
           split; [reflexivity|]; intros; reflexivity).
    destruct (hadolintIssues_total results) as (found & E & H).
    rewrite E, merge_filter.
    eexists. eexists. split; [reflexivity|]. cbn [Issues Score].
    split; [reflexivity|]. split; [reflexivity|].
    intros id Hid. pose proof (hadolint_ids results found id H Hid) as Hn.
    clear - Hn. induction found as [|x found IH]; [reflexivity|].
    cbn [existsb] in Hn. apply orb_false_iff in Hn. destruct Hn as [Hx Hr].
    cbn [filter]. destruct (negb _); cbn [existsb]; rewrite ?Hx, (IH Hr);
      reflexivity.
  - eexists. exists []. rewrite app_nil_r.
    split; [reflexivity|]. split; [reflexivity|]. split; [reflexivity|].
    intros; reflexivity.
Qed.

End AnalyzeSpec.

(* ================================================================== *)
(** * Properties of the strategies *)
(* ================================================================== *)

Module StrategySpec.
Import GoStrings GoInt models optimizer OptimizerTerms StrategyTerms.
Import OptimizerSpec.

(** ** Lines of a text *)

Lemma Split_not_nil (s : string) : Split s LF <> [].
Proof.
  destruct s as [|c s]; simpl; [discriminate|].
  destruct (Ascii.eqb c LF); [discriminate|].
  destruct (Split s LF); discriminate.
Qed.

Lemma Join_cons (x : string) (rest : list string) :
  rest <> [] -> Join (x :: rest) nl = x +++ String LF (Join rest nl).
Proof. destruct rest; [contradiction|reflexivity]. Qed.

Lemma Join_Split (s : string) : Join (Split s LF) nl = s.
Proof.
  induction s as [|c s IH]; [reflexivity|].
  cbn [Split]. destruct (Ascii.eqb_spec c LF) as [->|N].
  - rewrite Join_cons by apply Split_not_nil. rewrite IH. reflexivity.
  - pose proof (Split_not_nil s) as Hne.
    destruct (Split s LF) as [|h t]; [contradiction|].
    destruct t as [|h' t'].
    + simpl in *. rewrite IH. reflexivity.
    + change (Join (String c h :: h' :: t') nl)
        with (String c (Join (h :: h' :: t') nl)).
      rewrite IH. reflexivity.
Qed.

(** ** The WORKDIR strategy *)

Lemma workdirStep_inserted (lines : list string) :
  forall acc,
    fold_left workdirStep lines (acc, true) = (acc ++ lines, true).
Proof.
  induction lines as [|line rest IH]; intros acc; simpl.
  - rewrite app_nil_r. reflexivity.
  - rewrite IH, <- app_assoc. reflexivity.
Qed.

Lemma workdirStep_fold (lines : list string) :
  forall acc,
    fst (fold_left workdirStep lines (acc, false)) = acc ++ withWorkdir lines.
Proof.
  induction lines as [|line rest IH]; intros acc; simpl.
  - rewrite app_nil_r. reflexivity.
  - unfold isFromLine. destruct (startsWith line "FROM"); simpl.
    + rewrite workdirStep_inserted, <- app_assoc. reflexivity.
    + rewrite IH, <- app_assoc. reflexivity.
Qed.

Lemma withWorkdir_none (lines : list string) :
  existsb isFromLine lines = false -> withWorkdir lines = lines.
Proof.
  induction lines as [|line rest IH]; [reflexivity|].
  simpl. intros H. apply orb_false_iff in H. destruct H as [H1 H2].
  rewrite H1, (IH H2). reflexivity.
Qed.

Lemma withWorkdir_first (before after : list string) (from : string) :
  existsb isFromLine before = false -> isFromLine from = true ->
  withWorkdir (before ++ from :: after)
  = before ++ from :: "WORKDIR /app" :: after.
Proof.
  intros Hb Hf. induction before as [|line rest IH]; simpl.
  - rewrite Hf. reflexivity.
  - simpl in Hb. apply orb_false_iff in Hb. destruct Hb as [H1 H2].
    rewrite H1, (IH H2). reflexivity.
Qed.

Lemma withWorkdir_oneLine (lines : list string) :
  Forall (fun line => oneLine line = true) lines ->
  Forall (fun line => oneLine line = true) (withWorkdir lines).
Proof.
  induction 1 as [|line rest Hl Hr IH]; simpl; [constructor|].
  destruct (isFromLine line); repeat constructor; assumption.
Qed.

Lemma withWorkdir_not_nil (lines : list string) :
  lines <> [] -> withWorkdir lines <> [].
Proof.
  destruct lines as [|line rest]; [contradiction|]. intros _. simpl.
  destruct (isFromLine line); discriminate.
Qed.

Lemma withWorkdir_has_WORKDIR (lines : list string) :
  existsb isFromLine lines = true ->
  existsb isWorkdirLine (withWorkdir lines) = true.
Proof.
  induction lines as [|line rest IH]; [discriminate|].
  simpl. destruct (isFromLine line) eqn:E; simpl.
  - intros _. rewrite orb_true_r. reflexivity.
  - intros H. rewrite (IH H). apply orb_true_r.
Qed.

Lemma WorkdirApply_lines (c : OptimizationContext) :
  existsb isWorkdirLine (Split (CurrentContent c) LF) = false ->
  Apply WorkdirStrategy c
  = (Join (withWorkdir (Split (CurrentContent c) LF)) nl, None)
  /\ Split (fst (Apply WorkdirStrategy c)) LF
     = withWorkdir (Split (CurrentContent c) LF).
Proof.
  intros H. cbn [Apply WorkdirStrategy]. unfold WorkdirApply. cbv zeta.
  fold isWorkdirLine. rewrite H, workdirStep_fold. cbn [app fst].
  split; [reflexivity|].
  apply Split_Join; [apply withWorkdir_not_nil, Split_not_nil|].
  apply withWorkdir_oneLine, Split_oneLine.
Qed.

(** X18. [Apply] of the WORKDIR strategy, on a text of ASCII bytes, never
    fails. A text with a line that starts with WORKDIR (in either case,
    after trimming) is returned as it is, and so is a text with no [FROM]
    line. Otherwise the line WORKDIR /app is inserted after the first [FROM]
    line, and only there: every other line is kept, also the later [FROM]
    lines of a multi-stage text, which get no WORKDIR. Applying the strategy
    to its own result changes nothing. *)
Theorem WorkdirApply_spec (c : OptimizationContext) :
  isASCII (CurrentContent c) = true ->
  let content := CurrentContent c in
  let lines := Split content LF in
  snd (Apply WorkdirStrategy c) = None
  /\ (existsb isWorkdirLine lines = true ->
      fst (Apply WorkdirStrategy c) = content)
  /\ (existsb isFromLine lines = false ->
      fst (Apply WorkdirStrategy c) = content)
  /\ (existsb isWorkdirLine lines = false ->
      forall before from after,
        lines = before ++ from :: after ->
        existsb isFromLine before = false -> isFromLine from = true ->
        Split (fst (Apply WorkdirStrategy c)) LF
        = before ++ from :: "WORKDIR /app" :: after)
  /\ Apply WorkdirStrategy (workingOn c (fst (Apply WorkdirStrategy c)))
     = (fst (Apply WorkdirStrategy c), None).
Proof.
  intros _. cbv zeta.
  assert (Hkeep : existsb isWorkdirLine (Split (CurrentContent c) LF) = true ->
                  Apply WorkdirStrategy c = (CurrentContent c, None)).
  { intros H. cbn [Apply WorkdirStrategy]. unfold WorkdirApply. cbv zeta.
    fold isWorkdirLine. rewrite H. reflexivity. }
  assert (Hnone : existsb isFromLine (Split (CurrentContent c) LF) = false ->
                  fst (Apply WorkdirStrategy c) = CurrentContent c).
  { intros H.
    destruct (existsb isWorkdirLine (Split (CurrentContent c) LF)) eqn:W.
    - rewrite (Hkeep eq_refl). reflexivity.
    - rewrite (proj1 (WorkdirApply_lines c W)). cbn [fst].
      rewrite (withWorkdir_none _ H). apply Join_Split. }
  split; [|split; [|split; [|split]]].
  - cbn [Apply WorkdirStrategy]. unfold WorkdirApply. cbv zeta.
    destruct (existsb _ _); reflexivity.
  - intros H. rewrite (Hkeep H). reflexivity.
  - exact Hnone.
  - intros W before from after Hl Hb Hf.
    rewrite (proj2 (WorkdirApply_lines c W)), Hl.
    apply withWorkdir_first; assumption.
  - set (c' := workingOn c (fst (Apply WorkdirStrategy c))).
    assert (Hc' : CurrentContent c' = fst (Apply WorkdirStrategy c))
      by reflexivity.
    destruct (existsb isWorkdirLine (Split (CurrentContent c) LF)) eqn:W.
    + assert (Hk' : existsb isWorkdirLine (Split (CurrentContent c') LF) = true).
      { rewrite Hc', (Hkeep eq_refl). cbn [fst]. exact W. }
      cbn [Apply WorkdirStrategy] in *. unfold WorkdirApply in *. cbv zeta.
      fold isWorkdirLine. rewrite Hk'. rewrite Hc'. reflexivity.
    + destruct (existsb isFromLine (Split (CurrentContent c) LF)) eqn:F.
      * assert (Hk' : existsb isWorkdirLine (Split (CurrentContent c') LF)
                      = true).
        { rewrite Hc', (proj2 (WorkdirApply_lines c W)).
          apply withWorkdir_has_WORKDIR. exact F. }
        cbn [Apply WorkdirStrategy] in *. unfold WorkdirApply in *. cbv zeta.
        fold isWorkdirLine. rewrite Hk'. rewrite Hc'. reflexivity.
      * assert (Hsame : fst (Apply WorkdirStrategy c) = CurrentContent c)
          by exact (Hnone eq_refl).
        assert (W' : existsb isWorkdirLine (Split (CurrentContent c') LF)
                     = false) by (rewrite Hc', Hsame; exact W).
        rewrite (proj1 (WorkdirApply_lines c' W')).
        rewrite Hc', Hsame, (withWorkdir_none _ F), Join_Split. reflexivity.
Qed.

Lemma WorkdirApply_spec_witness :
  snd (Apply WorkdirStrategy (contextAt goBuildText)) = None
  /\ Split (fst (Apply WorkdirStrategy (contextAt goBuildText))) LF
     = ["FROM golang:1.21"; "WORKDIR /app"; "COPY . .";
        "RUN go build -o /app ."].
Proof.
  assert (Ha : isASCII (CurrentContent (contextAt goBuildText)) = true)
    by (vm_compute; reflexivity).
  assert (W : existsb isWorkdirLine
                (Split (CurrentContent (contextAt goBuildText)) LF) = false)
    by (vm_compute; reflexivity).
  pose proof (WorkdirApply_spec (contextAt goBuildText) Ha) as H.
  cbv zeta in H. destruct H as (H1 & _ & _ & H4 & _).
  split; [exact H1|].
  apply (H4 W [] "FROM golang:1.21" ["COPY . ."; "RUN go build -o /app ."]);
    vm_compute; reflexivity.
Defined.

(** ** The non-root-user strategy *)













(** ** The multi-stage strategy *)

Lemma detectLanguage_values (lines : list string) :
  In (detectLanguage lines) languages.
Proof.
  induction lines as [|line rest IH]; [left; reflexivity|].
  cbn [detectLanguage]. unfold detectLine. cbv zeta.
  repeat match goal with
         | |- context [if ?b then _ else _] =>
             destruct b; [cbn; tauto|]
         end.
  exact IH.
Qed.

Lemma template_fold (lines : list string) :
  template lines = fold_right (fun l acc => l +++ String LF acc) EmptyString lines.
Proof.
  unfold template.
  assert (Happ : forall a b c : string, (a +++ b) +++ c = a +++ b +++ c).
  { intros a b c. induction a as [|x a IH]; [reflexivity|].
    simpl. rewrite IH. reflexivity. }
  induction lines as [|l rest IH]; [reflexivity|].
  cbn [map fold_right]. destruct rest as [|l' rest'].
  - reflexivity.
  - change (String.concat EmptyString ((l +++ nl) :: map (fun l0 => l0 +++ nl) (l' :: rest')))
      with ((l +++ nl) +++ String.concat EmptyString (map (fun l0 => l0 +++ nl) (l' :: rest'))).
    rewrite IH, Happ. reflexivity.
Qed.

Lemma Split_template (lines : list string) :
  Forall (fun line => oneLine line = true) lines ->
  Split (template lines) LF = lines ++ [EmptyString].
Proof.
  rewrite template_fold.
  induction 1 as [|l rest Hl _ IH]; [reflexivity|].
  cbn [fold_right app]. rewrite Split_append by exact Hl. rewrite IH.
  reflexivity.
Qed.

Lemma TrimRight_cons (c : ascii) (s : string) :
  isSpace c = false -> TrimRight (String c s) = String c (TrimRight s).
Proof. intros H. cbn [TrimRight]. rewrite H, andb_false_r. reflexivity. Qed.

Lemma isFromLine_FROM (rest : string) :
  isFromLine (String "F" (String "R" (String "O" (String "M" rest)))) = true.
Proof.
  unfold isFromLine, startsWith, TrimSpace.
  change (TrimLeft (String "F" (String "R" (String "O" (String "M" rest)))))
    with (String "F" (String "R" (String "O" (String "M" rest)))).
  rewrite !TrimRight_cons by reflexivity.
  unfold ToUpper. cbn [mapBytes].
  destruct (mapBytes upperByte (TrimRight rest)); vm_compute; reflexivity.
Qed.

Lemma allBytes_substring (p : ascii -> bool) (s : string) :
  forall n m, allBytes p s = true -> allBytes p (String.substring n m s) = true.
Proof.
  induction s as [|c s IH]; intros n m H.
  - destruct n, m; reflexivity.
  - cbn [allBytes] in H. apply andb_true_iff in H. destruct H as [Hc Hs].
    destruct n as [|n]; cbn [String.substring].
    + destruct m as [|m]; [reflexivity|].
      cbn [allBytes]. rewrite Hc, (IH 0%nat m Hs). reflexivity.
    + exact (IH n m Hs).
Qed.

Lemma allBytes_Split (p : ascii -> bool) (sep : ascii) (s : string) :
  allBytes p s = true ->
  Forall (fun piece => allBytes p piece = true) (Split s sep).
Proof.
  induction s as [|c s IH]; intros H.
  - repeat constructor.
  - cbn [allBytes] in H. apply andb_true_iff in H. destruct H as [Hc Hs].
    specialize (IH Hs). cbn [Split].
    destruct (Ascii.eqb c sep); [constructor; [reflexivity|exact IH]|].
    destruct (Split s sep) as [|h t].
    + repeat constructor. cbn [allBytes]. rewrite Hc. reflexivity.
    + inversion IH as [|? ? Hh Ht]; subst.
      constructor; [|exact Ht]. cbn [allBytes]. rewrite Hc, Hh. reflexivity.
Qed.

Lemma versionStep_notSpace (image version line : string) :
  allBytes notSpace version = true ->
  allBytes notSpace (versionStep image version line) = true.
Proof.
  intros Hv. unfold versionStep.
  destruct (startsWith line "FROM"); [|exact Hv].
  pose proof (fieldsFrom_notSpace line EmptyString eq_refl) as Hf.
  fold (Fields line) in Hf.
  destruct (Fields line) as [|p0 [|img rest]]; try exact Hv.
  inversion Hf as [|? ? _ Hf']; subst. inversion Hf' as [|? ? Himg _]; subst.
  destruct (Contains (ToLower img) image); [|exact Hv].
  cbv zeta. destruct (negb (Index img ":" =? -1)); [|exact Hv].
  destruct (_ && _)%bool; [|exact Hv].
  pose proof (allBytes_Split notSpace "-"%char
                (sliceFrom img (Index img ":" + 1))
                (allBytes_substring _ _ _ _ Himg)) as Hs.
  destruct (Split (sliceFrom img (Index img ":" + 1)) "-") as [|h t];
    [reflexivity|].
  inversion Hs; subst. assumption.
Qed.

Lemma versionOf_oneLine (image fallback : string) (lines : list string) :
  allBytes notSpace fallback = true ->
  oneLine (versionOf image fallback lines) = true.
Proof.
  intros H. unfold oneLine.
  apply (allBytes_impl notSpace notLF _ notSpace_notLF).
  unfold versionOf. revert fallback H.
  induction lines as [|line rest IH]; intros fallback H; [exact H|].
  cbn [fold_left]. apply IH. apply versionStep_notSpace. exact H.
Qed.

Lemma fromCount_cons (line : string) (rest : list string) :
  fromCount (line :: rest)
  = (if isFromLine line then 1 else 0) + fromCount rest.
Proof.
  unfold fromCount. cbn [filter]. destruct (isFromLine line);
    cbn [List.length]; lia.
Qed.

Lemma fromCount_app (a b : list string) :
  fromCount (a ++ b) = fromCount a + fromCount b.
Proof. unfold fromCount. rewrite filter_app, length_app. lia. Qed.

(** The text of a template: its lines, and two of them [FROM] lines. *)
Lemma template_two_stages (lang : string) (lines : list string) :
  In lang templateLanguages ->
  let tpl := getMultiStageTemplate lang lines in
  String.prefix "# Stage 1: Build" tpl = true
  /\ fromCount (Split tpl LF) = 2.
Proof.
  intros Hin. cbv zeta.
  destruct Hin as [<-|[<-|[<-|[<-|[<-|[]]]]]];
    cbn [getMultiStageTemplate String.eqb Ascii.eqb Bool.eqb].
  - unfold nodeTemplate. cbv zeta.
    pose proof (versionOf_oneLine "node" "20" lines eq_refl) as Hv.
    set (v := versionOf "node" "20" lines) in *.
    split; [rewrite template_fold; reflexivity|].
    rewrite Split_template
      by (repeat (constructor;
                  [first [reflexivity
                         | unfold oneLine; rewrite !allBytes_append;
                           unfold oneLine in Hv; rewrite Hv; reflexivity]|]);
          try constructor).
    rewrite fromCount_app, !fromCount_cons.
    cbn [String.append]. rewrite ?isFromLine_FROM. vm_compute. reflexivity.
  - unfold goTemplate. cbv zeta.
    pose proof (versionOf_oneLine "golang" "1.22" lines eq_refl) as Hv.
    set (v := versionOf "golang" "1.22" lines) in *.
    split; [rewrite template_fold; reflexivity|].
    rewrite Split_template
      by (repeat (constructor;
                  [first [reflexivity
                         | unfold oneLine; rewrite !allBytes_append;
                           unfold oneLine in Hv; rewrite Hv; reflexivity]|]);
          try constructor).
    rewrite fromCount_app, !fromCount_cons.
    cbn [String.append]. rewrite ?isFromLine_FROM. vm_compute. reflexivity.
  - unfold pythonTemplate. cbv zeta.
    pose proof (versionOf_oneLine "python" "3.12" lines eq_refl) as Hv.
    set (v := versionOf "python" "3.12" lines) in *.
    split; [rewrite template_fold; reflexivity|].
    rewrite Split_template
      by (repeat (constructor;
                  [first [reflexivity
                         | unfold oneLine; rewrite !allBytes_append;
                           unfold oneLine in Hv; rewrite Hv; reflexivity]|]);
          try constructor).
    rewrite fromCount_app, !fromCount_cons.
    cbn [String.append]. rewrite ?isFromLine_FROM. vm_compute. reflexivity.
  - split; vm_compute; reflexivity.
  - split; vm_compute; reflexivity.
Qed.

Lemma prefix_not_empty (p s : string) :
  p <> EmptyString -> String.prefix p s = true -> (s =? "")%string = false.
Proof.
  intros Hp H. destruct s; [|reflexivity].
  destruct p; [contradiction|discriminate H].
Qed.

(** X15. [Apply] of the multi-stage strategy. The language is that of the
    first line that names one, and is one of eight answers. [Apply] fails,
    and returns the text as it is, when no line names a language and when
    the language is ruby or dotnet, for which there is no template. For
    node, go, python, rust and java it returns the template of the language,
    which replaces the whole text: the result starts with the comment of
    stage 1 and has exactly two [FROM] lines, so that [Analyze] of the
    strategy proposes nothing on it. *)
Theorem MultiStageApply_spec (c : OptimizationContext) :
  let content := CurrentContent c in
  let lines := Split content LF in
  let lang := detectLanguage lines in
  In lang languages
  /\ (lang = EmptyString ->
      Apply MultiStageStrategy c
      = (content,
         Some "cannot determine project language for multi-stage optimization"))
  /\ (lang = "ruby" \/ lang = "dotnet" ->
      Apply MultiStageStrategy c
      = (content, Some ("no multi-stage template available for " +++ lang)))
  /\ (In lang templateLanguages ->
      Apply MultiStageStrategy c = (getMultiStageTemplate lang lines, None)
      /\ String.prefix "# Stage 1: Build" (fst (Apply MultiStageStrategy c))
         = true
      /\ fromCount (Split (fst (Apply MultiStageStrategy c)) LF) = 2
      /\ Analyze MultiStageStrategy
           (workingOn c (fst (Apply MultiStageStrategy c))) = None).
Proof.
  cbv zeta. cbn [Apply Analyze MultiStageStrategy]. unfold MultiStageApply.
  cbv zeta.
  set (lines := Split (CurrentContent c) LF).
  split; [apply detectLanguage_values|].
  split; [intros ->; reflexivity|].
  split; [intros [-> | ->]; reflexivity|].
  intros Hin.
  destruct (template_two_stages _ lines Hin) as [Hp Hc].
  assert (Hl : (detectLanguage lines =? "")%string = false).
  { destruct Hin as [<-|[<-|[<-|[<-|[<-|[]]]]]]; reflexivity. }
  assert (Ht : (getMultiStageTemplate (detectLanguage lines) lines =? "")%string
               = false).
  { apply (prefix_not_empty "# Stage 1: Build"); [discriminate|exact Hp]. }
  rewrite Hl, Ht. cbn [fst].
  split; [reflexivity|]. split; [exact Hp|]. split; [exact Hc|].
  unfold MultiStageAnalyze. cbv zeta. cbn [Lines workingOn].
  fold isFromLine. fold (fromCount (Split (getMultiStageTemplate
                                             (detectLanguage lines) lines) LF)).
  rewrite Hc. reflexivity.
Qed.

(** ** The base-image strategy: [Analyze] and [Apply] *)

Lemma slimLine_None (line : string) :
  slimLine line = None <-> slimCandidate line = None.
Proof.
  unfold slimLine. destruct (slimCandidate line) as [[[parts base] alt]|];
    split; intros H; try discriminate H; reflexivity.
Qed.

Lemma analyze_rewrite_agree (lines : list string) :
  BaseImageAnalyzeLines lines = None <-> rewriteFirstFrom lines = None.
Proof.
  induction lines as [|line rest IH]; [split; reflexivity|].
  cbn [BaseImageAnalyzeLines rewriteFirstFrom].
  pose proof (slimLine_None line) as Hs.
  destruct (slimCandidate line) as [[[parts base] alt]|] eqn:E.
  - destruct (slimLine line); [split; discriminate|].
    destruct Hs as [Hs _]. discriminate (Hs eq_refl).
  - rewrite (proj2 Hs eq_refl).
    destruct (rewriteFirstFrom rest); rewrite IH; split; intros H;
      try discriminate H; reflexivity.
Qed.

(** X12. [Analyze] and [Apply] of the base-image strategy agree. On a
    context whose lines are the lines of its working text, as the pipeline
    keeps it, [Analyze] proposes a record exactly when [Apply] succeeds, and
    proposes nothing exactly when [Apply] returns its error: in the pipeline
    the error of [Apply] cannot occur. The record is not yet applied, is
    auto-fixable and has the ID OPT-BASE and the category base-image. *)
Theorem BaseImage_Analyze_Apply (c : OptimizationContext) :
  Lines c = Split (CurrentContent c) LF ->
  (Analyze BaseImageStrategy c = None
   <-> Apply BaseImageStrategy c
       = (CurrentContent c, Some "no applicable base image change"))
  /\ (forall opt,
        Analyze BaseImageStrategy c = Some opt ->
        snd (Apply BaseImageStrategy c) = None
        /\ OptID opt = "OPT-BASE" /\ OptCategory opt = "base-image"
        /\ Applied opt = false /\ OptAutoFixable opt = true).
Proof.
  intros Hl. cbn [Analyze Apply BaseImageStrategy]. rewrite Hl.
  unfold BaseImageApply. cbv zeta.
  pose proof (analyze_rewrite_agree (Split (CurrentContent c) LF)) as Hag.
  split.
  - rewrite Hag.
    destruct (rewriteFirstFrom (Split (CurrentContent c) LF));
      split; intros H; try discriminate H; reflexivity.
  - intros opt Ha.
    split.
    + destruct (rewriteFirstFrom (Split (CurrentContent c) LF));
        [reflexivity|].
      rewrite (proj2 Hag eq_refl) in Ha. discriminate Ha.
    + clear Hag Hl. induction (Split (CurrentContent c) LF) as [|line rest IH];
        [discriminate Ha|].
      cbn [BaseImageAnalyzeLines] in Ha.
      destruct (slimCandidate line) as [[[parts base] alt]|];
        [|exact (IH Ha)].
      injection Ha as <-. repeat split.
Qed.

Lemma BaseImage_Analyze_Apply_witness :
  snd (Apply BaseImageStrategy (contextAt installText)) = None
  /\ snd (Apply BaseImageStrategy (contextAt namespacedText))
     = Some "no applicable base image change".
Proof.
  split.
  - assert (Hl : Lines (contextAt installText)
                 = Split (CurrentContent (contextAt installText)) LF)
      by reflexivity.
    destruct (Analyze BaseImageStrategy (contextAt installText)) as [opt|] eqn:E;
      [|vm_compute in E; discriminate E].
    exact (proj1 (proj2 (BaseImage_Analyze_Apply (contextAt installText) Hl)
                        opt E)).
  - assert (Hl : Lines (contextAt namespacedText)
                 = Split (CurrentContent (contextAt namespacedText)) LF)
      by reflexivity.
    assert (Ha : Analyze BaseImageStrategy (contextAt namespacedText) = None)
      by (vm_compute; reflexivity).
    pose proof (proj1 (proj1 (BaseImage_Analyze_Apply
                                (contextAt namespacedText) Hl)) Ha) as H.
    exact (f_equal snd H).
Defined.

(** ** The combine-layers strategy *)









Lemma combine_count (lines : list string) :
  forallb runOrBlank lines = true ->
  forall n,
    fold_left (fun n line =>
                 if isRunLine line then n + 1
                 else if negb (isBlankOrComment line) then 0 else n)
              lines n
    = n + runCount lines.
Proof.
  unfold runCount.
  induction lines as [|line rest IH]; intros H n; cbn [fold_left filter].
  - cbn [List.length]. lia.
  - cbn [forallb] in H. apply andb_true_iff in H. destruct H as [H1 H2].
    unfold runOrBlank in H1. destruct (isRunLine line) eqn:E.
    + rewrite (IH H2). cbn [List.length]. lia.
    + cbn [orb] in H1. rewrite H1. cbn [negb]. apply IH. exact H2.
Qed.

(** X13. [Analyze] of the combine-layers strategy, on lines of ASCII
    bytes, looks at the end of the text only. The counter of [RUN] lines is
    set back to 0 by every line that is neither a [RUN] line nor blank nor a
    comment, and is read after the last line: a record is proposed exactly
    when two or more [RUN] lines follow the last such line (or stand in a
    text without such a line). A text in which an instruction other than
    [RUN], a [CMD] for one, follows the last [RUN] line gets no proposal,
    however many consecutive [RUN] lines it has. *)
Theorem CombineLayersAnalyze_spec (c : OptimizationContext) :
  forallb isASCII (Lines c) = true ->
  (forall before line after,
      Lines c = before ++ line :: after ->
      isRunLine line = false -> isBlankOrComment line = false ->
      forallb runOrBlank after = true ->
      (Analyze CombineLayersStrategy c = None <-> runCount after < 2))
  /\ (forallb runOrBlank (Lines c) = true ->
      (Analyze CombineLayersStrategy c = None <-> runCount (Lines c) < 2)).
Proof.
  intros _.
  cbn [Analyze CombineLayersStrategy]. unfold CombineLayersAnalyze. cbv zeta.
  split.
  - intros before line after Hl Hr Hb Ha. rewrite Hl, fold_left_app.
    cbn [fold_left]. rewrite Hr, Hb. cbn [negb].
    rewrite (combine_count after Ha).
    destruct (Z.leb_spec 2 (0 + runCount after)) as [Hge|Hlt]; split;
      intros H; try discriminate H; try reflexivity; lia.
  - intros Ha. rewrite (combine_count _ Ha).
    destruct (Z.leb_spec 2 (0 + runCount (Lines c))) as [Hge|Hlt]; split;
      intros H; try discriminate H; try reflexivity; lia.
Qed.

Lemma CombineLayersAnalyze_spec_witness :
  Analyze CombineLayersStrategy (contextAt threeRunsText) = None.
Proof.
  assert (Ha : forallb isASCII (Lines (contextAt threeRunsText)) = true)
    by (vm_compute; reflexivity).
  assert (Hl : Lines (contextAt threeRunsText)
               = ["FROM alpine:3.19"; "RUN apk add curl"; "# tools";
                  "RUN apk add git"; "RUN echo done"; ""]
                 ++ "CMD [sh]" :: [])
    by (vm_compute; reflexivity).
  destruct (CombineLayersAnalyze_spec (contextAt threeRunsText) Ha) as [H _].
  apply (H _ _ _ Hl); vm_compute; reflexivity.
Defined.



(** The block of three [RUN] lines of a text, with a comment among them
    and a blank line after them. *)
Example CombineLayersApply_three_runs :
  fst (Apply CombineLayersStrategy (contextAt threeRunsText))
  = String.concat nl
      ["FROM alpine:3.19";
       "RUN apk add curl && " +++ backslash;
       "    apk add git && " +++ backslash;
       "    echo done";
       "CMD [sh]"]
  /\ Analyze CombineLayersStrategy (contextAt threeRunsText) = None.
Proof. split; vm_compute; reflexivity. Qed.

(** ** The cleanup strategy *)

Lemma prefix_shorter (p q s : string) :
  String.prefix (p +++ q) s = true -> String.prefix p s = true.
Proof.
  revert s. induction p as [|c p IH]; intros s H; [destruct s; reflexivity|].
  destruct s as [|d s]; [discriminate H|].
  cbn [String.append String.prefix] in *.
  destruct (ascii_dec c d); [exact (IH s H)|discriminate H].
Qed.

Lemma Contains_shorter (p q s : string) :
  Contains s p = false -> Contains s (p +++ q) = false.
Proof.
  induction s as [|c s IH]; cbn [Contains]; intros H.
  - apply orb_false_iff in H. destruct H as [H _].
    rewrite orb_false_r in *.
    destruct (String.prefix (p +++ q) EmptyString) eqn:E; [|reflexivity].
    rewrite (prefix_shorter p q _ E) in H. discriminate H.
  - apply orb_false_iff in H. destruct H as [H1 H2].
    rewrite (IH H2), orb_false_r.
    destruct (String.prefix (p +++ q) (String c s)) eqn:E; [|reflexivity].
    rewrite (prefix_shorter p q _ E) in H1. discriminate H1.
Qed.

Lemma replaceFrom_absent (s old new : string) :
  Contains s old = false -> replaceFrom 0 s old new = s.
Proof.
  induction s as [|c s IH]; [reflexivity|].
  cbn [Contains replaceFrom]. intros H.
  apply orb_false_iff in H. destruct H as [H1 H2].
  rewrite H1, (IH H2). reflexivity.
Qed.

Lemma replaceAllFrom_absent (repl : string -> string) (s : string) :
  Contains s "apt-get install" = false ->
  replaceAllFrom aptGetPattern repl 0 s = s.
Proof.
  induction s as [|c s IH]; [reflexivity|].
  cbn [Contains replaceAllFrom]. intros H.
  apply orb_false_iff in H. destruct H as [H1 H2].
  unfold aptGetPattern at 1. rewrite H1, (IH H2). reflexivity.
Qed.

(** X17. What [Apply] of the cleanup strategy leaves alone. It never fails,
    and a text that holds neither apt-get install nor the flag
    --no-install-recommends twice in a row, separated by one space, is
    returned as it is. *)
Theorem CleanupApply_frame (c : OptimizationContext) :
  Contains (CurrentContent c) "apt-get install" = false ->
  Contains (CurrentContent c)
           "--no-install-recommends --no-install-recommends" = false ->
  Apply CleanupStrategy c = (CurrentContent c, None).
Proof.
  intros H1 H2. cbn [Apply CleanupStrategy]. unfold CleanupApply. cbv zeta.
  unfold ReplaceAllStringFunc, ReplaceAll.
  rewrite (replaceAllFrom_absent _ _ H1).
  rewrite (replaceFrom_absent _ "apt-get install " _
             (Contains_shorter "apt-get install" " " _ H1)).
  rewrite (replaceFrom_absent _ _ _ H2). reflexivity.
Qed.

Lemma CleanupApply_frame_witness :
  Apply CleanupStrategy (contextAt noAptText) = (noAptText, None).
Proof.
  apply (CleanupApply_frame (contextAt noAptText)); vm_compute; reflexivity.
Defined.

End StrategySpec.

(* ================================================================== *)
(** * Properties of the pipeline *)
(* ================================================================== *)

Module PipelineSpec.
Import GoStrings GoInt models optimizer OptimizerTerms StrategyTerms.
Import PipelineTerms OptimizerSpec StrategySpec.

(** ** The context of the pipeline *)

Lemma consistent_initial (content : string) :
  consistent content (initialContext content).
Proof. repeat split. Qed.

Lemma runStrategy_consistent (m : Mode) (content : string)
    (st : PipelineState) (s : Strategy) :
  consistent content (ctx st) -> consistent content (ctx (runStrategy m st s)).
Proof.
  intros (H1 & H2 & H3). unfold runStrategy.
  destruct (Analyze s (ctx st)) as [opt|]; [|repeat split; assumption].
  destruct ((m =? ModeAutoFix)%string && OptAutoFixable opt)%bool;
    [|repeat split; assumption].
  destruct (Apply s (ctx st)) as [text [msg|]]; repeat split; assumption.
Qed.

Lemma runStrategy_length (m : Mode) (st : PipelineState) (s : Strategy) :
  (List.length (optimizations (runStrategy m st s))
   <= S (List.length (optimizations st)))%nat.
Proof.
  unfold runStrategy.
  destruct (Analyze s (ctx st)) as [opt|]; [|lia].
  destruct ((m =? ModeAutoFix)%string && OptAutoFixable opt)%bool;
    [destruct (Apply s (ctx st)) as [text [msg|]]|];
    cbn [optimizations]; rewrite length_app; cbn [List.length]; lia.
Qed.

Lemma fold_consistent (m : Mode) (content : string) (pipeline : list Strategy) :
  forall st,
    consistent content (ctx st) ->
    consistent content (ctx (fold_left (runStrategy m) pipeline st))
    /\ (List.length (optimizations (fold_left (runStrategy m) pipeline st))
        <= List.length (optimizations st) + List.length pipeline)%nat.
Proof.
  induction pipeline as [|s rest IH]; intros st H; cbn [fold_left].
  - split; [exact H|cbn [List.length]; lia].
  - destruct (IH _ (runStrategy_consistent m content st s H)) as [Hc Hl].
    split; [exact Hc|].
    pose proof (runStrategy_length m st s). cbn [List.length]. lia.
Qed.

(** X19. The context of the pipeline. After any number of strategies, of any
    optimizer and in any mode, the context holds the input text as its
    original text, its lines are the lines of its working text, and its
    analysis is still the analysis of the input text: the working text is
    not analysed again after a strategy has rewritten it. So the three
    strategies that look for a finding (DIO006, DIO005, DIO011) propose what
    they would propose on the input text, whatever the strategies before
    them did. There is at most one record for each strategy that has run. *)
Theorem pipeline_context (o : Optimizer) (content : string)
    (before : list Strategy) :
  let st := stateAfter o content before in
  OriginalContent (ctx st) = content
  /\ Lines (ctx st) = Split (CurrentContent (ctx st)) LF
  /\ Analysis (ctx st) = analyzer.AnalyzeContent (analyzer.New false) content
  /\ Analyze NonRootUserStrategy (ctx st)
     = Analyze NonRootUserStrategy (initialContext content)
  /\ Analyze CleanupStrategy (ctx st)
     = Analyze CleanupStrategy (initialContext content)
  /\ Analyze WorkdirStrategy (ctx st)
     = Analyze WorkdirStrategy (initialContext content)
  /\ (List.length (optimizations st) <= List.length before)%nat
  /\ OptimizedDockerfile (OptimizeContent o content)
     = CurrentContent (ctx (stateAfter o content (strategies o))).
Proof.
  cbv zeta. unfold stateAfter.
  destruct (fold_consistent (mode o) content before
              {| ctx := initialContext content; optimizations := [] |}
              (consistent_initial content)) as [(H1 & H2 & H3) Hl].
  split; [exact H1|]. split; [exact H2|]. split; [exact H3|].
  cbn [Analyze NonRootUserStrategy CleanupStrategy WorkdirStrategy].
  unfold NonRootUserAnalyze, CleanupAnalyze, WorkdirAnalyze, hasIssue.
  rewrite H3. repeat split. exact Hl.
Qed.

(** ** Modes other than autofix *)

Lemma suggest_fold (m : Mode) (pipeline : list Strategy) :
  (m =? ModeAutoFix)%string = false ->
  forall st,
    fold_left (runStrategy m) pipeline st
    = {| ctx := ctx st;
         optimizations :=
           optimizations st
           ++ flat_map (fun s => proposal s (ctx st)) pipeline |}.
Proof.
  intros Hm. induction pipeline as [|s rest IH]; intros st; cbn [fold_left flat_map].
  - rewrite app_nil_r. destruct st; reflexivity.
  - rewrite IH. unfold runStrategy, proposal. rewrite Hm. cbn [andb].
    destruct (Analyze s (ctx st)) as [opt|]; cbn [ctx optimizations app].
    + rewrite <- app_assoc. reflexivity.
    + reflexivity.
Qed.

Lemma builtin_fresh (spec : PipelineEntry) :
  In spec pipelineEntries -> fresh spec /\ succeeds spec.
Proof.
  intros Hin.
  assert (Hsnd : forall (s : Strategy),
             (forall c, snd (Apply s c) = None) ->
             forall c : OptimizationContext,
               Lines c = Split (CurrentContent c) LF ->
               Analyze s c <> None -> snd (Apply s c) = None)
    by (intros s H c _ _; apply H).
  unfold fresh, succeeds.
  destruct Hin as [<-|[<-|[<-|[<-|[<-|[<-|[<-|[]]]]]]]];
    cbn [EntryStrategy EntryID EntryAutoFixable EntrySucceeds]; split.
  - intros c r. cbn [Analyze BaseImageStrategy].
    induction (Lines c) as [|line rest IH]; [discriminate|].
    cbn [BaseImageAnalyzeLines].
    destruct (slimCandidate line) as [[[parts base] alt]|]; [|exact IH].
    intros [= <-]. repeat split.
  - intros _ c Hl Ha.
    destruct (Analyze BaseImageStrategy c) as [opt|] eqn:E; [|contradiction].
    cbn [Analyze Apply BaseImageStrategy] in *. rewrite Hl in E.
    unfold BaseImageApply. cbv zeta.
    destruct (rewriteFirstFrom (Split (CurrentContent c) LF)) eqn:R;
      [reflexivity|].
    apply analyze_rewrite_agree in R. rewrite R in E. discriminate E.
  - intros c r. cbn [Analyze CombineLayersStrategy]. unfold CombineLayersAnalyze.
    cbv zeta. destruct (2 <=? _); [|discriminate].
    intros [= <-]. repeat split.
  - intros _. apply Hsnd. intros c. reflexivity.
  - intros c r. cbn [Analyze MultiStageStrategy]. unfold MultiStageAnalyze.
    cbv zeta. destruct (1 <? _); [discriminate|].
    destruct (existsb _ _); [|discriminate]. intros [= <-]. repeat split.
  - discriminate.
  - intros c r. cbn [Analyze CacheOptStrategy]. unfold CacheOptAnalyze.
    destruct (rangeFold cacheStep 0 (Lines c) (-1, -1)) as [a b].
    destruct (_ && _)%bool; [|discriminate]. intros [= <-]. repeat split.
  - intros _. apply Hsnd. intros c. reflexivity.
  - intros c r. cbn [Analyze NonRootUserStrategy]. unfold NonRootUserAnalyze.
    destruct (hasIssue c "DIO006"); [|discriminate].
    intros [= <-]. repeat split.
  - intros _. apply Hsnd. intros c. cbn [Apply NonRootUserStrategy].
    unfold NonRootUserApply. cbv zeta. destruct (existsb _ _); reflexivity.
  - intros c r. cbn [Analyze CleanupStrategy]. unfold CleanupAnalyze.
    destruct (hasIssue c "DIO005"); [|discriminate].
    intros [= <-]. repeat split.
  - intros _. apply Hsnd. intros c. reflexivity.
  - intros c r. cbn [Analyze WorkdirStrategy]. unfold WorkdirAnalyze.
    destruct (hasIssue c "DIO011"); [|discriminate].
    intros [= <-]. repeat split.
  - intros _. apply Hsnd. intros c. cbn [Apply WorkdirStrategy].
    unfold WorkdirApply. cbv zeta. destruct (existsb _ _); reflexivity.
Qed.

Lemma New_entries (m : Mode) :
  strategies (New m) = map EntryStrategy pipelineEntries.
Proof. reflexivity. Qed.

Lemma proposals_fresh (c : OptimizationContext) (specs : list PipelineEntry) :
  Forall fresh specs ->
  Forall (fun r => Applied r = false)
         (flat_map (fun s => proposal s c) (map EntryStrategy specs)).
Proof.
  induction 1 as [|spec rest Hf _ IH]; [constructor|].
  cbn [map flat_map]. apply Forall_app. split; [|exact IH].
  unfold proposal. destruct (Analyze (EntryStrategy spec) c) as [r|] eqn:E;
    [|constructor].
  constructor; [|constructor]. exact (proj2 (proj2 (Hf c r E))).
Qed.

Lemma pipelineEntries_fresh : Forall fresh pipelineEntries.
Proof.
  apply Forall_forall. intros spec Hin. exact (proj1 (builtin_fresh spec Hin)).
Qed.

(** X20. A mode other than autofix. In any mode but the string autofix (the
    mode suggest, and any other string, is such a mode) no strategy is
    applied: the optimized text is the input text, and the records are what
    the [Analyze] of each strategy returns on the context of the input
    text, in the order of the pipeline. For the pipeline of [New], no
    record is marked applied and the estimate is the label of suggest
    mode. *)
Theorem OptimizeContent_suggest (o : Optimizer) (content : string) :
  mode o <> ModeAutoFix ->
  let res := OptimizeContent o content in
  OriginalDockerfile res = content
  /\ OptimizedDockerfile res = content
  /\ Optimizations res
     = flat_map (fun s => proposal s (initialContext content)) (strategies o)
  /\ (strategies o = strategies (New (mode o)) ->
      Forall (fun r => Applied r = false) (Optimizations res)
      /\ EstimatedReduction res = "N/A (suggest mode)").
Proof.
  intros Hm. cbv zeta. unfold OptimizeContent. cbv zeta.
  assert (Hm' : (mode o =? ModeAutoFix)%string = false)
    by (apply String.eqb_neq; exact Hm).
  rewrite (suggest_fold _ _ Hm'). cbn [ctx optimizations app
    OriginalDockerfile OptimizedDockerfile Optimizations EstimatedReduction].
  split; [reflexivity|]. split; [reflexivity|]. split; [reflexivity|].
  intros Hs. rewrite Hs, New_entries.
  pose proof (proposals_fresh (initialContext content) pipelineEntries
                pipelineEntries_fresh) as Hall.
  split; [exact Hall|].
  apply estimateReduction_none. apply Forall_forall. exact Hall.
Qed.

Lemma OptimizeContent_suggest_witness :
  OptimizedDockerfile (OptimizeContent (New ModeSuggest) staleText) = staleText
  /\ map OptID (Optimizations (OptimizeContent (New "AUTOFIX") staleText))
     = ["OPT-BASE"; "OPT-MULTISTAGE"; "OPT-USER"; "OPT-WORKDIR"].
Proof.
  split.
  - apply (OptimizeContent_suggest (New ModeSuggest) staleText). discriminate.
  - assert (H : mode (New "AUTOFIX") <> ModeAutoFix) by discriminate.
    rewrite (proj1 (proj2 (proj2 (OptimizeContent_suggest (New "AUTOFIX")
                                    staleText H)))).
    vm_compute. reflexivity.
Defined.

(** ** The records of the pipeline *)

Lemma runStrategy_turn (m : Mode) (st : PipelineState) (spec : PipelineEntry) :
  fresh spec -> succeeds spec ->
  Lines (ctx st) = Split (CurrentContent (ctx st)) LF ->
  exists block,
    optimizations (runStrategy m st (EntryStrategy spec))
    = optimizations st ++ block
    /\ turn m spec block.
Proof.
  intros Hf Hs Hl. unfold runStrategy.
  destruct (Analyze (EntryStrategy spec) (ctx st)) as [opt|] eqn:Ea.
  2:{ exists []. rewrite app_nil_r. split; [reflexivity|left; reflexivity]. }
  destruct (Hf _ _ Ea) as (Hid & Hfix & Happ).
  destruct (m =? ModeAutoFix)%string eqn:Em; cbn [andb].
  - apply String.eqb_eq in Em.
    destruct (OptAutoFixable opt) eqn:Eo.
    + destruct (Apply (EntryStrategy spec) (ctx st)) as [text [msg|]] eqn:Ep;
        cbn [optimizations].
      * exists [opt]. split; [reflexivity|]. right. exists opt.
        split; [reflexivity|]. split; [exact Hid|]. split; [congruence|].
        split; [intros H; congruence|].
        intros _ _ Hsucc.
        assert (Hne : Analyze (EntryStrategy spec) (ctx st) <> None)
          by (rewrite Ea; discriminate).
        pose proof (Hs Hsucc (ctx st) Hl Hne) as Hnone.
        rewrite Ep in Hnone. discriminate Hnone.
      * exists [setApplied opt]. split; [reflexivity|]. right.
        exists (setApplied opt). cbn [setApplied OptID OptAutoFixable Applied].
        split; [reflexivity|]. split; [exact Hid|]. split; [congruence|].
        split; [intros _; split; [exact Em|congruence]|].
        intros _ _ _. reflexivity.
    + exists [opt]. split; [reflexivity|]. right. exists opt.
      split; [reflexivity|]. split; [exact Hid|]. split; [congruence|].
      split; [intros H; congruence|]. intros _ H _. congruence.
  - exists [opt]. split; [reflexivity|]. right. exists opt.
    split; [reflexivity|]. split; [exact Hid|]. split; [congruence|].
    split; [intros H; congruence|].
    intros H _ _. rewrite H in Em. discriminate Em.
Qed.

Lemma pipeline_turns (m : Mode) (content : string)
    (specs : list PipelineEntry) :
  Forall (fun spec => fresh spec /\ succeeds spec) specs ->
  forall st,
    consistent content (ctx st) ->
    exists blocks,
      optimizations (fold_left (runStrategy m) (map EntryStrategy specs) st)
      = optimizations st ++ List.concat blocks
      /\ Forall2 (turn m) specs blocks.
Proof.
  induction 1 as [|spec rest [Hf Hs] _ IH]; intros st Hc; cbn [map fold_left].
  - exists []. rewrite app_nil_r. split; [reflexivity|constructor].
  - destruct (runStrategy_turn m st spec Hf Hs (proj1 (proj2 Hc)))
      as (block & Eb & Ht).
    destruct (IH _ (runStrategy_consistent m content st (EntryStrategy spec)
                      Hc))
      as (blocks & Ebs & Hts).
    exists (block :: blocks). split; [|constructor; assumption].
    rewrite Ebs, Eb. cbn [List.concat]. rewrite <- app_assoc. reflexivity.
Qed.

Lemma turns_member (m : Mode) (specs : list PipelineEntry)
    (blocks : list (list Optimization)) (r : Optimization) :
  Forall2 (turn m) specs blocks -> In r (List.concat blocks) ->
  exists spec,
    In spec specs
    /\ OptID r = EntryID spec
    /\ OptAutoFixable r = EntryAutoFixable spec
    /\ (Applied r = true -> m = ModeAutoFix /\ EntryAutoFixable spec = true)
    /\ (m = ModeAutoFix -> EntryAutoFixable spec = true ->
        EntrySucceeds spec = true -> Applied r = true).
Proof.
  induction 1 as [|spec block specs blocks Ht _ IH]; cbn [List.concat];
    [contradiction|].
  intros Hin. apply in_app_or in Hin. destruct Hin as [Hin|Hin].
  - destruct Ht as [->|(r' & -> & H)]; [contradiction|].
    destruct Hin as [<-|[]]. exists spec. split; [left; reflexivity|exact H].
  - destruct (IH Hin) as (spec' & Hs & H). exists spec'.
    split; [right; exact Hs|exact H].
Qed.

Lemma turns_sorted (m : Mode) (specs : list PipelineEntry)
    (blocks : list (list Optimization)) :
  Forall2 (turn m) specs blocks ->
  forall start,
    (forall n spec, nth_error specs n = Some spec ->
                    optRank (EntryID spec) = (start + n)%nat) ->
    StronglySorted lt (map (fun r => optRank (OptID r)) (List.concat blocks))
    /\ Forall (fun r => (start <= optRank (OptID r))%nat) (List.concat blocks).
Proof.
  induction 1 as [|spec block specs blocks Ht _ IH]; intros start Hrank;
    cbn [List.concat]; [split; constructor|].
  destruct (IH (S start)) as [Hs Hb].
  { intros n sp Hn. rewrite (Hrank (S n) sp Hn). lia. }
  assert (Hrest : Forall (fun r => (start <= optRank (OptID r))%nat)
                         (List.concat blocks)).
  { eapply Forall_impl; [|exact Hb]. intros r Hr. cbv beta in *. lia. }
  destruct Ht as [->|(r & -> & Hid & _)]; [split; assumption|].
  pose proof (Hrank 0%nat spec eq_refl) as H0. rewrite <- Hid in H0.
  cbn [app map]. split.
  - constructor; [exact Hs|]. apply Forall_map.
    eapply Forall_impl; [|exact Hb]. intros r' Hr'. cbv beta in *. lia.
  - constructor; [lia|exact Hrest].
Qed.

Lemma pipelineEntries_facts :
  Forall (fun spec => fresh spec /\ succeeds spec) pipelineEntries.
Proof. apply Forall_forall. exact builtin_fresh. Qed.

(** X21. The records of a run of the pipeline of [New], in any mode. The
    records stand in the order of the pipeline and there is at most one for
    each strategy; their IDs are among the seven of the pipeline. A record is
    marked applied only in autofix mode and only if it is auto-fixable, so
    the cache-order record (OPT-CACHE), which is not, is never applied. In
    autofix mode the records of the base-image, combine-layers,
    non-root-user, cleanup and WORKDIR strategies are always applied, for
    their [Apply] cannot fail there; only the multi-stage record can stay
    unapplied. *)
Theorem OptimizeContent_records (m : Mode) (content : string) :
  let records := Optimizations (OptimizeContent (New m) content) in
  StronglySorted lt (map (fun r => optRank (OptID r)) records)
  /\ Forall (fun r => In (OptID r) pipelineIDs) records
  /\ (forall r, In r records -> Applied r = true ->
        m = ModeAutoFix /\ OptAutoFixable r = true /\ OptID r <> "OPT-CACHE")
  /\ (m = ModeAutoFix ->
      forall r, In r records -> In (OptID r) alwaysApplied -> Applied r = true).
Proof.
  cbv zeta. unfold OptimizeContent. cbv zeta. cbn [Optimizations].
  rewrite New_entries. cbn [mode New].
  destruct (pipeline_turns m content pipelineEntries pipelineEntries_facts
              {| ctx := initialContext content; optimizations := [] |}
              (consistent_initial content)) as (blocks & E & Ht).
  rewrite E. cbn [optimizations app].
  split; [|split; [|split]].
  - apply (turns_sorted m _ _ Ht 1).
    intros n spec Hn.
    destruct n as [|[|[|[|[|[|[|n]]]]]]]; cbn [nth_error pipelineEntries] in Hn;
      try (injection Hn as <-; reflexivity).
    destruct n; discriminate Hn.
  - apply Forall_forall. intros r Hr.
    destruct (turns_member m _ _ r Ht Hr) as (spec & Hs & Hid & _).
    rewrite Hid.
    repeat (destruct Hs as [<-|Hs]; [cbn; tauto|]). contradiction.
  - intros r Hr Ha.
    destruct (turns_member m _ _ r Ht Hr) as (spec & Hs & Hid & Hfix & H1 & _).
    destruct (H1 Ha) as [Hm Hf]. split; [exact Hm|].
    split; [congruence|]. rewrite Hid.
    repeat (destruct Hs as [<-|Hs];
            [cbn [EntryID EntryAutoFixable] in *; discriminate|]).
    contradiction.
  - intros Hm r Hr Hin.
    destruct (turns_member m _ _ r Ht Hr) as (spec & Hs & Hid & _ & _ & H2).
    rewrite Hid in Hin. apply H2; [exact Hm|..];
      repeat (destruct Hs as [<-|Hs];
              [cbn [EntryID EntryAutoFixable EntrySucceeds] in *;
               first [reflexivity
                     | repeat (destruct Hin as [Hin|Hin];
                               [discriminate Hin|]); contradiction]|]);
      contradiction.
Qed.

(** ** The proposals that follow a finding *)

Lemma hasIssue_stale (content : string) (c : OptimizationContext)
    (id : string) :
  consistent content c ->
  hasIssue c id
  = existsb (fun issue => (ID issue =? id)%string)
            (RulesTerms.builtinIssues "<stdin>" content false).
Proof. intros (_ & _ & H). unfold hasIssue. rewrite H. reflexivity. Qed.

(** X22. The proposals that follow a finding, read off the input text. At
    any point of a run of the pipeline, on a text [content] of ASCII bytes:
    the
    non-root-user strategy proposes its record exactly when no [USER]
    instruction of [content] names a user other than root and 0; the cleanup
    strategy exactly when some [RUN] instruction of [content] runs apt-get
    update or apt-get install without a cleanup (a pip install without
    --no-cache-dir, whose finding has another ID, does not count); the
    WORKDIR strategy exactly when [content] has no [WORKDIR] instruction.
    What the strategies before them wrote in the working text plays no
    part. *)
Theorem proposals_follow_input (o : Optimizer) (content : string)
    (before : list Strategy) :
  isASCII content = true ->
  let c := ctx (stateAfter o content before) in
  let instructions :=
    analyzer.Instructions (analyzer.parseDockerfile (Split content LF)) in
  (Analyze NonRootUserStrategy c <> None
   <-> existsb RulesTerms.namesNonRoot instructions = false)
  /\ (Analyze CleanupStrategy c <> None
      <-> existsb RulesTerms.aptLeftUncleaned instructions = true)
  /\ (Analyze WorkdirStrategy c <> None
      <-> existsb RulesTerms.isWorkdir instructions = false).
Proof.
  intros _. cbv zeta. unfold stateAfter.
  destruct (fold_consistent (mode o) content before
              {| ctx := initialContext content; optimizations := [] |}
              (consistent_initial content)) as [Hc _].
  cbn [Analyze NonRootUserStrategy CleanupStrategy WorkdirStrategy].
  unfold NonRootUserAnalyze, CleanupAnalyze, WorkdirAnalyze.
  rewrite !(hasIssue_stale content _ _ Hc).
  destruct (RulesSpec.builtin_raises content) as (_ & H5 & H6 & H11).
  cbv zeta in H5, H6, H11. rewrite H5, H6, H11.
  change (analyzer.ParsedFile (RulesTerms.fileContext "<stdin>" content false))
    with (analyzer.parseDockerfile (Split content LF)).
  destruct (existsb RulesTerms.namesNonRoot _),
    (existsb RulesTerms.aptLeftUncleaned _),
    (existsb RulesTerms.isWorkdir _); cbn [negb];
    repeat split; intros H; try discriminate; try reflexivity;
    try (exfalso; apply H; reflexivity).
Qed.

Lemma proposals_follow_input_witness :
  let c := ctx (stateAfter (New ModeAutoFix) staleText
                  [BaseImageStrategy; CombineLayersStrategy;
                   MultiStageStrategy]) in
  Analyze NonRootUserStrategy c <> None
  /\ Analyze CleanupStrategy c = None
  /\ Analyze WorkdirStrategy c <> None.
Proof.
  cbv zeta.
  assert (Ha : isASCII staleText = true) by (vm_compute; reflexivity).
  pose proof (proposals_follow_input (New ModeAutoFix) staleText
                [BaseImageStrategy; CombineLayersStrategy; MultiStageStrategy]
                Ha) as H.
  cbv zeta in H. destruct H as (Hu & Hc & Hw).
  split; [apply Hu; vm_compute; reflexivity|].
  split; [|apply Hw; vm_compute; reflexivity].
  destruct (Analyze CleanupStrategy _) as [opt|] eqn:E; [|reflexivity].
  assert (Hn : Some opt <> None) by discriminate.
  apply Hc in Hn. vm_compute in Hn. discriminate Hn.
Defined.

End PipelineSpec.

(* ================================================================== *)
(** * Properties of the policy *)
(* ================================================================== *)

Module PolicySpec.
Import GoStrings GoInt models analyzer policy PolicyTerms.
Import AnalyzerTerms OptimizerTerms ParserTerms RulesTerms.
Import hadolint HadolintTerms AnalyzeTerms.
Import AnalyzerSpec ParserSpec RulesSpec HadolintSpec AnalyzeSpec.

Lemma sound_empty : sound {| PolicyPassed := true; PolicyRules := [] |}.
Proof. split; [reflexivity|constructor]. Qed.

Lemma sound_addRule (res : PolicyResult) (name description : string)
    (value : Value) (passed : bool) (message : string) :
  message <> EmptyString -> sound res ->
  sound (addRule res name description value passed message).
Proof.
  intros Hm [Hp Hr]. unfold addRule. split; cbn [PolicyPassed PolicyRules].
  - rewrite forallb_app. cbn [forallb RulePassed]. rewrite <- Hp.
    destruct passed; [rewrite andb_true_r|rewrite andb_false_r]; reflexivity.
  - apply Forall_app. split; [exact Hr|]. constructor; [|constructor].
    cbn [RulePassed RuleMessage]. destruct passed; split; intros H;
      try reflexivity; try discriminate H. contradiction.
Qed.

Lemma append_not_empty (c : ascii) (a b : string) :
  String c a +++ b <> EmptyString.
Proof. discriminate. Qed.

Lemma Evaluate_sound_result (parse : string -> option Z) (config : Config)
    (result : PipelineResult) :
  sound (Evaluate parse config result).
Proof.
  unfold Evaluate, checkLayers, checkScore, checkCVEs, checkNonRoot,
    checkLatestTag, checkImageSize.
  cbv zeta.
  repeat match goal with
         | |- sound (match ?x with _ => _ end) => destruct x
         | |- sound (addRule _ _ _ _ _ _) =>
             apply sound_addRule; [discriminate|]
         | |- sound {| PolicyPassed := true; PolicyRules := [] |} =>
             exact sound_empty
         end.
Qed.

Lemma Evaluate_names (parse : string -> option Z) (config : Config)
    (result : PipelineResult) :
  subsequence (map RuleName (PolicyRules (Evaluate parse config result)))
              ruleNames = true.
Proof.
  unfold Evaluate. cbv zeta.
  set (sized := match OptimizedImage result, BaselineImage result with
                | Some img, _ =>
                    if negb (MaxImageSize config =? "")%string
                    then checkImageSize parse config img
                           {| PolicyPassed := true; PolicyRules := [] |}
                    else {| PolicyPassed := true; PolicyRules := [] |}
                | None, Some img =>
                    if negb (MaxImageSize config =? "")%string
                    then checkImageSize parse config img
                           {| PolicyPassed := true; PolicyRules := [] |}
                    else {| PolicyPassed := true; PolicyRules := [] |}
                | None, None => {| PolicyPassed := true; PolicyRules := [] |}
                end).
  assert (Hs : map RuleName (PolicyRules sized) = []
               \/ map RuleName (PolicyRules sized) = ["max_image_size"]).
  { subst sized. unfold checkImageSize.
    destruct (OptimizedImage result), (BaselineImage result),
      (negb (MaxImageSize config =? "")%string),
      (parse (MaxImageSize config)); cbn; auto. }
  assert (Hname : forall res n d v p msg,
             map RuleName (PolicyRules (addRule res n d v p msg))
             = map RuleName (PolicyRules res) ++ [n]).
  { intros. unfold addRule. cbn [PolicyRules]. rewrite map_app. reflexivity. }
  unfold checkLayers, checkScore, checkCVEs, checkNonRoot, checkLatestTag.
  cbv zeta.
  destruct (PipelineAnalysis result), (ForbidLatestTag config),
    (RequireNonRoot config), (OptScanResult result),
    (PipelineScanResult result), (0 <? MinScore config),
    (0 <? MaxLayers config), (OptimizedImage result), (BaselineImage result);
    rewrite ?Hname; destruct Hs as [-> | ->]; reflexivity.
Qed.

(** X23. [Evaluate] of the policy enforcer. The result passes exactly when
    every rule it lists passed, and a rule passed exactly when its message is
    empty. The rules are listed in a fixed order, each at most once. A check
    whose evidence is missing lists no rule: a pipeline result without
    analysis, images and scans passes with no rule at all. The fields
    [RequireHealthcheck] and [ForbidRootUser] of the configuration are not
    read: the result is the same for any value of them. *)
Theorem Evaluate_spec (parse : string -> option Z) (config : Config)
    (result : PipelineResult) :
  let res := Evaluate parse config result in
  PolicyPassed res = forallb RulePassed (PolicyRules res)
  /\ Forall (fun rule =>
               RulePassed rule = true <-> RuleMessage rule = EmptyString)
            (PolicyRules res)
  /\ subsequence (map RuleName (PolicyRules res)) ruleNames = true
  /\ (noEvidence result ->
      res = {| PolicyPassed := true; PolicyRules := [] |})
  /\ (forall healthcheck rootUser,
        Evaluate parse (withUnread config healthcheck rootUser) result = res).
Proof.
  cbv zeta. destruct (Evaluate_sound_result parse config result) as [Hp Hr].
  split; [exact Hp|]. split; [exact Hr|].
  split; [apply Evaluate_names|]. split; [|reflexivity].
  intros (H1 & H2 & H3 & H4 & H5).
  unfold Evaluate, checkLayers, checkScore, checkCVEs, checkNonRoot,
    checkLatestTag. cbv zeta. rewrite H1, H2, H3, H4, H5.
  destruct (0 <? MaxLayers config); reflexivity.
Qed.

(** ** The policy and the analyzer *)

(** X24. The policy on the analysis of a file, as the command [policy] of
    the program evaluates it: the analysis is the one that [Analyze] returns
    for the file (with the finding of a missing [.dockerignore] and with the
    issues of hadolint, when there are such), in a pipeline result with
    nothing else. For a file of ASCII bytes that can be read, [Analyze]
    returns an analysis, and: the rule require_non_root is listed when the
    configuration asks for it, and passes exactly when some [USER]
    instruction of the text names a user other than root and 0; the rule
    forbid_latest_tag is listed when the configuration asks for it, and
    passes exactly when the rule of the analyzer for unpinned base images
    raises nothing; the rule min_score is listed when the minimum is above
    0, and passes exactly when the score of that analysis, which is the
    score of all its issues, reaches it. No other rule is listed, whatever
    the configuration says of sizes, CVEs and layers. *)
Theorem Evaluate_analysis (parse : string -> option Z) (config : Config)
    (hadolintAvailable : bool) (path content : string) (missing : bool)
    (run : HadolintRun) :
  isASCII content = true ->
  exists analysis,
    Analyze (New hadolintAvailable) path (inl content) missing run
    = Some (inl analysis)
    /\ let ctx := fileContext path content missing in
       let res := Evaluate parse config (analysisOnly path analysis) in
       rulePassed res "require_non_root"
       = (if RequireNonRoot config
          then Some (existsb namesNonRoot (Instructions (ParsedFile ctx)))
          else None)
       /\ rulePassed res "forbid_latest_tag"
          = (if ForbidLatestTag config
             then Some (isNil (LatestTagCheck ctx)) else None)
       /\ rulePassed res "min_score"
          = (if 0 <? MinScore config
             then Some (MinScore config <=? Score analysis) else None)
       /\ Score analysis = calculateScore (Issues analysis)
       /\ rulePassed res "max_image_size" = None
       /\ rulePassed res "max_critical_cves" = None
       /\ rulePassed res "max_high_cves" = None
       /\ rulePassed res "max_layers" = None.
Proof.
  intros _.
  destruct (Analyze_issues hadolintAvailable path content missing run)
    as (analysis & extra & E & Hi & Hs & Hx).
  exists analysis. split; [exact E|]. cbv zeta.
  destruct (builtin_raises_file path content missing) as (H1 & H6).
  cbv zeta in H1, H6.
  unfold Evaluate, checkLayers, checkScore, checkCVEs, checkNonRoot,
    checkLatestTag, analysisOnly, rulePassed.
  cbv zeta. cbn [PipelineAnalysis BaselineImage OptimizedImage
                 PipelineScanResult OptScanResult].
  unfold policy.hasIssue.
  rewrite Hi, !existsb_app, H1, H6, !Hx by reflexivity.
  rewrite !orb_false_r, !negb_involutive.
  destruct (ForbidLatestTag config), (RequireNonRoot config),
    (0 <? MinScore config), (0 <? MaxLayers config);
    repeat split; try reflexivity; rewrite <- Hi; exact Hs.
Qed.

Lemma Evaluate_analysis_witness :
  exists analysis,
    Analyze (New true) "Dockerfile" (inl unpinnedText) true
            (Results hadolintSample) = Some (inl analysis)
    /\ rulePassed (Evaluate (fun _ => None) DefaultConfig
                     (analysisOnly "Dockerfile" analysis)) "require_non_root"
       = Some false.
Proof.
  assert (Ha : isASCII unpinnedText = true) by (vm_compute; reflexivity).
  destruct (Evaluate_analysis (fun _ => None) DefaultConfig true "Dockerfile"
              unpinnedText true (Results hadolintSample) Ha)
    as (analysis & E & H).
  exists analysis. split; [exact E|].
  cbv zeta in H. destruct H as (H & _). rewrite H.
  vm_compute. reflexivity.
Defined.

End PolicySpec.
